(** * ItineraryApp: the trip document, its handlers and the Firestore listener

    A shallow embedding of [src/App.jsx].  The React state updaters
    ([handleDetailChange], [handleActivityChange], [addActivity],
    [removeActivity], [addDay], [removeDay], [handleBudgetChange]) become
    functions from the previous [TripDocument] to the next one; an updater
    that can throw returns a [result].  Each updater also hands the state it
    returns to [saveItinerary]; what that call writes is [saveItinerary]
    below, and it has no part in the state returned.  The host functions
    the handlers call ([Date], [parseFloat], [JSON]) are modelled in
    [Module JS] after ECMAScript.  A JavaScript string is held as the
    bytes of its UTF-8 encoding. *)

From Stdlib Require Import ZArith QArith List String Ascii Bool Lia Floats.
Import ListNotations.

Local Open Scope string_scope.
Local Open Scope Z_scope.

(** ** The host: exceptions, dates, numbers *)

Module JS.

(** A JavaScript completion: a value, or a thrown exception. *)
Inductive exn : Type := RangeError | SyntaxError.

Inductive result (A : Type) : Type :=
| Ok (a : A)
| Throw (e : exn).
Arguments Ok {A} a.
Arguments Throw {A} e.

Definition bind {A B : Type} (r : result A) (k : A -> result B) : result B :=
  match r with
  | Ok a => k a
  | Throw e => Throw e
  end.

(** [Array.prototype.map] with a callback that may throw: the elements are
    visited in order and the first exception aborts the traversal. *)
Fixpoint mapM {A B : Type} (f : A -> result B) (l : list A) : result (list B) :=
  match l with
  | [] => Ok []
  | x :: xs =>
      bind (f x) (fun y => bind (mapM f xs) (fun ys => Ok (y :: ys)))
  end.

(** *** Decimal digits *)

Definition digit (z : Z) : ascii := ascii_of_N (48 + Z.to_N z).

Definition digit_val (c : ascii) : option Z :=
  let n := Z.of_N (N_of_ascii c) in
  if (48 <=? n) && (n <=? 57) then Some (n - 48) else None.

(** [pad n z]: the last [n] decimal digits of [z], zero padded. *)
Fixpoint pad (n : nat) (z : Z) : string :=
  match n with
  | O => ""
  | S k => pad k (z / 10) ++ String (digit (z mod 10)) ""
  end.

(** Reads exactly [n] decimal digits off the front of [s]. *)
Fixpoint read_digits (n : nat) (acc : Z) (s : string) : option (Z * string) :=
  match n with
  | O => Some (acc, s)
  | S k =>
      match s with
      | String c rest =>
          match digit_val c with
          | Some d => read_digits k (acc * 10 + d) rest
          | None => None
          end
      | EmptyString => None
      end
  end.

(** *** Time values and the calendar (ECMAScript, Date objects)

    A time value is a number of milliseconds since 1970-01-01T00:00:00Z, or
    NaN.  The handlers add [(n - 1) * 86400000], for a day number [n], to
    the time value of a parsed date.  When the exact sum is within the range
    of [TimeClip], which lies below [2^53], the product and the sum are
    exact in IEEE double arithmetic; when it is not, the double result is
    out of range as well.  Time values are therefore kept in [Z], with
    [None] for NaN. *)

Definition msPerDay : Z := 86400000.
Definition maxTime : Z := 8640000000000000.

Definition TimeValue : Type := option Z.

Definition TimeClip (t : Z) : TimeValue :=
  if Z.abs t <=? maxTime then Some t else None.

(** [new Date(number)] *)
Definition Date_of_number (t : TimeValue) : TimeValue :=
  match t with
  | Some v => TimeClip v
  | None => None
  end.

(** [x + k] on numbers, NaN absorbing. *)
Definition tv_add (t : TimeValue) (k : Z) : TimeValue :=
  match t with
  | Some v => Some (v + k)
  | None => None
  end.

Definition Day (t : Z) : Z := t / msPerDay.

Definition isLeap (y : Z) : bool :=
  (y mod 4 =? 0) && (negb (y mod 100 =? 0) || (y mod 400 =? 0)).

Definition daysInMonth (y m : Z) : Z :=
  if m =? 2 then (if isLeap y then 29 else 28)
  else if (m =? 4) || (m =? 6) || (m =? 9) || (m =? 11) then 30
  else 31.

(** Year (counted from March, within a 400 year era), month and day of
    month of the [doe]-th day of an era; eras start on 1 March. *)
Definition civil_of_doe (doe : Z) : Z * Z * Z :=
  let yoe := (doe - doe / 1460 + doe / 36524 - doe / 146096) / 365 in
  let doy := doe - (365 * yoe + yoe / 4 - yoe / 100) in
  let mp := (5 * doy + 2) / 153 in
  let d := doy - (153 * mp + 2) / 5 + 1 in
  let m := if mp <? 10 then mp + 3 else mp - 9 in
  (if m <=? 2 then yoe + 1 else yoe, m, d).

(** [YearFromTime], [MonthFromTime] (1-based) and [DateFromTime] of day
    number [z], proleptic Gregorian calendar. *)
Definition civil_from_days (z : Z) : Z * Z * Z :=
  let z' := z + 719468 in
  let era := z' / 146097 in
  let doe := z' mod 146097 in
  let '(y, m, d) := civil_of_doe doe in
  (y + 400 * era, m, d).

(** [MakeDay]: the day number of a calendar date. *)
Definition days_from_civil (y m d : Z) : Z :=
  let y' := if m <=? 2 then y - 1 else y in
  let era := y' / 400 in
  let yoe := y' mod 400 in
  let mp := if 2 <? m then m - 3 else m + 9 in
  let doy := (153 * mp + 2) / 5 + d - 1 in
  let doe := yoe * 365 + yoe / 4 - yoe / 100 + doy in
  era * 146097 + doe - 719468.

(** The year of an ISO string: four digits for years 0..9999, otherwise a
    sign and six digits. *)
Definition format_year (y : Z) : string :=
  if (0 <=? y) && (y <=? 9999) then pad 4 y
  else if y <? 0 then "-" ++ pad 6 (- y)
  else "+" ++ pad 6 y.

Definition format_civil (c : Z * Z * Z) : string :=
  let '(y, m, d) := c in
  format_year y ++ "-" ++ pad 2 m ++ "-" ++ pad 2 d.

(** The part of [toISOString()] before the ['T']. *)
Definition isoDate (t : Z) : string := format_civil (civil_from_days (Day t)).

(** The part of [toISOString()] after the ['T']. *)
Definition isoTime (t : Z) : string :=
  let ms := t mod msPerDay in
  pad 2 (ms / 3600000) ++ ":" ++ pad 2 (ms / 60000 mod 60) ++ ":"
    ++ pad 2 (ms / 1000 mod 60) ++ "." ++ pad 3 (ms mod 1000) ++ "Z".

(** [Date.prototype.toISOString]: throws a RangeError on an invalid date. *)
Definition toISOString (d : TimeValue) : result string :=
  match d with
  | Some t => Ok (isoDate t ++ "T" ++ isoTime t)
  | None => Throw RangeError
  end.

(** [s.split(sep)[0]]: the part of [s] before the first [sep]. *)
Fixpoint split_head (sep : ascii) (s : string) : string :=
  match s with
  | EmptyString => ""
  | String c rest =>
      if Ascii.eqb c sep then "" else String c (split_head sep rest)
  end.

(** [d.toISOString().split('T')[0]] *)
Definition toISODate (d : TimeValue) : result string :=
  bind (toISOString d) (fun s => Ok (split_head "T" s)).

(** *** [Date.parse]

    The date-only forms of the ECMAScript date time string format
    ([YYYY], [YYYY-MM], [YYYY-MM-DD], the year also as a sign and six
    digits), read as UTC.  These are the strings a date input delivers and
    [isoDate] produces, and every engine reads them alike; so it does the
    empty string of a cleared input, which is NaN.  On any other string
    ECMAScript lets an engine fall back on a format of its own (V8 reads
    "2024-02-30" as the first of March), and a string with a time of day
    and no offset is read in the host's time zone: such strings are
    outside the modelled domain.  [Date_parse] answers NaN on them as the
    format asks, and the statements below conclude from
    [Date_parse s = Some t] or from [s = ""], never from a string that is
    merely outside these forms. *)

Definition read_year (s : string) : option (Z * string) :=
  match s with
  | String "+" rest => read_digits 6 0 rest
  | String "-" rest =>
      match read_digits 6 0 rest with
      | Some (y, rest') => if y =? 0 then None else Some (- y, rest')
      | None => None
      end
  | _ => read_digits 4 0 s
  end.

(** Reads ["-NN"]. *)
Definition read_field (s : string) : option (Z * string) :=
  match s with
  | String "-" rest => read_digits 2 0 rest
  | _ => None
  end.

(** The calendar date a date-only string names. *)
Definition parse_civil (s : string) : option (Z * Z * Z) :=
  match read_year s with
  | Some (y, EmptyString) => Some (y, 1, 1)
  | Some (y, s1) =>
      match read_field s1 with
      | Some (m, s2) =>
          if (1 <=? m) && (m <=? 12) then
            match s2 with
            | EmptyString => Some (y, m, 1)
            | _ =>
                match read_field s2 with
                | Some (d, EmptyString) =>
                    if (1 <=? d) && (d <=? daysInMonth y m)
                    then Some (y, m, d) else None
                | _ => None
                end
            end
          else None
      | None => None
      end
  | None => None
  end.

Definition Date_parse (s : string) : TimeValue :=
  match parse_civil s with
  | Some (y, m, d) => TimeClip (days_from_civil y m d * msPerDay)
  | None => None
  end.

(** *** Numbers and [parseFloat]

    A JavaScript Number is an IEEE 754 binary64 value: Rocq's primitive
    [float], whose operations are the processor's. *)

Definition Number : Type := float.

(** [ToBoolean] of a Number: [+0], [-0] and NaN are falsy. *)
Definition ToBoolean (x : Number) : bool := negb (is_nan x || is_zero x).

(** [x || y] on Numbers. *)
Definition or_else (x y : Number) : Number := if ToBoolean x then x else y.

(** The double nearest to [num / den] (ties to even), for positive [num]
    and [den]: a quotient of at least 60 bits and the position of the
    remainder are handed to the IEEE rounding of [SpecFloat]. *)
Definition round_ratio (neg : bool) (num den : Z) : Number :=
  let e := Z.log2 num - Z.log2 den - 60 in
  let n' := if 0 <=? e then num else num * 2 ^ (- e) in
  let d' := if 0 <=? e then den * 2 ^ e else den in
  let q := n' / d' in
  let r := n' mod d' in
  let loc := if r =? 0 then loc_Exact else loc_Inexact (2 * r ?= d') in
  SF2Prim (binary_round_aux prec emax neg q e loc).

(** The Number denoted by the decimal [m * 10^e], [0 <= m]. *)
Definition round_decimal (neg : bool) (m e : Z) : Number :=
  if m =? 0 then (if neg then neg_zero else zero)
  else if 0 <=? e then round_ratio neg (m * 10 ^ e) 1
  else round_ratio neg m (10 ^ (- e)).

(** [StrWhiteSpaceChar]: the white space and line terminator code points
    of ECMAScript, by their UTF-8 bytes.  One byte: U+0009 to U+000D and
    U+0020. *)
Definition is_white (c : ascii) : bool :=
  let n := Z.of_N (N_of_ascii c) in
  ((9 <=? n) && (n <=? 13)) || (n =? 32).

(** Two bytes: U+00A0. *)
Definition is_white2 (c1 c2 : ascii) : bool :=
  (Z.of_N (N_of_ascii c1) =? 194) && (Z.of_N (N_of_ascii c2) =? 160).

(** Three bytes: U+1680, U+2000 to U+200A, U+2028, U+2029, U+202F, U+205F,
    U+3000 and U+FEFF. *)
Definition is_white3 (c1 c2 c3 : ascii) : bool :=
  let n1 := Z.of_N (N_of_ascii c1) in
  let n2 := Z.of_N (N_of_ascii c2) in
  let n3 := Z.of_N (N_of_ascii c3) in
  ((n1 =? 225) && (n2 =? 154) && (n3 =? 128))
  || ((n1 =? 226) && (n2 =? 128)
      && (((128 <=? n3) && (n3 <=? 138))
          || (n3 =? 168) || (n3 =? 169) || (n3 =? 175)))
  || ((n1 =? 226) && (n2 =? 129) && (n3 =? 159))
  || ((n1 =? 227) && (n2 =? 128) && (n3 =? 128))
  || ((n1 =? 239) && (n2 =? 187) && (n3 =? 191)).

Fixpoint trimStart (s : string) : string :=
  match s with
  | String c1 r1 =>
      if is_white c1 then trimStart r1
      else
        match r1 with
        | String c2 r2 =>
            if is_white2 c1 c2 then trimStart r2
            else
              match r2 with
              | String c3 r3 =>
                  if is_white3 c1 c2 c3 then trimStart r3 else s
              | EmptyString => s
              end
        | EmptyString => s
        end
  | EmptyString => s
  end.

(** The longest run of decimal digits at the front of [s]: its value on
    top of [acc], its length, and what follows. *)
Fixpoint read_run (s : string) (acc : Z) (n : Z) : Z * Z * string :=
  match s with
  | String c rest =>
      match digit_val c with
      | Some d => read_run rest (acc * 10 + d) (n + 1)
      | None => (acc, n, s)
      end
  | EmptyString => (acc, n, s)
  end.

(** The exponent part [e], [e+], [e-] followed by digits, when one is
    there; [0] otherwise. *)
Definition read_exponent (s : string) : Z :=
  match s with
  | String c rest =>
      if Ascii.eqb c "e" || Ascii.eqb c "E" then
        let '(neg, digits) :=
          match rest with
          | String "+" r => (false, r)
          | String "-" r => (true, r)
          | _ => (false, rest)
          end in
        let '(v, n, _) := read_run digits 0 0 in
        if n =? 0 then 0 else if neg then - v else v
      else 0
  | EmptyString => 0
  end.

(** [StrUnsignedDecimalLiteral], longest prefix. *)
Definition read_unsigned (neg : bool) (s : string) : Number :=
  if prefix "Infinity" s then (if neg then neg_infinity else infinity)
  else
    let '(i, ni, s1) := read_run s 0 0 in
    let '(m, nf, s2) :=
      match s1 with
      | String "." rest => read_run rest i 0
      | _ => (i, 0, s1)
      end in
    if ni + nf =? 0 then nan
    else round_decimal neg m (read_exponent s2 - nf).

(** The global [parseFloat] on a string. *)
Definition parseFloat (s : string) : Number :=
  match trimStart s with
  | String "+" rest => read_unsigned false rest
  | String "-" rest => read_unsigned true rest
  | s' => read_unsigned false s'
  end.

End JS.

Import JS.

(** ** The trip document *)

Module Activity.
Record t : Type := mk { id : string; time : string; description : string }.
End Activity.

Module DayPlan.
Record t : Type := mk {
  id : string;
  day : Z;
  date : string;
  activities : list Activity.t
}.
End DayPlan.

(** A budget category object.  A property that is absent is [None]; the
    handler creates a category with a single property when the key is
    new. *)
Record BudgetCategory : Type := {
  estimated : option Number;
  actual : option Number
}.

(** The [budget] object: the [currency] property and, in property order,
    the category properties.  The order is kept because
    [Object.values(budget)] is summed in it and the addition of doubles is
    not associative. *)
Record BudgetSheet : Type := {
  currency : string;
  categories : list (string * BudgetCategory)
}.

Record TripDocument : Type := {
  title : string;
  destination : string;
  startDate : string;
  endDate : string;
  notes : string;
  itinerary : list DayPlan.t;
  budget : BudgetSheet
}.

(** [o[k]] *)
Fixpoint obj_get {V : Type} (k : string) (o : list (string * V)) : option V :=
  match o with
  | [] => None
  | (k', v) :: rest => if String.eqb k' k then Some v else obj_get k rest
  end.

(** A property key that is an array index, the canonical numeral of an
    integer below [2^32 - 1]: an object enumerates these keys first, in
    ascending order, and the other strings after them as they were
    created. *)
Definition array_index (k : string) : option Z :=
  match k with
  | String "0" EmptyString => Some 0
  | String "0" _ => None
  | _ =>
      let '(n, len, rest) := read_run k 0 0 in
      if (0 <? len) && String.eqb rest "" && (n <? 2 ^ 32 - 1)
      then Some n else None
  end.

(** An own property keeps its place. *)
Fixpoint obj_replace {V : Type} (k : string) (v : V) (o : list (string * V))
  : list (string * V) :=
  match o with
  | [] => []
  | (k', v') :: rest =>
      if String.eqb k' k then (k, v) :: rest
      else (k', v') :: obj_replace k v rest
  end.

(** A new array index [n] goes after the smaller indices. *)
Fixpoint obj_insert {V : Type} (n : Z) (k : string) (v : V)
    (o : list (string * V)) : list (string * V) :=
  match o with
  | [] => [(k, v)]
  | (k', v') :: rest =>
      match array_index k' with
      | Some n' =>
          if n' <? n then (k', v') :: obj_insert n k v rest
          else (k, v) :: o
      | None => (k, v) :: o
      end
  end.

(** [{...o, [k]: v}]: an own property keeps its place; a new one goes
    last, unless it is an array index. *)
Definition obj_set {V : Type} (k : string) (v : V) (o : list (string * V))
  : list (string * V) :=
  match obj_get k o with
  | Some _ => obj_replace k v o
  | None =>
      match array_index k with
      | Some n => obj_insert n k v o
      | None => (o ++ [(k, v)])%list
      end
  end.

Definition with_itinerary (prev : TripDocument) (it : list DayPlan.t)
  : TripDocument :=
  {| title := title prev; destination := destination prev;
     startDate := startDate prev; endDate := endDate prev;
     notes := notes prev; itinerary := it; budget := budget prev |}.

Definition with_budget (prev : TripDocument) (b : BudgetSheet)
  : TripDocument :=
  {| title := title prev; destination := destination prev;
     startDate := startDate prev; endDate := endDate prev;
     notes := notes prev; itinerary := itinerary prev; budget := b |}.

Definition with_activities (d : DayPlan.t) (acts : list Activity.t)
  : DayPlan.t :=
  DayPlan.mk (DayPlan.id d) (DayPlan.day d) (DayPlan.date d) acts.

(** [new Date(start.getTime() + (n - 1) * 86400000).toISOString().split('T')[0]]
    for [start = new Date(startDate)]. *)
Definition dayDate (start : TimeValue) (n : Z) : result string :=
  toISODate (Date_of_number (tv_add start ((n - 1) * 86400000))).

(** *** [defaultItinerary]

    The object literal reads the clock three times ([new Date()],
    [Date.now()], [new Date()]) and draws two UUIDs; the readings and the
    UUIDs are the arguments, in evaluation order. *)
Definition defaultItinerary (now1 now2 : Z) (uuid1 : string) (now3 : Z)
    (uuid2 : string) : result TripDocument :=
  bind (toISODate (TimeClip now1)) (fun start =>
  bind (toISODate (Date_of_number (Some (now2 + 86400000 * 2)))) (fun stop =>
  bind (toISODate (TimeClip now3)) (fun day1 =>
  Ok {| title := "Vigovia Trip Itinerary";
        destination := "Lisbon, Portugal";
        startDate := start;
        endDate := stop;
        notes := "Remember to pack comfortable walking shoes and charge your camera battery!";
        itinerary :=
          [ DayPlan.mk uuid1 1 day1
              [ Activity.mk uuid2 "09:00" "Arrive at Airport" ] ];
        budget :=
          {| currency := "USD";
             categories :=
               [ ("flights", {| estimated := Some 600%float; actual := Some 0%float |});
                 ("accommodation", {| estimated := Some 500%float; actual := Some 0%float |});
                 ("activities", {| estimated := Some 400%float; actual := Some 0%float |});
                 ("miscellaneous", {| estimated := Some 100%float; actual := Some 0%float |}) ] |}
     |}))).

(** ** The handlers *)

(** The [name] attributes of the inputs wired to [handleDetailChange]. *)
Module Name.
Inductive t : Type := title | destination | startDate | endDate | notes.
End Name.

(** [{ ...prev, [name]: value }] *)
Definition set_detail (name : Name.t) (value : string) (prev : TripDocument)
  : TripDocument :=
  {| title := match name with Name.title => value | _ => title prev end;
     destination :=
       match name with Name.destination => value | _ => destination prev end;
     startDate :=
       match name with Name.startDate => value | _ => startDate prev end;
     endDate := match name with Name.endDate => value | _ => endDate prev end;
     notes := match name with Name.notes => value | _ => notes prev end;
     itinerary := itinerary prev;
     budget := budget prev |}.

Definition handleDetailChange (name : Name.t) (value : string)
    (prev : TripDocument) : result TripDocument :=
  let newState := set_detail name value prev in
  match name, itinerary prev with
  | Name.startDate, _ :: _ =>
      let startDateObj := Date_parse value in
      bind
        (mapM
           (fun day =>
              bind (dayDate startDateObj (DayPlan.day day)) (fun newDate =>
              Ok (DayPlan.mk (DayPlan.id day) (DayPlan.day day) newDate
                    (DayPlan.activities day))))
           (itinerary prev))
        (fun it => Ok (with_itinerary newState it))
  | _, _ => Ok newState
  end.

(** The two [field] arguments the form passes to [handleActivityChange]. *)
Module Field.
Inductive t : Type := time | description.
End Field.

(** [{ ...activity, [field]: value }] *)
Definition set_activity (field : Field.t) (value : string) (a : Activity.t)
  : Activity.t :=
  match field with
  | Field.time => Activity.mk (Activity.id a) value (Activity.description a)
  | Field.description => Activity.mk (Activity.id a) (Activity.time a) value
  end.

Definition handleActivityChange (dayId activityId : string) (field : Field.t)
    (value : string) (prev : TripDocument) : TripDocument :=
  let newItinerary :=
    map (fun day =>
           if String.eqb (DayPlan.id day) dayId then
             with_activities day
               (map (fun activity =>
                       if String.eqb (Activity.id activity) activityId
                       then set_activity field value activity
                       else activity)
                    (DayPlan.activities day))
           else day)
        (itinerary prev) in
  with_itinerary prev newItinerary.

(** The callback of [prev.itinerary.map] in [addActivity] calls
    [crypto.randomUUID()] once for each day that has the id:
    [randomUUID n] is the value the call numbered [n], from 0, returns,
    and [calls] counts the calls made so far. *)
Fixpoint addActivity_map (randomUUID : nat -> string) (dayId : string)
    (calls : nat) (days : list DayPlan.t) : list DayPlan.t :=
  match days with
  | [] => []
  | day :: rest =>
      if String.eqb (DayPlan.id day) dayId then
        with_activities day
          (DayPlan.activities day
             ++ [Activity.mk (randomUUID calls) "" ""])%list
        :: addActivity_map randomUUID dayId (S calls) rest
      else day :: addActivity_map randomUUID dayId calls rest
  end.

Definition addActivity (randomUUID : nat -> string) (dayId : string)
    (prev : TripDocument) : TripDocument :=
  let newItinerary :=
    addActivity_map randomUUID dayId 0 (itinerary prev) in
  with_itinerary prev newItinerary.

Definition removeActivity (dayId activityId : string) (prev : TripDocument)
  : TripDocument :=
  let newItinerary :=
    map (fun day =>
           if String.eqb (DayPlan.id day) dayId then
             with_activities day
               (filter (fun activity =>
                          negb (String.eqb (Activity.id activity) activityId))
                       (DayPlan.activities day))
           else day)
        (itinerary prev) in
  with_itinerary prev newItinerary.

(** [uuid1] and [uuid2] are the two UUIDs drawn for the day and for its
    activity. *)
Definition addDay (uuid1 uuid2 : string) (prev : TripDocument)
  : result TripDocument :=
  let newDayNumber := Z.of_nat (List.length (itinerary prev)) + 1 in
  let startDate := Date_parse (startDate prev) in
  bind (dayDate startDate newDayNumber) (fun newDate =>
  let newDay :=
    DayPlan.mk uuid1 newDayNumber newDate
      [Activity.mk uuid2 "09:00" "New Day Activity"] in
  Ok (with_itinerary prev (itinerary prev ++ [newDay])%list)).

(** The [map] of [removeDay], with the counter [dayIndex] the callback
    increments threaded through. *)
Fixpoint renumber (start : string) (dayIndex : Z) (l : list DayPlan.t)
  : result (list DayPlan.t) :=
  match l with
  | [] => Ok []
  | day :: rest =>
      let startDate := Date_parse start in
      bind (dayDate startDate dayIndex) (fun newDate =>
      bind (renumber start (dayIndex + 1) rest) (fun rest' =>
      Ok (DayPlan.mk (DayPlan.id day) dayIndex newDate
            (DayPlan.activities day) :: rest')))
  end.

Definition removeDay (dayId : string) (prev : TripDocument)
  : result TripDocument :=
  let filteredItinerary :=
    filter (fun day => negb (String.eqb (DayPlan.id day) dayId))
           (itinerary prev) in
  bind (renumber (startDate prev) 1 filteredItinerary) (fun newItinerary =>
  Ok (with_itinerary prev newItinerary)).

(** The two [data-field] attributes of the budget inputs. *)
Module Dataset.
Inductive field : Type := estimated | actual.
End Dataset.

(** [{ ...category, [field]: numericValue }] *)
Definition set_amount (f : Dataset.field) (x : Number) (c : BudgetCategory)
  : BudgetCategory :=
  match f with
  | Dataset.estimated => {| estimated := Some x; actual := actual c |}
  | Dataset.actual => {| estimated := estimated c; actual := Some x |}
  end.

(** [{ ...undefined }] *)
Definition no_category : BudgetCategory :=
  {| estimated := None; actual := None |}.

(** [handleBudgetChange] on an event whose target has the given [name],
    [value] and [dataset.field] ([None] when the element has no
    [data-field], as the currency selector). *)
Definition handleBudgetChange (name value : string)
    (field : option Dataset.field) (prev : TripDocument) : TripDocument :=
  if String.eqb name "currency" then
    with_budget prev
      {| currency := value; categories := categories (budget prev) |}
  else
    match field with
    | Some f =>
        let numericValue := or_else (parseFloat value) 0%float in
        let old :=
          match obj_get name (categories (budget prev)) with
          | Some c => c
          | None => no_category
          end in
        with_budget prev
          {| currency := currency (budget prev);
             categories :=
               obj_set name (set_amount f numericValue old)
                 (categories (budget prev)) |}
    | None => prev
    end.

(** *** [BudgetPlanner]

    [Object.values(budget)] holds the currency string, which has no numeric
    [estimated] or [actual] and is skipped by the [typeof] test, and the
    categories in property order. *)
Definition totalEstimated (b : BudgetSheet) : Number :=
  fold_left
    (fun sum item =>
       match estimated item with
       | Some x => (sum + x)%float
       | None => sum
       end)
    (map snd (categories b)) 0%float.

Definition totalActual (b : BudgetSheet) : Number :=
  fold_left
    (fun sum item =>
       match actual item with
       | Some x => (sum + x)%float
       | None => sum
       end)
    (map snd (categories b)) 0%float.

Definition status (b : BudgetSheet) : string :=
  if (totalEstimated b <? totalActual b)%float
  then "Over Budget" else "On Track".

(** ** JSON and the Firestore listener *)

#[local] Set Warnings "-register-all".

(** The values [JSON.parse] builds.  A Number is held either as the integer
    it is ([JInt], the day numbers, which the document keeps in [Z]) or as a
    double ([JNum], the budget amounts). *)
Inductive JSValue : Type :=
| JNull
| JBool (b : bool)
| JInt (z : Z)
| JNum (x : Number)
| JStr (s : string)
| JArr (l : list JSValue)
| JObj (o : list (string * JSValue)).

(** What [JSON.stringify] writes for a Number: [null] for NaN and the
    infinities, [0] for the negative zero, and otherwise a literal that
    reads back as the same double. *)
Definition JSON_number (x : Number) : JSValue :=
  match classify x with
  | NaN | PInf | NInf => JNull
  | NZero => JNum 0%float
  | _ => JNum x
  end.

(** The syntax tree of the text [JSON.stringify v] writes. *)
Fixpoint JSON_tree (v : JSValue) : JSValue :=
  match v with
  | JNum x => JSON_number x
  | JArr l => JArr (map JSON_tree l)
  | JObj o => JObj (map (fun kv => (fst kv, JSON_tree (snd kv))) o)
  | _ => v
  end.

(** The string stored in [itineraryData], up to concrete syntax: a JSON
    text, given by its syntax tree, or a string that is not one. *)
Inductive Payload : Type :=
| JSONText (v : JSValue)
| NotJSON (s : string).

Definition JSON_stringify (v : JSValue) : Payload := JSONText (JSON_tree v).

Definition JSON_parse (p : Payload) : result JSValue :=
  match p with
  | JSONText v => Ok v
  | NotJSON _ => Throw SyntaxError
  end.

(** The document as a JavaScript value.  An object is given by the list of
    its properties: the fields of the document and of a day in the order
    of the literals, the budget as its currency followed by its
    categories.  The statements compare these values for equality; none
    depends on where the currency stands among the categories. *)
Definition Activity_value (a : Activity.t) : JSValue :=
  JObj [ ("id", JStr (Activity.id a));
         ("time", JStr (Activity.time a));
         ("description", JStr (Activity.description a)) ].

Definition DayPlan_value (d : DayPlan.t) : JSValue :=
  JObj [ ("id", JStr (DayPlan.id d));
         ("day", JInt (DayPlan.day d));
         ("date", JStr (DayPlan.date d));
         ("activities", JArr (map Activity_value (DayPlan.activities d))) ].

Definition property (k : string) (x : option Number)
  : list (string * JSValue) :=
  match x with
  | Some v => [(k, JNum v)]
  | None => []
  end.

Definition BudgetCategory_value (c : BudgetCategory) : JSValue :=
  JObj (property "estimated" (estimated c) ++ property "actual" (actual c))%list.

Definition BudgetSheet_value (b : BudgetSheet) : JSValue :=
  JObj (("currency", JStr (currency b))
          :: map (fun kc => (fst kc, BudgetCategory_value (snd kc)))
               (categories b)).

Definition to_value (doc : TripDocument) : JSValue :=
  JObj [ ("title", JStr (title doc));
         ("destination", JStr (destination doc));
         ("startDate", JStr (startDate doc));
         ("endDate", JStr (endDate doc));
         ("notes", JStr (notes doc));
         ("itinerary", JArr (map DayPlan_value (itinerary doc)));
         ("budget", BudgetSheet_value (budget doc)) ].

(** The Firestore record; [itineraryData] is [None] when the field is
    missing. *)
Record FirestoreRecord : Type := {
  itineraryData : option Payload;
  lastUpdated : string
}.

(** [if (data.itineraryData)]: a missing field and the empty string are
    falsy. *)
Definition truthy (p : option Payload) : bool :=
  match p with
  | None => false
  | Some (NotJSON "") => false
  | Some _ => true
  end.

(** What [saveItinerary] hands to [setDoc]: the document path and the
    record, or nothing when it returns early.  [now] is the clock reading
    of [new Date()]. *)
Definition saveItinerary (db : bool) (userId : option string)
    (appId : string) (now : Z) (dataToSave : JSValue)
  : option (string * FirestoreRecord) :=
  match db, userId with
  | true, Some (String c u) =>
      let userId := String c u in
      let docPath :=
        "artifacts/" ++ appId ++ "/users/" ++ userId
          ++ "/itinerary_data/trip_master" in
      Some (docPath,
            {| itineraryData := Some (JSON_stringify dataToSave);
               lastUpdated := isoDate now ++ "T" ++ isoTime now |})
  | _, _ => None
  end.

(** The calls the [onSnapshot] listener makes, in order. *)
Inductive Call : Type :=
| setTripDetails (v : JSValue)
| call_saveItinerary (dataToSave : JSValue)
| console_error (msg : string).

(** The listener; [docSnap] is [None] when [docSnap.exists()] is false. *)
Definition onSnapshot_listener (defaultItinerary : JSValue)
    (docSnap : option FirestoreRecord) : list Call :=
  match docSnap with
  | Some data =>
      match itineraryData data with
      | Some payload =>
          if truthy (Some payload) then
            match JSON_parse payload with
            | Ok parsedData => [setTripDetails parsedData]
            | Throw _ =>
                [ console_error "Error parsing stored itinerary data:";
                  setTripDetails defaultItinerary ]
            end
          else [call_saveItinerary defaultItinerary]
      | None => [call_saveItinerary defaultItinerary]
      end
  | None => [call_saveItinerary defaultItinerary]
  end.

(** The local state after the listener has run: the last value handed to
    [setTripDetails], or the previous state. *)
Definition local_state (prev : JSValue) (calls : list Call) : JSValue :=
  fold_left
    (fun st c => match c with setTripDetails v => v | _ => st end)
    calls prev.

(** ** Sequences of day edits *)

Inductive DayEdit : Type :=
| AddDay (uuid1 uuid2 : string)
| RemoveDay (dayId : string).

Definition edit (e : DayEdit) (prev : TripDocument) : result TripDocument :=
  match e with
  | AddDay uuid1 uuid2 => addDay uuid1 uuid2 prev
  | RemoveDay dayId => removeDay dayId prev
  end.

Fixpoint edits (es : list DayEdit) (doc : TripDocument)
  : result TripDocument :=
  match es with
  | [] => Ok doc
  | e :: rest => bind (edit e doc) (edits rest)
  end.

(** Day numbers [1..N] in order. *)
Definition day_numbers (doc : TripDocument) : list Z :=
  map DayPlan.day (itinerary doc).

Definition one_to (n : nat) : list Z := map Z.of_nat (seq 1 n).

Definition contiguous (doc : TripDocument) : Prop :=
  day_numbers doc = one_to (List.length (itinerary doc)).

(** ** Notions used in the statements *)

(** The four category keys the budget form offers. *)
Definition fixed_keys : list string :=
  ["flights"; "accommodation"; "activities"; "miscellaneous"].

(** The amount stored at [budget[key][f]], if any. *)
Definition amount (f : Dataset.field) (c : BudgetCategory) : option Number :=
  match f with
  | Dataset.estimated => estimated c
  | Dataset.actual => actual c
  end.

Definition budget_amount (doc : TripDocument) (key : string)
    (f : Dataset.field) : option Number :=
  match obj_get key (categories (budget doc)) with
  | Some c => amount f c
  | None => None
  end.

(** The default document built at 2023-11-14T22:13:20Z. *)
Definition sample_clock : Z := 1700000000000.

Definition sample : TripDocument :=
  {| title := "Vigovia Trip Itinerary";
     destination := "Lisbon, Portugal";
     startDate := "2023-11-14";
     endDate := "2023-11-16";
     notes := "Remember to pack comfortable walking shoes and charge your camera battery!";
     itinerary :=
       [ DayPlan.mk "day-1" 1 "2023-11-14"
           [ Activity.mk "act-1" "09:00" "Arrive at Airport" ] ];
     budget :=
       {| currency := "USD";
          categories :=
            [ ("flights", {| estimated := Some 600%float; actual := Some 0%float |});
              ("accommodation", {| estimated := Some 500%float; actual := Some 0%float |});
              ("activities", {| estimated := Some 400%float; actual := Some 0%float |});
              ("miscellaneous", {| estimated := Some 100%float; actual := Some 0%float |}) ] |}
  |}.

(** "[D] + [k] days" on calendar dates: the date [k] days after the date
    the string [D] names, written as an ISO date. *)
Definition addDays (D : string) (k : Z) : option string :=
  match parse_civil D with
  | Some (y, m, d) =>
      Some (format_civil (civil_from_days (days_from_civil y m d + k)))
  | None => None
  end.

(** A time value [new Date(t)] accepts. *)
Definition in_range (t : Z) : Prop := Z.abs t <= maxTime.

(** The time value of 10000-01-01T00:00:00Z, where ISO years stop having
    four digits. *)
Definition year10000 : Z := 253402300800000.

(** A non-negative number: positive or [+0], and finite. *)
Definition nonneg_finite (x : Number) : bool :=
  match classify x with
  | PZero | PSubn | PNormal => true
  | _ => false
  end.

Definition wf_category (c : BudgetCategory) : Prop :=
  exists e a,
    estimated c = Some e /\ actual c = Some a
    /\ nonneg_finite e = true /\ nonneg_finite a = true.

(** The invariants of the data model: dense day numbers from 1, ids unique
    within their collection, dates that follow from the start date, and the
    four fixed budget categories with non-negative amounts. *)
Definition well_formed (doc : TripDocument) : Prop :=
  contiguous doc
  /\ NoDup (map DayPlan.id (itinerary doc))
  /\ Forall (fun day => NoDup (map Activity.id (DayPlan.activities day)))
            (itinerary doc)
  /\ Forall (fun day =>
               addDays (startDate doc) (DayPlan.day day - 1)
               = Some (DayPlan.date day))
            (itinerary doc)
  /\ map fst (categories (budget doc)) = fixed_keys
  /\ Forall (fun kc => wf_category (snd kc)) (categories (budget doc)).

(** An amount [JSON.stringify] writes as a literal for the same double. *)
Definition survives (x : option Number) : bool :=
  match x with
  | Some v =>
      match classify v with
      | NaN | PInf | NInf | NZero => false
      | _ => true
      end
  | None => true
  end.

(** *** Amounts and their sums *)

(** The amounts of one field that the budget holds, in property order. *)
Definition amounts (f : Dataset.field) (b : BudgetSheet) : list Number :=
  flat_map
    (fun kc => match amount f (snd kc) with Some x => [x] | None => [] end)
    (categories b).

(** The double nearest to the integer [n]: [n] itself up to [2^53]. *)
Definition whole (n : Z) : Number :=
  SF2Prim (binary_normalize prec emax n 0 false).

(** Every amount of the field is a whole number that is not negative:
    [ns] lists them in property order, with [0] where a category has no
    such amount. *)
Definition whole_amounts (f : Dataset.field) (b : BudgetSheet)
    (ns : list Z) : Prop :=
  Forall2
    (fun kc n =>
       0 <= n
       /\ (amount f (snd kc) = Some (whole n)
           \/ (amount f (snd kc) = None /\ n = 0)))
    (categories b) ns.

Definition Zsum (ns : list Z) : Z := fold_right Z.add 0 ns.

(** The rational number a finite Number is ([0] for the zeros). *)
Definition rational (x : Number) : Q :=
  match Prim2SF x with
  | S754_finite s m e => (inject_Z (cond_Zopp s (Zpos m)) * Qpower 2 e)%Q
  | _ => 0%Q
  end.

(** The arithmetic sum of the amounts of the four fixed categories. *)
Definition arithmetic_sum (f : Dataset.field) (b : BudgetSheet) : Q :=
  fold_right
    (fun key acc =>
       match obj_get key (categories b) with
       | Some c =>
           match amount f c with
           | Some x => (rational x + acc)%Q
           | None => acc
           end
       | None => acc
       end)
    0%Q fixed_keys.

(** The default document after the amounts 0.3, 0.2, 0.1 and 0 were typed
    into the estimated inputs and 0.1, 0.2, 0.3 into the actual ones. *)
Definition rounding_sample : TripDocument :=
  fold_left
    (fun doc '(key, f, value) => handleBudgetChange key value (Some f) doc)
    [ ("flights", Dataset.estimated, "0.3");
      ("flights", Dataset.actual, "0.1");
      ("accommodation", Dataset.estimated, "0.2");
      ("accommodation", Dataset.actual, "0.2");
      ("activities", Dataset.estimated, "0.1");
      ("activities", Dataset.actual, "0.3");
      ("miscellaneous", Dataset.estimated, "0") ]
    sample.

(** *** Whole numbers in binary64 *)

(** The mantissa [p * 2^k]. *)
Definition shl (p : positive) (k : Z) : positive :=
  match k with
  | Zpos q => Pos.iter xO p q
  | _ => p
  end.

Definition bit_length (p : positive) : Z := Zpos (digits2_pos p).

(** The binary64 value that is the integer [n], [0 <= n < 2^53]: a
    mantissa of 53 bits and its exponent. *)
Definition whole_SF (n : Z) : spec_float :=
  match n with
  | Zpos p => S754_finite false (shl p (53 - bit_length p)) (bit_length p - 53)
  | _ => S754_zero false
  end.

(** ** Further parts of the application *)

(** The [value] of a budget input of [BudgetPlanner]:
    [budget[key]?.estimated || 0], and the same for [actual]. *)
Definition inputValue (b : BudgetSheet) (key : string) (f : Dataset.field)
  : Number :=
  match obj_get key (categories b) with
  | Some c =>
      match amount f c with
      | Some x => or_else x 0%float
      | None => 0%float
      end
  | None => 0%float
  end.

(** The rows of the budget summary of [ItineraryPreview]: the entries of
    [budget] other than [currency], each with the two Numbers whose
    [toLocaleString()] is shown.  Reading [toLocaleString] off an amount
    that is absent throws a TypeError, which is [None] here. *)
Fixpoint budgetSummary (cats : list (string * BudgetCategory))
  : option (list (string * Number * Number)) :=
  match cats with
  | [] => Some []
  | (key, value) :: rest =>
      match estimated value, actual value with
      | Some e, Some a =>
          match budgetSummary rest with
          | Some rows => Some ((key, e, a) :: rows)
          | None => None
          end
      | _, _ => None
      end
  end.

(** [loadScript] of the first effect, on the [src] attributes of the script
    elements of the document: nothing is added when
    [document.querySelector] finds a script with that [src]; a new element
    is listed last. *)
Definition loadScript (url : string) (scripts : list string) : list string :=
  if existsb (String.eqb url) scripts then scripts
  else (scripts ++ [url])%list.

(** The effect that loads the two PDF libraries. *)
Definition loadScripts (scripts : list string) : list string :=
  loadScript
    "https://cdnjs.cloudflare.com/ajax/libs/html2canvas/1.4.1/html2canvas.min.js"
    (loadScript
       "https://cdnjs.cloudflare.com/ajax/libs/jspdf/2.5.1/jspdf.umd.min.js"
       scripts).

(** ** Objects *)

Lemma sample_is_default :
  defaultItinerary sample_clock sample_clock "day-1" sample_clock "act-1"
  = Ok sample.
Proof. vm_compute. reflexivity. Qed.

Lemma obj_get_replace_same {V : Type} (k : string) (v : V) o :
  obj_get k o <> None -> obj_get k (obj_replace k v o) = Some v.
Proof.
  induction o as [|[k' v'] o IH]; simpl; [congruence|].
  destruct (String.eqb k' k) eqn:E; simpl.
  - now rewrite String.eqb_refl.
  - now rewrite E.
Qed.

Lemma obj_get_replace_other {V : Type} (k k0 : string) (v : V) o :
  k0 <> k -> obj_get k0 (obj_replace k v o) = obj_get k0 o.
Proof.
  intros Hne. induction o as [|[k' v'] o IH]; simpl; [reflexivity|].
  destruct (String.eqb k' k) eqn:E; simpl.
  - apply String.eqb_eq in E. subst k'.
    destruct (String.eqb k k0) eqn:E0; [|reflexivity].
    apply String.eqb_eq in E0. congruence.
  - now rewrite IH.
Qed.

Lemma obj_get_insert_same {V : Type} (n : Z) (k : string) (v : V) o :
  obj_get k o = None -> obj_get k (obj_insert n k v o) = Some v.
Proof.
  induction o as [|[k' v'] o IH]; simpl.
  - now rewrite String.eqb_refl.
  - destruct (String.eqb k' k) eqn:E; [discriminate|]. intros H.
    destruct (array_index k') as [n'|]; [destruct (n' <? n)|]; simpl;
      rewrite ?E, ?String.eqb_refl; auto.
Qed.

Lemma obj_get_insert_other {V : Type} (n : Z) (k k0 : string) (v : V) o :
  k0 <> k -> obj_get k0 (obj_insert n k v o) = obj_get k0 o.
Proof.
  intros Hne. apply not_eq_sym in Hne. apply String.eqb_neq in Hne.
  induction o as [|[k' v'] o IH]; simpl; [now rewrite Hne|].
  destruct (array_index k') as [n'|]; [destruct (n' <? n)|]; simpl;
    rewrite ?Hne, ?IH; reflexivity.
Qed.

Lemma obj_get_last_same {V : Type} (k : string) (v : V) o :
  obj_get k o = None -> obj_get k (o ++ [(k, v)]) = Some v.
Proof.
  induction o as [|[k' v'] o IH]; simpl.
  - now rewrite String.eqb_refl.
  - destruct (String.eqb k' k); [discriminate|exact IH].
Qed.

Lemma obj_get_last_other {V : Type} (k k0 : string) (v : V) o :
  k0 <> k -> obj_get k0 (o ++ [(k, v)]) = obj_get k0 o.
Proof.
  intros Hne. apply not_eq_sym in Hne. apply String.eqb_neq in Hne.
  induction o as [|[k' v'] o IH]; simpl; [now rewrite Hne|].
  now rewrite IH.
Qed.

Lemma obj_get_set_same {V : Type} (k : string) (v : V) o :
  obj_get k (obj_set k v o) = Some v.
Proof.
  unfold obj_set. destruct (obj_get k o) eqn:E.
  - apply obj_get_replace_same. congruence.
  - destruct (array_index k).
    + now apply obj_get_insert_same.
    + now apply obj_get_last_same.
Qed.

Lemma obj_get_set_other {V : Type} (k k0 : string) (v : V) o :
  k0 <> k -> obj_get k0 (obj_set k v o) = obj_get k0 o.
Proof.
  intros Hne. unfold obj_set. destruct (obj_get k o).
  - now apply obj_get_replace_other.
  - destruct (array_index k).
    + now apply obj_get_insert_other.
    + now apply obj_get_last_other.
Qed.

(** A new key that is not an array index goes last. *)
Lemma obj_set_new {V : Type} (k : string) (v : V) o :
  obj_get k o = None -> array_index k = None ->
  obj_set k v o = (o ++ [(k, v)])%list.
Proof. intros H Hi. unfold obj_set. now rewrite H, Hi. Qed.

(** A new array index goes after the smaller indices and before the key
    that follows them. *)
Lemma obj_insert_place {V : Type} (n : Z) (k : string) (v : V) o :
  exists before after,
    o = (before ++ after)%list
    /\ obj_insert n k v o = (before ++ (k, v) :: after)%list
    /\ Forall (fun kv => exists m, array_index (fst kv) = Some m /\ m < n)
              before
    /\ match after with
       | [] => True
       | kv :: _ => forall m, array_index (fst kv) = Some m -> n <= m
       end.
Proof.
  induction o as [|[k' v'] o (before & after & Ho & Hi & Hb & Ha)]; simpl.
  - exists [], []. repeat split. constructor.
  - destruct (array_index k') as [n'|] eqn:E.
    + destruct (Z.ltb_spec n' n) as [Hlt|Hge].
      * exists ((k', v') :: before), after. rewrite Ho at 1. rewrite Hi.
        repeat split; [|exact Ha].
        constructor; [|exact Hb]. exists n'. now split.
      * exists [], ((k', v') :: o). repeat split; [constructor|].
        simpl. intros m Hm. rewrite E in Hm. injection Hm as <-. exact Hge.
    + exists [], ((k', v') :: o). repeat split; [constructor|].
      simpl. intros m Hm. rewrite E in Hm. discriminate.
Qed.

Lemma obj_replace_keys {V : Type} (k : string) (v : V) o :
  map fst (obj_replace k v o) = map fst o.
Proof.
  induction o as [|[k' v'] o IH]; simpl; [reflexivity|].
  destruct (String.eqb k' k) eqn:E; simpl.
  - apply String.eqb_eq in E. now subst.
  - now rewrite IH.
Qed.

Lemma obj_set_keys {V : Type} (k : string) (v : V) o :
  obj_get k o <> None -> map fst (obj_set k v o) = map fst o.
Proof.
  unfold obj_set. destruct (obj_get k o); [|congruence].
  intros _. apply obj_replace_keys.
Qed.

(** Writing the value a property holds changes nothing. *)
Lemma obj_set_same_value {V : Type} (k : string) (v : V) o :
  obj_get k o = Some v -> obj_set k v o = o.
Proof.
  intros H. unfold obj_set. rewrite H.
  induction o as [|[k' v'] o IH]; simpl in *; [discriminate|].
  destruct (String.eqb k' k) eqn:E.
  - apply String.eqb_eq in E. injection H as ->. now subst.
  - now rewrite IH.
Qed.

Lemma fixed_key_not_currency (key : string) :
  In key fixed_keys -> String.eqb key "currency" = false.
Proof.
  unfold fixed_keys. simpl.
  intros [H|[H|[H|[H|[]]]]]; subst; reflexivity.
Qed.

(** ** Numbers *)

Lemma or_else_nan (x : Number) :
  is_nan x = true -> or_else x 0%float = 0%float.
Proof. intros H. unfold or_else, ToBoolean. now rewrite H. Qed.

Lemma or_else_not_nan (x : Number) : is_nan (or_else x 0%float) = false.
Proof.
  unfold or_else, ToBoolean.
  destruct (is_nan x) eqn:E; simpl; [reflexivity|].
  destruct (is_zero x); simpl; [reflexivity|exact E].
Qed.

(** ** The budget handler *)

Lemma handleBudgetChange_amount doc key raw f :
  String.eqb key "currency" = false ->
  budget_amount (handleBudgetChange key raw (Some f) doc) key f
  = Some (or_else (parseFloat raw) 0%float).
Proof.
  intros Hk. unfold handleBudgetChange, budget_amount. rewrite Hk. simpl.
  rewrite obj_get_set_same. destruct f; reflexivity.
Qed.

(** C3, as the spec states it, fails: an amount written under a key that is
    not one of the four fixed categories changes the document. *)
Lemma unknown_key_changes_document :
  ~ In "food" fixed_keys /\
  handleBudgetChange "food" "10" (Some Dataset.estimated) sample <> sample.
Proof.
  split.
  - unfold fixed_keys. simpl. intuition discriminate.
  - intros H. apply (f_equal (fun d => List.length (categories (budget d)))) in H.
    vm_compute in H. discriminate.
Qed.

(** C3, amended: for a key that is not one of the four fixed categories
    (nor [currency]), an event with a [data-field] stores the parsed value
    under [budget[key][field]], creating the category, with that single
    property, when the budget does not hold it: after the categories there
    are, or, for a key that is an array index, behind the smaller indices
    and before every other key.  The other categories, the currency and the
    rest of the document stay as they were.  An event without a
    [data-field] returns the document unchanged; one with a [data-field]
    does so exactly when the budget already holds that amount there. *)
Theorem handleBudgetChange_unknown_key doc key raw f :
  ~ In key fixed_keys -> key <> "currency" ->
  let x := or_else (parseFloat raw) 0%float in
  let doc' := handleBudgetChange key raw (Some f) doc in
  budget_amount doc' key f = Some x
  /\ (forall k, k <> key ->
        obj_get k (categories (budget doc'))
        = obj_get k (categories (budget doc)))
  /\ (obj_get key (categories (budget doc)) = None ->
      exists before after,
        categories (budget doc) = (before ++ after)%list
        /\ categories (budget doc')
           = (before ++ (key, set_amount f x no_category) :: after)%list
        /\ (array_index key = None -> after = [])
        /\ (forall n, array_index key = Some n ->
              Forall (fun kc => exists m, array_index (fst kc) = Some m
                                          /\ m < n) before
              /\ match after with
                 | [] => True
                 | kc :: _ =>
                     forall m, array_index (fst kc) = Some m -> n <= m
                 end))
  /\ currency (budget doc') = currency (budget doc)
  /\ title doc' = title doc
  /\ destination doc' = destination doc
  /\ startDate doc' = startDate doc
  /\ endDate doc' = endDate doc
  /\ notes doc' = notes doc
  /\ itinerary doc' = itinerary doc
  /\ handleBudgetChange key raw None doc = doc
  /\ (doc' = doc <-> budget_amount doc key f = Some x).
Proof.
  intros Hkey Hk. apply String.eqb_neq in Hk. intros x doc'.
  assert (Hx : budget_amount doc' key f = Some x)
    by now apply handleBudgetChange_amount.
  split; [exact Hx|].
  subst doc'. unfold handleBudgetChange in *. rewrite Hk in *.
  cbn [budget with_budget categories currency title destination startDate
       endDate notes itinerary].
  split; [|split; [|repeat split]].
  - intros k Hne. now apply obj_get_set_other.
  - intros Hnone. rewrite Hnone. unfold obj_set. rewrite Hnone.
    destruct (array_index key) as [n|] eqn:Ei.
    + destruct (obj_insert_place n key (set_amount f x no_category)
                  (categories (budget doc)))
        as (before & after & Ho & Hi & Hb & Ha).
      exists before, after.
      split; [exact Ho|]. split; [exact Hi|]. split; [discriminate|].
      intros n0 Hn0. injection Hn0 as <-. now split.
    + exists (categories (budget doc)), []. rewrite app_nil_r.
      split; [reflexivity|]. split; [reflexivity|].
      split; [reflexivity|discriminate].
  - intros H. rewrite H in Hx. exact Hx.
  - intros H. unfold budget_amount in H.
    destruct (obj_get key (categories (budget doc))) as [c|] eqn:Eg;
      [|discriminate].
    assert (Hc : set_amount f x c = c).
    { destruct c as [e a], f; simpl in *; now rewrite H. }
    fold x. rewrite Hc, (obj_set_same_value _ _ _ Eg).
    destruct doc as [t d s e n i [cur cats]]. reflexivity.
Qed.

Lemma handleBudgetChange_unknown_key_witness :
  let doc' := handleBudgetChange "food" "10" (Some Dataset.estimated) sample in
  budget_amount doc' "food" Dataset.estimated = Some 10%float
  /\ obj_get "flights" (categories (budget doc'))
     = obj_get "flights" (categories (budget sample))
  /\ categories (budget doc')
     = (categories (budget sample)
          ++ [("food", {| estimated := Some 10%float; actual := None |})])%list
  /\ categories
       (budget (handleBudgetChange "7" "10" (Some Dataset.estimated) sample))
     = ("7", {| estimated := Some 10%float; actual := None |})
         :: categories (budget sample)
  /\ handleBudgetChange "food" "10" None sample = sample.
Proof.
  destruct (handleBudgetChange_unknown_key sample "food" "10" Dataset.estimated)
    as (Ha & Ho & _ & _ & _ & _ & _ & _ & _ & _ & Hn & _).
  - unfold fixed_keys. simpl. intuition discriminate.
  - discriminate.
  - split; [exact Ha|]. split; [apply Ho; discriminate|].
    split; [reflexivity|]. split; [reflexivity|exact Hn].
Defined.

(** C4: for each of the four fixed categories and either field, a raw value
    that [parseFloat] reads as NaN stores exactly [0]; the handler is a
    total function, and the stored amount is not NaN.  The string "abc" is
    such a raw value. *)
Theorem handleBudgetChange_not_a_number :
  (forall doc key f raw,
      In key fixed_keys ->
      is_nan (parseFloat raw) = true ->
      budget_amount (handleBudgetChange key raw (Some f) doc) key f
      = Some 0%float)
  /\ (forall doc,
        budget_amount
          (handleBudgetChange "flights" "abc" (Some Dataset.estimated) doc)
          "flights" Dataset.estimated
        = Some 0%float)
  /\ is_nan 0%float = false.
Proof.
  split; [|split].
  - intros doc key f raw Hkey Hnan.
    rewrite handleBudgetChange_amount by now apply fixed_key_not_currency.
    now rewrite or_else_nan.
  - intros doc. now rewrite handleBudgetChange_amount.
  - reflexivity.
Qed.

Lemma handleBudgetChange_not_a_number_witness :
  budget_amount
    (handleBudgetChange "activities" "n/a" (Some Dataset.actual) sample)
    "activities" Dataset.actual
  = Some 0%float.
Proof.
  apply (proj1 handleBudgetChange_not_a_number).
  - simpl. tauto.
  - reflexivity.
Defined.

Lemma falsy_not_negative (x : Number) :
  ToBoolean x = false -> (x <? 0)%float = false.
Proof.
  unfold ToBoolean, is_nan, is_zero.
  rewrite ltb_spec, !eqb_spec.
  change (Prim2SF 0%float) with (S754_zero false).
  destruct (Prim2SF x) as [s|s| |s m e]; try reflexivity.
  - destruct s; discriminate.
  - unfold SFeqb, SFltb. simpl. rewrite Z.compare_refl.
    destruct s; simpl; rewrite Pos.compare_cont_refl; discriminate.
Qed.

Lemma or_else_negative (x : Number) :
  (or_else x 0%float <? 0)%float = (x <? 0)%float.
Proof.
  unfold or_else. destruct (ToBoolean x) eqn:E; [reflexivity|].
  rewrite (falsy_not_negative x E). reflexivity.
Qed.

(** C6, as the spec states it, fails: a raw value that parses to a negative
    number is stored as it is. *)
Lemma negative_amount_stored :
  budget_amount sample "flights" Dataset.estimated = Some 600%float
  /\ budget_amount
       (handleBudgetChange "flights" "-5" (Some Dataset.estimated) sample)
       "flights" Dataset.estimated
     = Some (-5)%float
  /\ (-5 <? 0)%float = true.
Proof. repeat split; vm_compute; reflexivity. Qed.

(** C6, amended: the handler stores [parseFloat(rawValue) || 0] without
    clamping.  The stored amount is never NaN, and it is negative exactly
    when the raw value parses to a negative number. *)
Theorem handleBudgetChange_sign doc key f raw :
  key <> "currency" ->
  exists x,
    budget_amount (handleBudgetChange key raw (Some f) doc) key f = Some x
    /\ x = or_else (parseFloat raw) 0%float
    /\ is_nan x = false
    /\ (x <? 0)%float = (parseFloat raw <? 0)%float.
Proof.
  intros Hk. apply String.eqb_neq in Hk.
  exists (or_else (parseFloat raw) 0%float).
  rewrite handleBudgetChange_amount by exact Hk.
  repeat split.
  - apply or_else_not_nan.
  - apply or_else_negative.
Qed.

Lemma handleBudgetChange_sign_witness :
  exists x,
    budget_amount
      (handleBudgetChange "flights" "-5" (Some Dataset.estimated) sample)
      "flights" Dataset.estimated = Some x
    /\ x = or_else (parseFloat "-5") 0%float
    /\ is_nan x = false
    /\ (x <? 0)%float = (parseFloat "-5" <? 0)%float.
Proof.
  apply (handleBudgetChange_sign sample "flights" Dataset.estimated "-5").
  discriminate.
Defined.

(** ** Whole numbers in binary64 *)

Lemma bit_length_size (p : positive) : digits2_pos p = Pos.size p.
Proof. induction p; simpl; congruence. Qed.

Lemma bit_length_bounds (p : positive) :
  2 ^ (bit_length p - 1) <= Zpos p < 2 ^ bit_length p.
Proof.
  unfold bit_length. rewrite bit_length_size. split.
  - pose proof (Pos.size_le p) as H.
    assert (H' : 2 ^ Zpos (Pos.size p) <= 2 * Zpos p).
    { change (2 * Zpos p) with (Zpos p~0). rewrite <- Pos2Z.inj_pow. exact H. }
    replace (Zpos (Pos.size p)) with (Zpos (Pos.size p) - 1 + 1) in H' by lia.
    rewrite Z.pow_add_r in H' by lia. lia.
  - pose proof (Pos.size_gt p) as H. rewrite <- Pos2Z.inj_pow. exact H.
Qed.

Lemma bit_length_pos (p : positive) : 1 <= bit_length p.
Proof. unfold bit_length. lia. Qed.

Lemma bit_length_mono (p q : positive) :
  Zpos p <= Zpos q -> bit_length p <= bit_length q.
Proof.
  intros H. destruct (Z.le_gt_cases (bit_length p) (bit_length q)) as [|Hgt];
    [assumption|exfalso].
  pose proof (bit_length_bounds p) as [Hp _].
  pose proof (bit_length_bounds q) as [_ Hq].
  assert (2 ^ bit_length q <= 2 ^ (bit_length p - 1))
    by (apply Z.pow_le_mono_r; lia).
  lia.
Qed.

Lemma bit_length_below (p : positive) (d : Z) :
  0 <= d -> Zpos p < 2 ^ d -> bit_length p <= d.
Proof.
  intros Hd H. destruct (Z.le_gt_cases (bit_length p) d) as [|Hgt];
    [assumption|exfalso].
  pose proof (bit_length_bounds p) as [Hp _].
  assert (2 ^ d <= 2 ^ (bit_length p - 1)) by (apply Z.pow_le_mono_r; lia).
  lia.
Qed.

Lemma shl_spec (p : positive) (k : Z) :
  0 <= k -> Zpos (shl p k) = Zpos p * 2 ^ k.
Proof.
  destruct k as [|q|q]; simpl; try lia. intros _.
  change (Pos.iter xO p q) with (shift_pos q p).
  rewrite shift_pos_correct, Z.pow_pos_fold. apply Z.mul_comm.
Qed.

Lemma shl_digits (p : positive) (k : Z) :
  0 <= k -> bit_length (shl p k) = bit_length p + k.
Proof.
  destruct k as [|q|q]; simpl; try lia. intros _. unfold bit_length.
  induction q using Pos.peano_ind.
  - simpl. lia.
  - rewrite Pos.iter_succ. simpl. lia.
Qed.

Lemma iter_pos_iter {A : Type} (f : A -> A) (p : positive) (x : A) :
  iter_pos f p x = Pos.iter f x p.
Proof.
  revert x. induction p as [p IH|p IH|]; intros x; simpl.
  - rewrite !IH. now rewrite !Pos.iter_swap.
  - now rewrite !IH.
  - reflexivity.
Qed.

(** Shifting out zeros is exact. *)
Lemma shr_shl (c : positive) (e k : Z) :
  0 <= k ->
  shr {| shr_m := Zpos (shl c k); shr_r := false; shr_s := false |} e k
  = ({| shr_m := Zpos c; shr_r := false; shr_s := false |}, e + k).
Proof.
  destruct k as [|q|q]; simpl; try lia; intros _.
  - f_equal. lia.
  - f_equal. rewrite iter_pos_iter.
    induction q using Pos.peano_ind.
    + reflexivity.
    + rewrite !Pos.iter_succ. rewrite <- Pos.iter_swap. simpl. exact IHq.
Qed.

(** A mantissa of 53 bits or more whose extra bits are zeros is rounded to
    its 53 leading bits. *)
Lemma binary_round_aux_exact (c : positive) (e k : Z) :
  bit_length c = 53 -> 0 <= k -> -1074 <= e + k <= 971 ->
  binary_round_aux prec emax false (Zpos (shl c k)) e loc_Exact
  = S754_finite false c (e + k).
Proof.
  intros Hc Hk He. unfold binary_round_aux, shr_fexp.
  cbn [Zdigits2 shr_record_of_loc].
  change (Zpos (digits2_pos (shl c k))) with (bit_length (shl c k)).
  rewrite shl_digits, Hc by exact Hk.
  replace (fexp prec emax (53 + k + e) - e) with k
    by (unfold fexp, emin, prec, emax; lia).
  rewrite shr_shl by exact Hk.
  cbn [shr_m loc_of_shr_record round_nearest_even Zdigits2 shr_record_of_loc].
  change (Zpos (digits2_pos c)) with (bit_length c). rewrite Hc.
  replace (fexp prec emax (53 + (e + k)) - (e + k)) with 0
    by (unfold fexp, emin, prec, emax; lia).
  cbn [shr shr_m].
  replace (e + k <=? emax - prec) with true; [reflexivity|].
  symmetry. apply Z.leb_le. unfold emax, prec. lia.
Qed.

(** The whole_SF mantissa and exponent of a positive integer below
    [2^53]. *)
Lemma binary_round_whole (p : positive) :
  bit_length p <= 53 ->
  binary_round prec emax false p 0
  = S754_finite false (shl p (53 - bit_length p)) (bit_length p - 53).
Proof.
  intros Hp. pose proof (bit_length_pos p) as Hd.
  unfold binary_round, shl_align.
  change (Zpos (digits2_pos p)) with (bit_length p).
  replace (fexp prec emax (bit_length p + 0)) with (bit_length p - 53)
    by (unfold fexp, emin, prec, emax; lia).
  rewrite Z.sub_0_r.
  destruct (bit_length p - 53) as [|q|q] eqn:Eq; try lia.
  - replace (53 - bit_length p) with 0 by lia. cbn [shl].
    change p with (shl p 0) at 1.
    rewrite binary_round_aux_exact; [reflexivity|lia|lia|lia].
  - replace (53 - bit_length p) with (Zpos q) by lia. cbn [shl].
    change (Pos.iter xO p q) with (shl (shl p (Zpos q)) 0).
    rewrite binary_round_aux_exact
      by (rewrite ?shl_digits by lia; lia).
    f_equal; lia.
Qed.

Lemma shl_shl (p : positive) (a b : Z) :
  0 <= a -> 0 <= b -> shl (shl p a) b = shl p (a + b).
Proof.
  intros Ha Hb. apply Pos2Z.inj.
  rewrite !shl_spec by lia. rewrite Z.pow_add_r by lia. lia.
Qed.

(** The same value at a smaller exponent. *)
Lemma binary_round_scaled (p : positive) (k : Z) :
  bit_length p <= 53 -> 53 - bit_length p <= k -> k <= 1000 ->
  binary_round prec emax false (shl p k) (- k)
  = S754_finite false (shl p (53 - bit_length p)) (bit_length p - 53).
Proof.
  intros Hp Hk Hk'. pose proof (bit_length_pos p) as Hd.
  unfold binary_round, shl_align.
  change (Zpos (digits2_pos (shl p k))) with (bit_length (shl p k)).
  rewrite shl_digits by lia.
  replace (fexp prec emax (bit_length p + k + - k)) with (bit_length p - 53)
    by (unfold fexp, emin, prec, emax; lia).
  assert (H : match bit_length p - 53 - - k with
              | Zneg d => (Pos.iter xO (shl p k) d, bit_length p - 53)
              | _ => (shl p k, - k)
              end = (shl p k, - k)).
  { destruct (bit_length p - 53 - - k) eqn:E; try reflexivity. lia. }
  rewrite H.
  replace (shl p k) with (shl (shl p (53 - bit_length p)) (k - (53 - bit_length p)))
    by (rewrite shl_shl by lia; f_equal; lia).
  rewrite binary_round_aux_exact
    by (rewrite ?shl_digits by lia; lia).
  f_equal; lia.
Qed.

Lemma whole_SF_valid (n : Z) :
  0 <= n < 2 ^ 53 -> valid_binary (whole_SF n) = true.
Proof.
  intros Hn. destruct n as [|p|p]; try reflexivity.
  cbn [whole_SF valid_binary].
  assert (Hp : bit_length p <= 53) by (apply bit_length_below; lia).
  pose proof (bit_length_pos p) as Hd.
  unfold bounded, canonical_mantissa.
  change (Zpos (digits2_pos (shl p (53 - bit_length p))))
    with (bit_length (shl p (53 - bit_length p))).
  rewrite shl_digits by lia.
  apply andb_true_intro. split.
  - apply Z.eqb_eq. unfold fexp, emin, prec, emax. lia.
  - apply Z.leb_le. unfold prec, emax. lia.
Qed.

Lemma Prim2SF_whole (n : Z) :
  0 <= n < 2 ^ 53 -> Prim2SF (whole n) = whole_SF n.
Proof.
  intros Hn. unfold whole.
  assert (E : binary_normalize prec emax n 0 false = whole_SF n).
  { destruct n as [|p|p]; try reflexivity; [|lia].
    simpl. apply binary_round_whole. apply bit_length_below; lia. }
  rewrite E. apply Prim2SF_SF2Prim. now apply whole_SF_valid.
Qed.

(** The sum of two whole numbers is computed exactly as long as it stays
    below [2^53]. *)
Lemma SFadd_whole (a b : Z) :
  0 <= a -> 0 <= b -> a + b < 2 ^ 53 ->
  SF64add (whole_SF a) (whole_SF b) = whole_SF (a + b).
Proof.
  intros Ha Hb Hab.
  destruct a as [|p|p]; [|destruct b as [|q|q]|]; try lia.
  - destruct b as [|q|q]; try lia; reflexivity.
  - rewrite Z.add_0_r. reflexivity.
  - change (Zpos p + Zpos q) with (Zpos (p + q)) in *.
    assert (Hs : bit_length (p + q) <= 53) by (apply bit_length_below; lia).
    assert (Hp : bit_length p <= bit_length (p + q)) by (apply bit_length_mono; lia).
    assert (Hq : bit_length q <= bit_length (p + q)) by (apply bit_length_mono; lia).
    pose proof (bit_length_pos p) as Hdp. pose proof (bit_length_pos q) as Hdq.
    unfold whole_SF, SF64add, SFadd.
    set (ez := Z.min (bit_length p - 53) (bit_length q - 53)).
    assert (Hez : 53 - bit_length (p + q) <= - ez <= 52) by (unfold ez; lia).
    assert (Hx : fst (shl_align (shl p (53 - bit_length p)) (bit_length p - 53) ez)
                 = shl p (- ez)).
    { unfold shl_align.
      destruct (ez - (bit_length p - 53)) as [|d|d] eqn:E; cbn [fst].
      - f_equal. lia.
      - lia.
      - change (Pos.iter xO (shl p (53 - bit_length p)) d)
          with (shl (shl p (53 - bit_length p)) (Zpos d)).
        rewrite shl_shl by lia. f_equal. lia. }
    assert (Hy : fst (shl_align (shl q (53 - bit_length q)) (bit_length q - 53) ez)
                 = shl q (- ez)).
    { unfold shl_align.
      destruct (ez - (bit_length q - 53)) as [|d|d] eqn:E; cbn [fst].
      - f_equal. lia.
      - lia.
      - change (Pos.iter xO (shl q (53 - bit_length q)) d)
          with (shl (shl q (53 - bit_length q)) (Zpos d)).
        rewrite shl_shl by lia. f_equal. lia. }
    rewrite Hx, Hy. cbn [cond_Zopp].
    assert (Hsum : Zpos (shl p (- ez)) + Zpos (shl q (- ez))
                   = Zpos (shl (p + q) (- ez))).
    { rewrite !shl_spec by lia. rewrite Pos2Z.inj_add. lia. }
    rewrite Hsum. cbn [binary_normalize].
    replace ez with (- - ez) at 2 by lia.
    apply binary_round_scaled; lia.
Qed.

Lemma whole_add (a b : Z) :
  0 <= a -> 0 <= b -> a + b < 2 ^ 53 ->
  (whole a + whole b)%float = whole (a + b).
Proof.
  intros Ha Hb Hab. apply Prim2SF_inj.
  rewrite add_spec, !Prim2SF_whole by lia.
  now apply SFadd_whole.
Qed.

(** Whole numbers compare as the integers do. *)
Lemma whole_ltb (a b : Z) :
  0 <= a < 2 ^ 53 -> 0 <= b < 2 ^ 53 ->
  (whole a <? whole b)%float = (a <? b).
Proof.
  intros Ha Hb. rewrite ltb_spec, !Prim2SF_whole by lia.
  destruct a as [|p|p]; [|destruct b as [|q|q]|]; try lia.
  - destruct b as [|q|q]; try lia; reflexivity.
  - reflexivity.
  - assert (Hp : bit_length p <= 53) by (apply bit_length_below; lia).
    assert (Hq : bit_length q <= 53) by (apply bit_length_below; lia).
    pose proof (bit_length_bounds p) as [Hp1 Hp2].
    pose proof (bit_length_bounds q) as [Hq1 Hq2].
    pose proof (bit_length_pos p) as Hdp. pose proof (bit_length_pos q) as Hdq.
    unfold whole_SF, SFltb, SFcompare.
    destruct (Z.compare_spec (bit_length p - 53) (bit_length q - 53)) as [E|E|E].
    + rewrite Pos.compare_cont_spec.
      replace (53 - bit_length q) with (53 - bit_length p) by lia.
      set (k := 53 - bit_length p).
      assert (Sp : Zpos (shl p k) = Zpos p * 2 ^ k)
        by (apply shl_spec; lia).
      assert (Sq : Zpos (shl q k) = Zpos q * 2 ^ k)
        by (apply shl_spec; lia).
      assert (Hpow : 0 < 2 ^ k) by (apply Z.pow_pos_nonneg; lia).
      destruct (Pos.compare_spec (shl p k) (shl q k)) as [C|C|C];
        cbn [Pos.switch_Eq]; symmetry.
      * apply Z.ltb_ge. rewrite C in Sp. nia.
      * apply Z.ltb_lt. apply Pos2Z.pos_lt_pos in C. nia.
      * apply Z.ltb_ge. apply Pos2Z.pos_lt_pos in C. nia.
    + symmetry. apply Z.ltb_lt.
      assert (2 ^ bit_length p <= 2 ^ (bit_length q - 1))
        by (apply Z.pow_le_mono_r; lia).
      lia.
    + symmetry. apply Z.ltb_ge.
      assert (2 ^ bit_length q <= 2 ^ (bit_length p - 1))
        by (apply Z.pow_le_mono_r; lia).
      lia.
Qed.

(** ** The budget totals *)

Lemma status_over_budget (b : BudgetSheet) :
  status b = "Over Budget" <-> (totalEstimated b <? totalActual b)%float = true.
Proof.
  unfold status. destruct (totalEstimated b <? totalActual b)%float.
  - split; reflexivity.
  - split; discriminate.
Qed.

(** The totals add the amounts the budget holds, whatever their keys. *)
Lemma total_amounts (sel : BudgetCategory -> option Number)
    (cats : list (string * BudgetCategory)) (acc : Number) :
  fold_left
    (fun sum item =>
       match sel item with
       | Some x => (sum + x)%float
       | None => sum
       end) (map snd cats) acc
  = fold_left (fun sum x => (sum + x)%float)
      (flat_map
         (fun kc => match sel (snd kc) with Some x => [x] | None => [] end)
         cats) acc.
Proof.
  revert acc. induction cats as [|[k c] cats IH]; intros acc; simpl;
    [reflexivity|].
  rewrite IH. destruct (sel c); reflexivity.
Qed.

(** Whole amounts are added without rounding. *)
Lemma total_whole (sel : BudgetCategory -> option Number)
    (cats : list (string * BudgetCategory)) (ns : list Z) :
  Forall2
    (fun kc n =>
       0 <= n
       /\ (sel (snd kc) = Some (whole n) \/ (sel (snd kc) = None /\ n = 0)))
    cats ns ->
  forall a,
    0 <= a -> a + Zsum ns < 2 ^ 53 ->
    fold_left
      (fun sum item =>
         match sel item with
         | Some x => (sum + x)%float
         | None => sum
         end) (map snd cats) (whole a)
    = whole (a + Zsum ns)
    /\ 0 <= Zsum ns.
Proof.
  induction 1 as [|[k c] n cats ns (Hn & Hc) Hrest IH]; intros a Ha Hs;
    simpl in *.
  - rewrite Z.add_0_r. split; [reflexivity|lia].
  - assert (H0 : 0 <= Zsum ns).
    { clear - Hrest. induction Hrest as [|? ? ? ? (? & _) _ IH']; simpl; lia. }
    destruct Hc as [Hc|(Hc & ->)]; rewrite Hc.
    + rewrite whole_add by lia.
      destruct (IH (a + n)) as (E & _); [lia|lia|].
      rewrite E. split; [f_equal; lia|lia].
    + destruct (IH a) as (E & _); [lia|lia|].
      rewrite E. split; [f_equal; lia|lia].
Qed.

(** C7, as the spec states it, fails: the totals are sums of doubles, each
    addition rounded.  With the estimates 0.3, 0.2, 0.1, 0 and the actual
    amounts 0.1, 0.2, 0.3, 0 the two arithmetic sums are equal, neither
    displayed total is that sum, and the status is "Over Budget". *)
Lemma rounded_totals_over_budget :
  let b := budget rounding_sample in
  map fst (categories b) = fixed_keys
  /\ amounts Dataset.estimated b
     = [parseFloat "0.3"; parseFloat "0.2"; parseFloat "0.1"; 0%float]
  /\ amounts Dataset.actual b
     = [parseFloat "0.1"; parseFloat "0.2"; parseFloat "0.3"; 0%float]
  /\ (arithmetic_sum Dataset.estimated b == arithmetic_sum Dataset.actual b)%Q
  /\ ~ (rational (totalEstimated b) == arithmetic_sum Dataset.estimated b)%Q
  /\ ~ (rational (totalActual b) == arithmetic_sum Dataset.actual b)%Q
  /\ (totalEstimated b <? totalActual b)%float = true
  /\ status b = "Over Budget".
Proof.
  cbv zeta. split; [reflexivity|]. split; [reflexivity|].
  split; [reflexivity|]. split; [vm_compute; reflexivity|].
  split; [intros H; vm_compute in H; discriminate|].
  split; [intros H; vm_compute in H; discriminate|].
  split; reflexivity.
Qed.

(** C7, amended: for every document the totals are the sums of the
    estimated and of the actual amounts of every category the budget
    holds, the four fixed ones and any other, added as doubles from [0] in
    property order; the status is "Over Budget" exactly when the total
    actual is greater than the total estimated.  When the amounts are
    whole numbers that are not negative and their sums stay below [2^53],
    no addition rounds: the totals are the arithmetic sums, and the status
    compares those. *)
Theorem budget_totals (b : BudgetSheet) :
  totalEstimated b
  = fold_left (fun sum x => (sum + x)%float) (amounts Dataset.estimated b)
      0%float
  /\ totalActual b
     = fold_left (fun sum x => (sum + x)%float) (amounts Dataset.actual b)
         0%float
  /\ (forall e1 a1 e2 a2 e3 a3 e4 a4 : Number,
        categories b =
          [ ("flights", {| estimated := Some e1; actual := Some a1 |});
            ("accommodation", {| estimated := Some e2; actual := Some a2 |});
            ("activities", {| estimated := Some e3; actual := Some a3 |});
            ("miscellaneous", {| estimated := Some e4; actual := Some a4 |}) ] ->
        totalEstimated b = (0 + e1 + e2 + e3 + e4)%float
        /\ totalActual b = (0 + a1 + a2 + a3 + a4)%float)
  /\ (forall es acts : list Z,
        whole_amounts Dataset.estimated b es ->
        whole_amounts Dataset.actual b acts ->
        Zsum es < 2 ^ 53 -> Zsum acts < 2 ^ 53 ->
        totalEstimated b = whole (Zsum es)
        /\ totalActual b = whole (Zsum acts)
        /\ (status b = "Over Budget" <-> Zsum es < Zsum acts))
  /\ (status b = "Over Budget"
      <-> (totalEstimated b <? totalActual b)%float = true)
  /\ (status b = "On Track"
      <-> (totalEstimated b <? totalActual b)%float = false).
Proof.
  split; [apply (total_amounts estimated)|].
  split; [apply (total_amounts actual)|].
  split; [|split; [|split]].
  - intros e1 a1 e2 a2 e3 a3 e4 a4 H.
    unfold totalEstimated, totalActual. rewrite H. split; reflexivity.
  - intros es acts He Ha Hes Hacts.
    destruct (total_whole estimated _ _ He 0) as (Et & He0); [lia|lia|].
    destruct (total_whole actual _ _ Ha 0) as (At & Ha0); [lia|lia|].
    assert (Et' : totalEstimated b = whole (Zsum es)) by exact Et.
    assert (At' : totalActual b = whole (Zsum acts)) by exact At.
    split; [exact Et'|]. split; [exact At'|].
    rewrite status_over_budget, Et', At', whole_ltb by lia.
    apply Z.ltb_lt.
  - apply status_over_budget.
  - unfold status.
    destruct (totalEstimated b <? totalActual b)%float; split;
      try reflexivity; discriminate.
Qed.

Lemma budget_totals_witness :
  totalEstimated (budget sample) = 1600%float
  /\ totalActual (budget sample) = 0%float
  /\ status (budget sample) <> "Over Budget".
Proof.
  destruct (budget_totals (budget sample)) as (_ & _ & _ & H & _).
  destruct (H [600; 500; 400; 100] [0; 0; 0; 0]) as (He & Ha & Hs).
  - repeat constructor; simpl; try lia; left; reflexivity.
  - repeat constructor; simpl; try lia; left; reflexivity.
  - reflexivity.
  - reflexivity.
  - split; [exact He|]. split; [exact Ha|].
    intros Hover. apply Hs in Hover. simpl in Hover. lia.
Defined.

(** ** The listener *)

(** C9, as the spec states it, fails: on a payload that does not parse the
    listener logs and resets the local state, and does not call
    [saveItinerary]. *)
Lemma corrupt_payload_not_saved :
  JSON_parse (NotJSON "{oops") = Throw SyntaxError
  /\ onSnapshot_listener (to_value sample)
       (Some {| itineraryData := Some (NotJSON "{oops");
                lastUpdated := "2023-11-14T22:13:20.000Z" |})
     = [ console_error "Error parsing stored itinerary data:";
         setTripDetails (to_value sample) ]
  /\ ~ In (call_saveItinerary (to_value sample))
          (onSnapshot_listener (to_value sample)
             (Some {| itineraryData := Some (NotJSON "{oops");
                      lastUpdated := "2023-11-14T22:13:20.000Z" |})).
Proof.
  split; [reflexivity|]. split; [reflexivity|].
  simpl. intros [H|[H|[]]]; discriminate.
Qed.

(** C9, amended: a record that does not exist, or whose [itineraryData] is
    missing or empty, makes the listener call [saveItinerary] with the
    default document and nothing else; a payload that fails to parse makes
    it log the error and set the local state to the default document,
    without a save. *)
Theorem onSnapshot_listener_fallback (dflt prev : JSValue) :
  onSnapshot_listener dflt None = [call_saveItinerary dflt]
  /\ (forall data,
        truthy (itineraryData data) = false ->
        onSnapshot_listener dflt (Some data) = [call_saveItinerary dflt])
  /\ (forall data payload e,
        itineraryData data = Some payload ->
        truthy (Some payload) = true ->
        JSON_parse payload = Throw e ->
        onSnapshot_listener dflt (Some data)
        = [ console_error "Error parsing stored itinerary data:";
            setTripDetails dflt ]
        /\ local_state prev (onSnapshot_listener dflt (Some data)) = dflt).
Proof.
  split; [reflexivity|]. split.
  - intros data H. unfold onSnapshot_listener.
    destruct (itineraryData data) as [p|]; [|reflexivity].
    now rewrite H.
  - intros data payload e Hp Ht He. unfold onSnapshot_listener.
    rewrite Hp, Ht, He. split; reflexivity.
Qed.

Lemma onSnapshot_listener_fallback_witness :
  onSnapshot_listener (to_value sample)
    (Some {| itineraryData := Some (NotJSON ""); lastUpdated := "" |})
  = [call_saveItinerary (to_value sample)]
  /\ local_state JNull
       (onSnapshot_listener (to_value sample)
          (Some {| itineraryData := Some (NotJSON "{oops"); lastUpdated := "" |}))
     = to_value sample.
Proof.
  destruct (onSnapshot_listener_fallback (to_value sample) JNull)
    as (_ & Hempty & Hbad).
  split.
  - apply Hempty. reflexivity.
  - apply (Hbad _ (NotJSON "{oops") SyntaxError); reflexivity.
Defined.

(** ** Strings of digits *)

Lemma append_assoc (a b c : string) : ((a ++ b) ++ c = a ++ (b ++ c))%string.
Proof. induction a as [|x a IH]; simpl; [reflexivity|now rewrite IH]. Qed.

Lemma digit_cases (z : Z) :
  0 <= z < 10 ->
  z = 0 \/ z = 1 \/ z = 2 \/ z = 3 \/ z = 4 \/ z = 5 \/ z = 6 \/ z = 7
  \/ z = 8 \/ z = 9.
Proof. lia. Qed.

Ltac each_digit H :=
  destruct (digit_cases _ H) as [->|[->|[->|[->|[->|[->|[->|[->|[->| ->]]]]]]]]].

Lemma digit_val_digit (z : Z) : 0 <= z < 10 -> digit_val (digit z) = Some z.
Proof. intros H. each_digit H; reflexivity. Qed.

Lemma digit_not_sep (z : Z) (sep : ascii) :
  0 <= z < 10 -> digit_val sep = None -> Ascii.eqb (digit z) sep = false.
Proof.
  intros H Hsep. destruct (Ascii.eqb (digit z) sep) eqn:E; [|reflexivity].
  apply Ascii.eqb_eq in E. subst sep.
  rewrite digit_val_digit in Hsep by exact H. discriminate.
Qed.

Lemma read_digits_add (n k : nat) : forall acc s,
  read_digits (n + k) acc s =
  match read_digits n acc s with
  | Some (v, r) => read_digits k v r
  | None => None
  end.
Proof.
  induction n as [|n IH]; intros acc s; simpl; [reflexivity|].
  destruct s as [|c rest]; [reflexivity|].
  destruct (digit_val c); [apply IH|reflexivity].
Qed.

Lemma read_digits_pad (n : nat) : forall z acc rest,
  0 <= z < 10 ^ Z.of_nat n ->
  read_digits n acc (pad n z ++ rest)%string
  = Some (acc * 10 ^ Z.of_nat n + z, rest).
Proof.
  induction n as [|n IH]; intros z acc rest Hz.
  - simpl in *. f_equal. f_equal. lia.
  - rewrite Nat2Z.inj_succ, Z.pow_succ_r in * by lia.
    replace (S n) with (n + 1)%nat at 1 by lia.
    rewrite read_digits_add. simpl pad. rewrite append_assoc.
    assert (Hq : 0 <= z / 10 < 10 ^ Z.of_nat n).
    { split; [apply Z.div_pos; lia|].
      apply Z.div_lt_upper_bound; lia. }
    rewrite (IH _ _ _ Hq). cbn [read_digits append].
    rewrite digit_val_digit by (apply Z.mod_pos_bound; lia).
    f_equal. f_equal.
    pose proof (Z.div_mod z 10 ltac:(lia)).
    replace (acc * (10 * 10 ^ Z.of_nat n))
      with (acc * 10 ^ Z.of_nat n * 10) by ring.
    lia.
Qed.

(** *** The ['T'] of an ISO string *)

Lemma split_head_app (sep : ascii) (a b : string) :
  split_head sep a = a ->
  split_head sep (a ++ String sep b) = a.
Proof.
  induction a as [|c a IH]; simpl.
  - now rewrite Ascii.eqb_refl.
  - destruct (Ascii.eqb c sep); [discriminate|].
    intros H. injection H as H. now rewrite IH.
Qed.

Lemma split_head_free (sep : ascii) (a b : string) :
  split_head sep a = a -> split_head sep b = b ->
  split_head sep (a ++ b) = (a ++ b)%string.
Proof.
  intros Ha Hb. induction a as [|c a IH]; simpl in *; [exact Hb|].
  destruct (Ascii.eqb c sep); [discriminate|].
  injection Ha as Ha. now rewrite IH.
Qed.

Lemma split_head_pad (sep : ascii) (n : nat) : forall z,
  digit_val sep = None -> split_head sep (pad n z) = pad n z.
Proof.
  induction n as [|n IH]; intros z Hsep; simpl; [reflexivity|].
  apply split_head_free; [now apply IH|].
  simpl. rewrite digit_not_sep; [reflexivity| |exact Hsep].
  apply Z.mod_pos_bound. lia.
Qed.

Lemma split_head_cons (sep c : ascii) (s : string) :
  Ascii.eqb c sep = false -> split_head sep s = s ->
  split_head sep (String c s) = String c s.
Proof. intros Hc Hs. simpl. now rewrite Hc, Hs. Qed.

Lemma split_head_dashes (a b c : string) :
  split_head "T" a = a -> split_head "T" b = b -> split_head "T" c = c ->
  split_head "T" (a ++ "-" ++ b ++ "-" ++ c) = (a ++ "-" ++ b ++ "-" ++ c)%string.
Proof.
  intros Ha Hb Hc. apply split_head_free; [exact Ha|].
  apply split_head_cons; [reflexivity|].
  apply split_head_free; [exact Hb|].
  apply split_head_cons; [reflexivity|exact Hc].
Qed.

Lemma split_head_format_year (y : Z) :
  split_head "T" (format_year y) = format_year y.
Proof.
  unfold format_year.
  destruct ((0 <=? y) && (y <=? 9999)); [|destruct (y <? 0)].
  - now apply split_head_pad.
  - apply split_head_cons; [reflexivity|now apply split_head_pad].
  - apply split_head_cons; [reflexivity|now apply split_head_pad].
Qed.

Lemma split_head_format_civil (c : Z * Z * Z) :
  split_head "T" (format_civil c) = format_civil c.
Proof.
  destruct c as [[y m] d]. unfold format_civil.
  apply split_head_dashes.
  - apply split_head_format_year.
  - now apply split_head_pad.
  - now apply split_head_pad.
Qed.

Lemma toISODate_valid (t : Z) : toISODate (Some t) = Ok (isoDate t).
Proof.
  unfold toISODate, toISOString. simpl. f_equal.
  change (isoDate t ++ "T" ++ isoTime t)%string
    with (isoDate t ++ String "T" (isoTime t))%string.
  apply split_head_app. apply split_head_format_civil.
Qed.

Lemma toISODate_invalid : toISODate None = Throw RangeError.
Proof. reflexivity. Qed.

Lemma TimeClip_in_range (t : Z) : in_range t -> TimeClip t = Some t.
Proof.
  unfold in_range, TimeClip. intros H.
  destruct (Z.leb_spec (Z.abs t) maxTime); [reflexivity|lia].
Qed.

Lemma TimeClip_out_of_range (t : Z) : ~ in_range t -> TimeClip t = None.
Proof.
  unfold in_range, TimeClip. intros H.
  destruct (Z.leb_spec (Z.abs t) maxTime); [contradiction|reflexivity].
Qed.

(** [dayDate] on a valid start: the ISO date [n - 1] days later. *)
Lemma dayDate_valid (t n : Z) :
  in_range (t + (n - 1) * msPerDay) ->
  dayDate (Some t) n = Ok (isoDate (t + (n - 1) * msPerDay)).
Proof.
  intros H. unfold dayDate. simpl.
  change 86400000 with msPerDay.
  rewrite TimeClip_in_range by exact H. apply toISODate_valid.
Qed.

Lemma dayDate_invalid (n : Z) : dayDate None n = Throw RangeError.
Proof. reflexivity. Qed.

Lemma dayDate_out_of_range (t n : Z) :
  ~ in_range (t + (n - 1) * msPerDay) ->
  dayDate (Some t) n = Throw RangeError.
Proof.
  intros H. unfold dayDate. simpl. change 86400000 with msPerDay.
  now rewrite TimeClip_out_of_range.
Qed.

Lemma Date_parse_civil (D : string) (t : Z) :
  Date_parse D = Some t ->
  exists y m d,
    parse_civil D = Some (y, m, d) /\ t = days_from_civil y m d * msPerDay.
Proof.
  unfold Date_parse. destruct (parse_civil D) as [[[y m] d]|]; [|discriminate].
  unfold TimeClip. destruct (Z.abs _ <=? maxTime); [|discriminate].
  intros H. injection H as <-. now exists y, m, d.
Qed.

(** The handlers' date arithmetic on time values is the calendar's "plus
    [k] days". *)
Lemma addDays_isoDate (D : string) (t k : Z) :
  Date_parse D = Some t ->
  addDays D k = Some (isoDate (t + k * msPerDay)).
Proof.
  intros H. destruct (Date_parse_civil D t H) as (y & m & d & Hp & ->).
  unfold addDays, isoDate, Day. rewrite Hp.
  rewrite <- Z.mul_add_distr_r, Z.div_mul by discriminate. reflexivity.
Qed.

(** ** Traversals *)

Lemma mapM_Forall2 {A B : Type} (f : A -> result B) (P : A -> B -> Prop)
    (l : list A) :
  Forall (fun x => exists y, f x = Ok y /\ P x y) l ->
  exists l', mapM f l = Ok l' /\ Forall2 P l l'.
Proof.
  induction 1 as [|x l (y & Hy & HP) _ (l' & Hl' & HF)].
  - exists []. split; constructor.
  - exists (y :: l'). simpl. rewrite Hy, Hl'. simpl.
    split; [reflexivity|now constructor].
Qed.

Lemma one_to_succ (n : nat) :
  one_to (S n) = (one_to n ++ [Z.of_nat n + 1])%list.
Proof.
  unfold one_to. rewrite seq_S, map_app. simpl. do 2 f_equal. lia.
Qed.

Lemma renumber_spec (start : string) (l : list DayPlan.t) : forall i l',
  renumber start i l = Ok l' ->
  List.length l' = List.length l
  /\ map DayPlan.day l' = map (fun k => i + Z.of_nat k) (seq 0 (List.length l))
  /\ map DayPlan.id l' = map DayPlan.id l
  /\ map DayPlan.activities l' = map DayPlan.activities l.
Proof.
  induction l as [|day rest IH]; intros i l' H; simpl in H.
  - injection H as <-. repeat split.
  - destruct (dayDate (Date_parse start) i) as [newDate|]; [|discriminate].
    simpl in H.
    destruct (renumber start (i + 1) rest) as [rest'|] eqn:E; [|discriminate].
    injection H as <-. destruct (IH _ _ E) as (Hlen & Hday & Hid & Hact).
    simpl. rewrite Hlen, Hday, Hid, Hact. repeat split.
    f_equal; [lia|]. rewrite <- seq_shift, map_map.
    apply map_ext. intros k. lia.
Qed.

Lemma renumber_contiguous (start : string) (l l' : list DayPlan.t) :
  renumber start 1 l = Ok l' ->
  map DayPlan.day l' = one_to (List.length l').
Proof.
  intros H. destruct (renumber_spec _ _ _ _ H) as (Hlen & Hday & _).
  rewrite Hday, Hlen. unfold one_to. rewrite <- seq_shift, map_map.
  apply map_ext. intros k. lia.
Qed.

Lemma renumber_returns (start : string) (t : Z) (l : list DayPlan.t) :
  Date_parse start = Some t ->
  forall i,
    (forall n, i <= n < i + Z.of_nat (List.length l) ->
               in_range (t + (n - 1) * msPerDay)) ->
    exists l', renumber start i l = Ok l'.
Proof.
  intros Ht. induction l as [|day rest IH]; intros i Hr; simpl.
  - now exists [].
  - rewrite Ht, dayDate_valid by (apply Hr; simpl List.length; lia).
    destruct (IH (i + 1)) as (rest' & ->).
    { intros n Hn. apply Hr. simpl List.length. lia. }
    simpl. eauto.
Qed.

(** ** Adding and removing days *)

Lemma addDay_inv (uuid1 uuid2 : string) (doc doc' : TripDocument) :
  addDay uuid1 uuid2 doc = Ok doc' ->
  exists newDate,
    doc' = with_itinerary doc
             (itinerary doc
                ++ [DayPlan.mk uuid1 (Z.of_nat (List.length (itinerary doc)) + 1)
                      newDate [Activity.mk uuid2 "09:00" "New Day Activity"]])%list.
Proof.
  unfold addDay. destruct (dayDate _ _) as [newDate|]; [|discriminate].
  simpl. intros H. injection H as <-. now exists newDate.
Qed.

Lemma removeDay_inv (dayId : string) (doc doc' : TripDocument) :
  removeDay dayId doc = Ok doc' ->
  exists l',
    renumber (startDate doc) 1
      (filter (fun day => negb (String.eqb (DayPlan.id day) dayId))
              (itinerary doc)) = Ok l'
    /\ doc' = with_itinerary doc l'.
Proof.
  unfold removeDay. destruct (renumber _ _ _) as [l'|]; [|discriminate].
  simpl. intros H. injection H as <-. now exists l'.
Qed.

Lemma addDay_contiguous (uuid1 uuid2 : string) (doc doc' : TripDocument) :
  contiguous doc -> addDay uuid1 uuid2 doc = Ok doc' -> contiguous doc'.
Proof.
  unfold contiguous, day_numbers. intros Hc H.
  destruct (addDay_inv _ _ _ _ H) as (newDate & ->). simpl.
  rewrite map_app, length_app, Hc. simpl.
  rewrite Nat.add_1_r. now rewrite one_to_succ.
Qed.

Lemma removeDay_contiguous (dayId : string) (doc doc' : TripDocument) :
  removeDay dayId doc = Ok doc' -> contiguous doc'.
Proof.
  intros H. destruct (removeDay_inv _ _ _ H) as (l' & Hl' & ->).
  unfold contiguous, day_numbers. simpl.
  now apply renumber_contiguous in Hl'.
Qed.

Lemma edit_contiguous (e : DayEdit) (doc doc' : TripDocument) :
  contiguous doc -> edit e doc = Ok doc' -> contiguous doc'.
Proof.
  destruct e; simpl; intros Hc H.
  - now apply (addDay_contiguous _ _ _ _ Hc H).
  - now apply (removeDay_contiguous _ _ _ H).
Qed.

Lemma edit_frame (e : DayEdit) (doc doc' : TripDocument) :
  edit e doc = Ok doc' ->
  startDate doc' = startDate doc
  /\ budget doc' = budget doc
  /\ (List.length (itinerary doc') <= S (List.length (itinerary doc)))%nat.
Proof.
  destruct e; simpl; intros H.
  - destruct (addDay_inv _ _ _ _ H) as (newDate & ->). simpl.
    rewrite length_app. simpl. repeat split. lia.
  - destruct (removeDay_inv _ _ _ H) as (l' & Hl' & ->). simpl.
    destruct (renumber_spec _ _ _ _ Hl') as (-> & _).
    repeat split.
    pose proof (filter_length_le
                  (fun day => negb (String.eqb (DayPlan.id day) dayId))
                  (itinerary doc)). lia.
Qed.

Lemma edit_returns (e : DayEdit) (doc : TripDocument) (t : Z) :
  Date_parse (startDate doc) = Some t ->
  (forall n, 1 <= n <= Z.of_nat (S (List.length (itinerary doc))) ->
             in_range (t + (n - 1) * msPerDay)) ->
  exists doc', edit e doc = Ok doc'.
Proof.
  intros Ht Hr. destruct e; simpl.
  - unfold addDay. rewrite Ht, dayDate_valid by (apply Hr; lia).
    simpl. eauto.
  - unfold removeDay.
    destruct (renumber_returns (startDate doc) t
                (filter (fun day => negb (String.eqb (DayPlan.id day) dayId))
                        (itinerary doc)) Ht 1) as (l' & ->).
    + intros n Hn. apply Hr.
      pose proof (filter_length_le
                    (fun day => negb (String.eqb (DayPlan.id day) dayId))
                    (itinerary doc)). lia.
    + simpl. eauto.
Qed.

(** C1: from a document whose day numbers are [1..N], every document a
    sequence of [addDay] and [removeDay] calls produces has the day numbers
    [1..N'] in order, [N'] being its number of days; and the sequence does
    produce a document when the start date is a valid date and the days
    stay within the range of [Date]. *)
Theorem edits_contiguous (es : list DayEdit) : forall doc,
  contiguous doc ->
  (forall doc', edits es doc = Ok doc' ->
     day_numbers doc' = one_to (List.length (itinerary doc')))
  /\ (forall t,
        Date_parse (startDate doc) = Some t ->
        (forall n,
            1 <= n <= Z.of_nat (List.length (itinerary doc) + List.length es) ->
            in_range (t + (n - 1) * msPerDay)) ->
        exists doc', edits es doc = Ok doc').
Proof.
  induction es as [|e es IH]; intros doc Hc; simpl.
  - split.
    + intros doc' H. injection H as <-. exact Hc.
    + intros t _ _. now exists doc.
  - split.
    + intros doc' H. destruct (edit e doc) as [doc1|] eqn:E; [|discriminate].
      simpl in H. apply (proj1 (IH doc1 (edit_contiguous _ _ _ Hc E))), H.
    + intros t Ht Hr.
      destruct (edit_returns e doc t Ht) as (doc1 & E).
      { intros n Hn. apply Hr. lia. }
      rewrite E. simpl.
      destruct (edit_frame _ _ _ E) as (Hs & _ & Hlen).
      apply (proj2 (IH doc1 (edit_contiguous _ _ _ Hc E)) t).
      * now rewrite Hs.
      * intros n Hn. apply Hr. lia.
Qed.

Lemma edits_contiguous_witness :
  exists doc',
    edits [AddDay "day-2" "act-2"; RemoveDay "day-1"; AddDay "day-3" "act-3"]
      sample = Ok doc'
    /\ day_numbers doc' = [1; 2].
Proof.
  assert (Hc : contiguous sample) by reflexivity.
  destruct (proj2 (edits_contiguous
                     [AddDay "day-2" "act-2"; RemoveDay "day-1";
                      AddDay "day-3" "act-3"] sample Hc)
              1699920000000 eq_refl) as (doc' & H).
  - intros n Hn. simpl in Hn. unfold in_range, msPerDay, maxTime. lia.
  - exists doc'. split; [exact H|].
    rewrite (proj1 (edits_contiguous _ sample Hc) doc' H).
    vm_compute in H. injection H as <-. reflexivity.
Defined.

Lemma addDay_returns (uuid1 uuid2 : string) (doc : TripDocument) (t : Z) :
  Date_parse (startDate doc) = Some t ->
  in_range (t + Z.of_nat (List.length (itinerary doc)) * msPerDay) ->
  exists doc', addDay uuid1 uuid2 doc = Ok doc'.
Proof.
  intros Ht Hr. unfold addDay. rewrite Ht, dayDate_valid.
  - simpl. eauto.
  - now replace (Z.of_nat (List.length (itinerary doc)) + 1 - 1)
      with (Z.of_nat (List.length (itinerary doc))) by lia.
Qed.

(** A start date that is not a date makes [addDay] throw: the empty string
    of a cleared date input, on a trip whose days were all removed, is
    accepted by [handleDetailChange] and then breaks [addDay]. *)
Lemma addDay_throws_without_start_date :
  let cleared := with_itinerary sample [] in
  exists doc,
    handleDetailChange Name.startDate "" cleared = Ok doc
    /\ addDay "day-2" "act-2" doc = Throw RangeError.
Proof. eexists. split; reflexivity. Qed.

(** ** What the handlers leave alone *)

Lemma handleBudgetChange_frame (name value : string)
    (field : option Dataset.field) (doc : TripDocument) :
  exists b, handleBudgetChange name value field doc = with_budget doc b.
Proof.
  unfold handleBudgetChange.
  destruct (String.eqb name "currency"); [eauto|].
  destruct field; [eauto|].
  exists (budget doc). destruct doc. reflexivity.
Qed.

(** C10: the itinerary handlers return documents with the budget they were
    given ([addDay] and [removeDay] whenever they return, which they do on a
    valid start date within range), and the budget handler returns a
    document with the title, destination, notes, dates and itinerary it was
    given. *)
Theorem handlers_frame (doc : TripDocument) :
  (forall dayId activityId field value,
      budget (handleActivityChange dayId activityId field value doc)
      = budget doc)
  /\ (forall randomUUID dayId,
        budget (addActivity randomUUID dayId doc) = budget doc)
  /\ (forall dayId activityId,
        budget (removeActivity dayId activityId doc) = budget doc)
  /\ (forall uuid1 uuid2 doc',
        addDay uuid1 uuid2 doc = Ok doc' -> budget doc' = budget doc)
  /\ (forall dayId doc',
        removeDay dayId doc = Ok doc' -> budget doc' = budget doc)
  /\ (forall t,
        Date_parse (startDate doc) = Some t ->
        (forall n, 1 <= n <= Z.of_nat (S (List.length (itinerary doc))) ->
                   in_range (t + (n - 1) * msPerDay)) ->
        (forall uuid1 uuid2,
            exists doc',
              addDay uuid1 uuid2 doc = Ok doc' /\ budget doc' = budget doc)
        /\ (forall dayId,
              exists doc',
                removeDay dayId doc = Ok doc' /\ budget doc' = budget doc))
  /\ (forall name value field,
        let doc' := handleBudgetChange name value field doc in
        title doc' = title doc
        /\ destination doc' = destination doc
        /\ notes doc' = notes doc
        /\ startDate doc' = startDate doc
        /\ endDate doc' = endDate doc
        /\ itinerary doc' = itinerary doc).
Proof.
  split; [reflexivity|]. split; [reflexivity|]. split; [reflexivity|].
  split; [|split; [|split]].
  - intros uuid1 uuid2 doc' H. apply (edit_frame (AddDay uuid1 uuid2) _ _ H).
  - intros dayId doc' H. apply (edit_frame (RemoveDay dayId) _ _ H).
  - intros t Ht Hr. split.
    + intros uuid1 uuid2.
      destruct (edit_returns (AddDay uuid1 uuid2) doc t Ht Hr) as (doc' & E).
      exists doc'. split; [exact E|]. apply (edit_frame _ _ _ E).
    + intros dayId.
      destruct (edit_returns (RemoveDay dayId) doc t Ht Hr) as (doc' & E).
      exists doc'. split; [exact E|]. apply (edit_frame _ _ _ E).
  - intros name value field.
    destruct (handleBudgetChange_frame name value field doc) as (b & ->).
    repeat split.
Qed.

Lemma handlers_frame_witness :
  exists doc',
    addDay "day-2" "act-2" sample = Ok doc' /\ budget doc' = budget sample.
Proof.
  destruct (handlers_frame sample) as (_ & _ & _ & _ & _ & H & _).
  refine (proj1 (H 1699920000000 eq_refl _) "day-2" "act-2").
  intros n Hn. simpl in Hn. unfold in_range, msPerDay, maxTime. lia.
Defined.

(** ** Changing the start date *)

(** C5: setting the start date to a date [D] gives every day the date
    [D + (day - 1)] days, from the day number it has, and leaves the day
    numbers, the ids, the activities and the other fields as they were.
    The days have to stay within the range of [Date]. *)
Theorem startDate_change (doc : TripDocument) (D : string) (t : Z) :
  Date_parse D = Some t ->
  Forall (fun day => in_range (t + (DayPlan.day day - 1) * msPerDay))
         (itinerary doc) ->
  exists doc',
    handleDetailChange Name.startDate D doc = Ok doc'
    /\ startDate doc' = D
    /\ Forall2
         (fun old new =>
            addDays D (DayPlan.day old - 1) = Some (DayPlan.date new)
            /\ DayPlan.day new = DayPlan.day old
            /\ DayPlan.id new = DayPlan.id old
            /\ DayPlan.activities new = DayPlan.activities old)
         (itinerary doc) (itinerary doc')
    /\ title doc' = title doc
    /\ destination doc' = destination doc
    /\ endDate doc' = endDate doc
    /\ notes doc' = notes doc
    /\ budget doc' = budget doc.
Proof.
  intros Ht Hr. unfold handleDetailChange.
  destruct (itinerary doc) as [|day0 rest] eqn:Hit.
  - eexists. split; [reflexivity|]. simpl. rewrite Hit.
    repeat split. constructor.
  - rewrite Ht.
    edestruct (mapM_Forall2
                 (fun day =>
                    bind (dayDate (Some t) (DayPlan.day day)) (fun newDate =>
                    Ok (DayPlan.mk (DayPlan.id day) (DayPlan.day day) newDate
                          (DayPlan.activities day))))
                 (fun old new =>
                    addDays D (DayPlan.day old - 1) = Some (DayPlan.date new)
                    /\ DayPlan.day new = DayPlan.day old
                    /\ DayPlan.id new = DayPlan.id old
                    /\ DayPlan.activities new = DayPlan.activities old)
                 (day0 :: rest)) as (it & Hmap & HF).
    + eapply Forall_impl; [|exact Hr].
      intros day Hday. eexists. rewrite dayDate_valid by exact Hday.
      split; [reflexivity|]. simpl.
      rewrite (addDays_isoDate D t _ Ht). repeat split.
    + rewrite Hmap. eexists. split; [reflexivity|]. simpl.
      repeat split. exact HF.
Qed.

Lemma startDate_change_witness :
  exists doc',
    handleDetailChange Name.startDate "2024-02-28"
      (with_itinerary sample
         [ DayPlan.mk "a" 1 "2023-11-14" [];
           DayPlan.mk "b" 2 "2023-11-15" [];
           DayPlan.mk "c" 3 "2023-11-16" [] ]) = Ok doc'
    /\ map DayPlan.date (itinerary doc')
       = ["2024-02-28"; "2024-02-29"; "2024-03-01"]
    /\ map DayPlan.day (itinerary doc') = [1; 2; 3].
Proof.
  destruct (startDate_change
              (with_itinerary sample
                 [ DayPlan.mk "a" 1 "2023-11-14" [];
                   DayPlan.mk "b" 2 "2023-11-15" [];
                   DayPlan.mk "c" 3 "2023-11-16" [] ])
              "2024-02-28" 1709078400000 eq_refl)
    as (doc' & H & _).
  - repeat constructor; unfold in_range, msPerDay, maxTime; simpl; lia.
  - exists doc'. split; [exact H|].
    vm_compute in H. injection H as <-. split; reflexivity.
Defined.

(** A start date that is not a date, such as the empty string of a cleared
    input, makes the handler throw as soon as there is a day to redate. *)
Lemma startDate_change_invalid (doc : TripDocument) (D : string) :
  Date_parse D = None -> itinerary doc <> [] ->
  handleDetailChange Name.startDate D doc = Throw RangeError.
Proof.
  intros Hd Hne. unfold handleDetailChange.
  destruct (itinerary doc) as [|day0 rest]; [contradiction|].
  rewrite Hd. reflexivity.
Qed.

(** ** The calendar *)

Ltac split_tests :=
  repeat match goal with
  | |- context [?a <? ?b] => destruct (Z.ltb_spec a b)
  | |- context [?a <=? ?b] => destruct (Z.leb_spec a b)
  | |- context [?a =? ?b] => destruct (Z.eqb_spec a b)
  end.

(** Within an era, [civil_of_doe] finds a month and a day of month from
    which [days_from_civil] computes the day again. *)
Lemma civil_of_doe_spec (doe : Z) :
  0 <= doe < 146097 ->
  let '(y, m, d) := civil_of_doe doe in
  0 <= y <= 400 /\ 1 <= m <= 12 /\ 1 <= d
  /\ days_from_civil y m d = doe - 719468
  /\ (y <= 399 \/ 146037 <= doe).
Proof.
  intros H. unfold civil_of_doe, days_from_civil. cbv zeta.
  split_tests; try (Z.div_mod_to_equations; lia).
Qed.

Lemma civil_of_doe_day (doe : Z) :
  0 <= doe < 146097 ->
  let '(y, m, d) := civil_of_doe doe in d <= daysInMonth y m.
Proof.
  intros H. unfold civil_of_doe, daysInMonth, isLeap. cbv zeta.
  split_tests; cbn [andb orb negb]; try (Z.div_mod_to_equations; lia).
Qed.

Lemma isLeap_shift (y k : Z) : isLeap (y + 400 * k) = isLeap y.
Proof.
  unfold isLeap.
  replace (y + 400 * k) with (y + (100 * k) * 4) at 1 by ring.
  replace (y + 400 * k) with (y + (4 * k) * 100) at 1 by ring.
  replace (y + 400 * k) with (y + k * 400) by ring.
  now rewrite !Z_mod_plus_full.
Qed.

Lemma daysInMonth_shift (y m k : Z) :
  daysInMonth (y + 400 * k) m = daysInMonth y m.
Proof. unfold daysInMonth. now rewrite isLeap_shift. Qed.

Lemma days_from_civil_shift (y m d k : Z) :
  days_from_civil (y + 400 * k) m d = days_from_civil y m d + 146097 * k.
Proof.
  unfold days_from_civil.
  replace (if m <=? 2 then y + 400 * k - 1 else y + 400 * k)
    with ((if m <=? 2 then y - 1 else y) + k * 400)
    by (destruct (m <=? 2); ring).
  rewrite Z_div_plus_full, Z_mod_plus_full by discriminate. ring.
Qed.

(** [civil_from_days] yields a calendar date, and [days_from_civil] maps it
    back to the day number. *)
Lemma civil_from_days_spec (z : Z) :
  let '(y, m, d) := civil_from_days z in
  1 <= m <= 12 /\ 1 <= d <= daysInMonth y m /\ days_from_civil y m d = z.
Proof.
  unfold civil_from_days.
  pose proof (Z.mod_pos_bound (z + 719468) 146097 ltac:(lia)) as Hdoe.
  pose proof (civil_of_doe_spec _ Hdoe) as Hs.
  pose proof (civil_of_doe_day _ Hdoe) as Hd.
  destruct (civil_of_doe ((z + 719468) mod 146097)) as [[y m] d].
  destruct Hs as (_ & Hm & Hd1 & Hdays & _).
  rewrite daysInMonth_shift, days_from_civil_shift, Hdays.
  pose proof (Z.div_mod (z + 719468) 146097 ltac:(lia)).
  repeat split; lia.
Qed.

(** Within years 0 to 9999 the year has four digits. *)
Lemma civil_from_days_year (z : Z) :
  0 <= z + 719468 < 3652365 ->
  let '(y, _, _) := civil_from_days z in 0 <= y <= 9999.
Proof.
  intros Hz. unfold civil_from_days.
  pose proof (Z.mod_pos_bound (z + 719468) 146097 ltac:(lia)) as Hdoe.
  pose proof (civil_of_doe_spec _ Hdoe) as Hs.
  destruct (civil_of_doe ((z + 719468) mod 146097)) as [[y m] d].
  destruct Hs as (Hy & _ & _ & _ & Hlast).
  pose proof (Z.div_mod (z + 719468) 146097 ltac:(lia)).
  assert (0 <= (z + 719468) / 146097 <= 24).
  { split; [apply Z.div_pos; lia|].
    apply Z.lt_succ_r. apply Z.div_lt_upper_bound; lia. }
  lia.
Qed.

Lemma read_year_pad4 (y : Z) (rest : string) :
  0 <= y <= 9999 ->
  read_year (pad 4 y ++ rest) = Some (y, rest).
Proof.
  intros Hy.
  assert (H : read_year (pad 4 y ++ rest) = read_digits 4 0 (pad 4 y ++ rest)).
  { assert (Hd : 0 <= (y / 10 / 10 / 10) mod 10 < 10)
      by (apply Z.mod_pos_bound; lia).
    change (pad 4 y ++ rest)%string
      with (String (digit ((y / 10 / 10 / 10) mod 10))
              (String (digit ((y / 10 / 10) mod 10))
                 (String (digit ((y / 10) mod 10))
                    (String (digit (y mod 10)) rest)))).
    remember (String (digit ((y / 10 / 10) mod 10)) _) as tl.
    each_digit Hd; reflexivity. }
  rewrite H, read_digits_pad by (simpl; lia). do 2 f_equal.
Qed.

Lemma read_field_pad2 (v : Z) (rest : string) :
  0 <= v <= 99 ->
  read_field ("-" ++ pad 2 v ++ rest) = Some (v, rest).
Proof.
  intros Hv. change ("-" ++ pad 2 v ++ rest)%string
    with (String "-" (pad 2 v ++ rest)).
  unfold read_field. rewrite read_digits_pad by (simpl; lia). do 2 f_equal.
Qed.

Lemma daysInMonth_bound (y m : Z) : 28 <= daysInMonth y m <= 31.
Proof.
  unfold daysInMonth.
  destruct (m =? 2); [destruct (isLeap y); lia|].
  destruct ((m =? 4) || (m =? 6) || (m =? 9) || (m =? 11)); lia.
Qed.

(** Reading back a formatted calendar date. *)
Lemma parse_format_civil (y m d : Z) :
  0 <= y <= 9999 -> 1 <= m <= 12 -> 1 <= d <= daysInMonth y m ->
  parse_civil (format_civil (y, m, d)) = Some (y, m, d).
Proof.
  intros Hy Hm Hd. pose proof (daysInMonth_bound y m) as Hb.
  unfold format_civil, format_year.
  replace ((0 <=? y) && (y <=? 9999)) with true
    by (symmetry; apply andb_true_intro; split; apply Z.leb_le; lia).
  unfold parse_civil. rewrite read_year_pad4 by exact Hy.
  change ("-" ++ pad 2 m ++ "-" ++ pad 2 d)%string
    with (String "-" (pad 2 m ++ "-" ++ pad 2 d ++ "")).
  change (String "-" (pad 2 m ++ "-" ++ pad 2 d ++ ""))%string
    with ("-" ++ pad 2 m ++ ("-" ++ pad 2 d ++ ""))%string at 2.
  rewrite read_field_pad2 by lia.
  replace ((1 <=? m) && (m <=? 12)) with true
    by (symmetry; apply andb_true_intro; split; apply Z.leb_le; lia).
  change ("-" ++ pad 2 d ++ "")%string with (String "-" (pad 2 d ++ "")).
  change (String "-" (pad 2 d ++ ""))%string
    with ("-" ++ pad 2 d ++ "")%string at 2.
  rewrite read_field_pad2 by lia.
  replace ((1 <=? d) && (d <=? daysInMonth y m)) with true
    by (symmetry; apply andb_true_intro; split; apply Z.leb_le; lia).
  reflexivity.
Qed.

Lemma Day_bounds (t : Z) :
  0 <= t < year10000 -> 0 <= Day t < 2932897.
Proof.
  unfold Day, year10000, msPerDay. intros H. split.
  - apply Z.div_pos; lia.
  - apply Z.div_lt_upper_bound; lia.
Qed.

(** [Date.parse] reads an ISO date of the years 1970 to 9999 back as the
    midnight that starts it. *)
Lemma Date_parse_isoDate (t : Z) :
  0 <= t < year10000 -> Date_parse (isoDate t) = Some (Day t * msPerDay).
Proof.
  intros Ht. pose proof (Day_bounds t Ht) as Hd.
  pose proof (civil_from_days_spec (Day t)) as Hs.
  pose proof (civil_from_days_year (Day t) ltac:(lia)) as Hy.
  unfold isoDate, Date_parse.
  destruct (civil_from_days (Day t)) as [[y m] d].
  destruct Hs as (Hm & Hdm & Hdays).
  rewrite parse_format_civil by assumption. rewrite Hdays.
  apply TimeClip_in_range. unfold in_range, maxTime, msPerDay. lia.
Qed.

Lemma isoDate_next_day (t k : Z) :
  isoDate (Day t * msPerDay + k * msPerDay) = isoDate (t + k * msPerDay).
Proof.
  unfold isoDate, Day.
  rewrite <- Z.mul_add_distr_r, Z.div_mul, Z.div_add by discriminate.
  reflexivity.
Qed.

(** ** The default document *)

(** C2, as the spec states it, fails: the default itinerary has one day,
    and [addDay] makes it two, not three. *)
Lemma default_addDay_has_two_days :
  defaultItinerary sample_clock sample_clock "day-1" sample_clock "act-1"
  = Ok sample
  /\ List.length (itinerary sample) = 1%nat
  /\ exists doc',
       addDay "day-2" "act-2" sample = Ok doc'
       /\ List.length (itinerary doc') = 2%nat
       /\ List.length (itinerary doc') <> 3%nat.
Proof.
  split; [apply sample_is_default|]. split; [reflexivity|].
  eexists. split; [reflexivity|]. split; [reflexivity|discriminate].
Qed.

(** C2, amended: the default document starts on the clock's date and ends
    two days later, holds one day, numbered 1, with one pre-filled
    activity, and the budget estimates 600, 500, 400 and 100 with actual
    amounts 0 in USD; [addDay] on it yields two days, the second numbered
    2, dated the start date plus one day, with the one seeded activity
    "New Day Activity" at 09:00. *)
Theorem default_then_addDay (now1 now2 now3 : Z)
    (uuid1 uuid2 uuid3 uuid4 : string) :
  0 <= now1 < year10000 -> 0 <= now2 < year10000 -> 0 <= now3 < year10000 ->
  exists doc,
    defaultItinerary now1 now2 uuid1 now3 uuid2 = Ok doc
    /\ startDate doc = isoDate now1
    /\ endDate doc = isoDate (now2 + 2 * msPerDay)
    /\ itinerary doc
       = [ DayPlan.mk uuid1 1 (isoDate now3)
             [ Activity.mk uuid2 "09:00" "Arrive at Airport" ] ]
    /\ budget doc
       = {| currency := "USD";
            categories :=
              [ ("flights", {| estimated := Some 600%float; actual := Some 0%float |});
                ("accommodation", {| estimated := Some 500%float; actual := Some 0%float |});
                ("activities", {| estimated := Some 400%float; actual := Some 0%float |});
                ("miscellaneous", {| estimated := Some 100%float; actual := Some 0%float |}) ] |}
    /\ exists doc' date2,
         addDay uuid3 uuid4 doc = Ok doc'
         /\ itinerary doc'
            = (itinerary doc
                 ++ [ DayPlan.mk uuid3 2 date2
                        [ Activity.mk uuid4 "09:00" "New Day Activity" ] ])%list
         /\ addDays (startDate doc) 1 = Some date2
         /\ date2 = isoDate (now1 + msPerDay)
         /\ budget doc' = budget doc.
Proof.
  intros H1 H2 H3. unfold defaultItinerary.
  rewrite TimeClip_in_range, toISODate_valid
    by (unfold in_range, maxTime, year10000 in *; lia).
  simpl bind. unfold Date_of_number.
  rewrite TimeClip_in_range, toISODate_valid
    by (unfold in_range, maxTime, year10000 in *; lia).
  simpl bind.
  rewrite TimeClip_in_range, toISODate_valid
    by (unfold in_range, maxTime, year10000 in *; lia).
  simpl bind. eexists. split; [reflexivity|]. simpl.
  split; [reflexivity|]. split; [reflexivity|].
  split; [reflexivity|]. split; [reflexivity|].
  unfold addDay. simpl startDate. simpl itinerary.
  rewrite (Date_parse_isoDate now1 H1).
  rewrite dayDate_valid.
  - simpl bind. do 2 eexists. split; [reflexivity|].
    split; [reflexivity|]. split; [|split; [|reflexivity]].
    + rewrite (addDays_isoDate _ _ 1 (Date_parse_isoDate now1 H1)).
      reflexivity.
    + change (isoDate (Day now1 * msPerDay + 1 * msPerDay)
              = isoDate (now1 + 1 * msPerDay)).
      apply isoDate_next_day.
  - pose proof (Day_bounds now1 H1).
    unfold in_range, maxTime, msPerDay. simpl List.length. lia.
Qed.

Lemma default_then_addDay_witness :
  exists doc doc',
    defaultItinerary sample_clock sample_clock "day-1" sample_clock "act-1"
    = Ok doc
    /\ addDay "day-2" "act-2" doc = Ok doc'
    /\ map DayPlan.date (itinerary doc') = ["2023-11-14"; "2023-11-15"].
Proof.
  destruct (default_then_addDay sample_clock sample_clock sample_clock
              "day-1" "act-1" "day-2" "act-2")
    as (doc & Hd & _ & _ & Hit & _ & doc' & date2 & Ha & Hit' & _ & Hdate & _);
    try (unfold sample_clock, year10000; lia).
  exists doc, doc'. split; [exact Hd|]. split; [exact Ha|].
  rewrite Hit', Hit, Hdate. reflexivity.
Defined.

(** ** The JSON round trip *)

Lemma map_fixed {A B : Type} (f : B -> B) (g : A -> B) (l : list A) :
  (forall x, In x l -> f (g x) = g x) -> map f (map g l) = map g l.
Proof.
  intros H. rewrite map_map. apply map_ext_in. exact H.
Qed.

Lemma map_injective {A B : Type} (f : A -> B) :
  (forall x y, f x = f y -> x = y) ->
  forall l1 l2, map f l1 = map f l2 -> l1 = l2.
Proof.
  intros Hf. induction l1 as [|x l1 IH]; intros [|y l2] H;
    try discriminate; [reflexivity|].
  simpl in H. injection H as Hx Hl. f_equal; [now apply Hf|now apply IH].
Qed.

Lemma JSON_number_survives (x : Number) :
  survives (Some x) = true -> JSON_number x = JNum x.
Proof.
  unfold survives, JSON_number. destruct (classify x); try discriminate;
    reflexivity.
Qed.

Lemma nonneg_finite_survives (x : Number) :
  nonneg_finite x = true -> survives (Some x) = true.
Proof.
  unfold nonneg_finite, survives. destruct (classify x); try discriminate;
    reflexivity.
Qed.

Lemma JSON_tree_Activity (a : Activity.t) :
  JSON_tree (Activity_value a) = Activity_value a.
Proof. reflexivity. Qed.

Lemma JSON_tree_DayPlan (d : DayPlan.t) :
  JSON_tree (DayPlan_value d) = DayPlan_value d.
Proof.
  unfold DayPlan_value. simpl.
  rewrite (map_fixed JSON_tree Activity_value)
    by (intros a _; apply JSON_tree_Activity).
  reflexivity.
Qed.

Lemma JSON_tree_property (k : string) (x : option Number) :
  survives x = true ->
  map (fun kv => (fst kv, JSON_tree (snd kv))) (property k x) = property k x.
Proof.
  destruct x as [v|]; [|reflexivity]. intros H. simpl.
  now rewrite (JSON_number_survives v H).
Qed.

Lemma JSON_tree_BudgetCategory (c : BudgetCategory) :
  survives (estimated c) = true -> survives (actual c) = true ->
  JSON_tree (BudgetCategory_value c) = BudgetCategory_value c.
Proof.
  intros He Ha. unfold BudgetCategory_value. simpl.
  now rewrite map_app, !JSON_tree_property.
Qed.

(** The tree of the text is the value itself when every amount survives. *)
Lemma JSON_tree_document (doc : TripDocument) :
  Forall (fun kc => survives (estimated (snd kc)) = true
                    /\ survives (actual (snd kc)) = true)
         (categories (budget doc)) ->
  JSON_tree (to_value doc) = to_value doc.
Proof.
  intros H. unfold to_value, BudgetSheet_value. simpl.
  rewrite (map_fixed JSON_tree DayPlan_value)
    by (intros d _; apply JSON_tree_DayPlan).
  assert (Hc : map (fun kv => (fst kv, JSON_tree (snd kv)))
                 (map (fun kc => (fst kc, BudgetCategory_value (snd kc)))
                      (categories (budget doc)))
               = map (fun kc => (fst kc, BudgetCategory_value (snd kc)))
                     (categories (budget doc))).
  { apply map_fixed. intros [k c] Hin. simpl. f_equal.
    rewrite Forall_forall in H. destruct (H _ Hin) as [He Ha].
    now apply JSON_tree_BudgetCategory. }
  now rewrite Hc.
Qed.

Lemma Activity_value_inj (a b : Activity.t) :
  Activity_value a = Activity_value b -> a = b.
Proof.
  destruct a, b. unfold Activity_value. simpl.
  intros H. injection H as -> -> ->. reflexivity.
Qed.

Lemma DayPlan_value_inj (a b : DayPlan.t) :
  DayPlan_value a = DayPlan_value b -> a = b.
Proof.
  destruct a, b. unfold DayPlan_value. simpl.
  intros H. injection H as -> -> -> H.
  apply (map_injective _ Activity_value_inj) in H. now subst.
Qed.

Lemma BudgetCategory_value_inj (a b : BudgetCategory) :
  BudgetCategory_value a = BudgetCategory_value b -> a = b.
Proof.
  destruct a as [[e1|] [a1|]], b as [[e2|] [a2|]];
    unfold BudgetCategory_value; simpl; intros H;
    try discriminate; try reflexivity; injection H; intros; subst;
    reflexivity.
Qed.

(** Documents are told apart by their values. *)
Lemma to_value_inj (a b : TripDocument) : to_value a = to_value b -> a = b.
Proof.
  destruct a as [t1 d1 s1 e1 n1 i1 [c1 k1]], b as [t2 d2 s2 e2 n2 i2 [c2 k2]].
  unfold to_value, BudgetSheet_value. simpl.
  intros H. injection H as -> -> -> -> -> Hi -> Hk.
  apply (map_injective _ DayPlan_value_inj) in Hi. subst.
  assert (k1 = k2); [|now subst].
  revert Hk. apply map_injective.
  intros [x c] [y c'] Hxy. simpl in Hxy.
  assert (Hx : x = y) by congruence.
  assert (Hc : BudgetCategory_value c = BudgetCategory_value c') by congruence.
  apply BudgetCategory_value_inj in Hc. now subst.
Qed.

Lemma well_formed_survives (doc : TripDocument) :
  well_formed doc ->
  Forall (fun kc => survives (estimated (snd kc)) = true
                    /\ survives (actual (snd kc)) = true)
         (categories (budget doc)).
Proof.
  intros (_ & _ & _ & _ & _ & H). eapply Forall_impl; [|exact H].
  intros [k c] (e & a & He & Ha & Hne & Hna). simpl in *.
  rewrite He, Ha. split; now apply nonneg_finite_survives.
Qed.

(** C8: for a well-formed document, parsing the text [JSON.stringify]
    writes gives back the value of the document, and only a document equal
    to it has that value; so the listener, handed the record
    [saveItinerary] wrote, sets the local state to the same document. *)
Theorem json_round_trip (doc : TripDocument) :
  well_formed doc ->
  JSON_parse (JSON_stringify (to_value doc)) = Ok (to_value doc)
  /\ (forall doc',
        JSON_parse (JSON_stringify (to_value doc)) = Ok (to_value doc') ->
        doc' = doc)
  /\ (forall dflt appId userId now path record,
        saveItinerary true (Some userId) appId now (to_value doc)
        = Some (path, record) ->
        onSnapshot_listener dflt (Some record) = [setTripDetails (to_value doc)]).
Proof.
  intros Hwf. pose proof (JSON_tree_document doc (well_formed_survives doc Hwf)) as Ht.
  unfold JSON_stringify. rewrite Ht. unfold JSON_parse.
  split; [reflexivity|]. split.
  - intros doc' H. symmetry. apply to_value_inj. congruence.
  - intros dflt appId userId now path record H.
    destruct userId as [|c u]; [discriminate|].
    unfold saveItinerary, JSON_stringify in H. rewrite Ht in H.
    injection H as _ <-. reflexivity.
Qed.

Lemma sample_well_formed : well_formed sample.
Proof.
  unfold well_formed. split; [reflexivity|].
  split; [repeat constructor; simpl; tauto|].
  split; [repeat constructor; simpl; tauto|].
  split; [repeat constructor|].
  split; [reflexivity|].
  repeat constructor; simpl; do 2 eexists; repeat split.
Qed.

Lemma json_round_trip_witness :
  JSON_parse (JSON_stringify (to_value sample)) = Ok (to_value sample).
Proof. exact (proj1 (json_round_trip sample sample_well_formed)). Defined.

(** An amount that is not finite does not survive: it comes back as
    [null]. *)
Lemma infinite_amount_lost :
  let doc := handleBudgetChange "flights" "Infinity" (Some Dataset.estimated)
               sample in
  budget_amount doc "flights" Dataset.estimated = Some infinity
  /\ JSON_parse (JSON_stringify (to_value doc)) <> Ok (to_value doc).
Proof.
  split; [reflexivity|]. intros H. vm_compute in H. discriminate.
Qed.

(** * Further properties of the handlers *)

(** ** Records and lists *)

Lemma with_itinerary_same (doc : TripDocument) :
  with_itinerary doc (itinerary doc) = doc.
Proof. destruct doc. reflexivity. Qed.

Lemma with_activities_same (d : DayPlan.t) :
  with_activities d (DayPlan.activities d) = d.
Proof. destruct d. reflexivity. Qed.

Lemma map_same {A : Type} (f : A -> A) (l : list A) :
  (forall x, In x l -> f x = x) -> map f l = l.
Proof.
  intros H. rewrite <- (map_id l) at 2. apply map_ext_in. exact H.
Qed.

Lemma filter_same {A : Type} (p : A -> bool) (l : list A) :
  (forall x, In x l -> p x = true) -> filter p l = l.
Proof.
  induction l as [|x l IH]; intros H; simpl; [reflexivity|].
  rewrite (H x (or_introl eq_refl)). f_equal. apply IH.
  intros y Hy. apply H. now right.
Qed.

Lemma mapM_inv {A B : Type} (f : A -> result B) (l : list A) : forall l',
  mapM f l = Ok l' -> Forall2 (fun x y => f x = Ok y) l l'.
Proof.
  induction l as [|x l IH]; intros l' H; simpl in H.
  - injection H as <-. constructor.
  - destruct (f x) as [y|] eqn:E; [|discriminate]. simpl in H.
    destruct (mapM f l) as [ys|]; [|discriminate]. simpl in H.
    injection H as <-. constructor; [exact E|now apply IH].
Qed.

(** ** Dates the handlers compute *)

Lemma Date_parse_in_range (s : string) (t : Z) :
  Date_parse s = Some t -> in_range t.
Proof.
  unfold Date_parse, TimeClip, in_range.
  destruct (parse_civil s) as [[[y m] d]|]; [|discriminate].
  destruct (Z.leb_spec (Z.abs (days_from_civil y m d * msPerDay)) maxTime)
    as [Hr|Hr]; [|discriminate].
  intros E. injection E as <-. exact Hr.
Qed.

Lemma dayDate_inv (start : TimeValue) (n : Z) (s : string) :
  dayDate start n = Ok s ->
  exists t,
    start = Some t /\ in_range (t + (n - 1) * msPerDay)
    /\ s = isoDate (t + (n - 1) * msPerDay).
Proof.
  destruct start as [t|]; [|discriminate]. intros H. exists t.
  destruct (Z.le_gt_cases (Z.abs (t + (n - 1) * msPerDay)) maxTime) as [Hr|Hr].
  - rewrite dayDate_valid in H by exact Hr. injection H as <-. now repeat split.
  - rewrite dayDate_out_of_range in H; [discriminate|].
    unfold in_range. lia.
Qed.

Lemma dayDate_addDays (start : string) (n : Z) (s : string) :
  dayDate (Date_parse start) n = Ok s -> addDays start (n - 1) = Some s.
Proof.
  intros H. destruct (dayDate_inv _ _ _ H) as (t & Ht & _ & ->).
  now apply addDays_isoDate.
Qed.


(** ** Renumbering *)

Lemma renumber_dates (start : string) (l : list DayPlan.t) : forall i l',
  renumber start i l = Ok l' ->
  Forall (fun day => addDays start (DayPlan.day day - 1)
                     = Some (DayPlan.date day)) l'.
Proof.
  induction l as [|day rest IH]; intros i l' H; simpl in H.
  - injection H as <-. constructor.
  - destruct (dayDate (Date_parse start) i) as [newDate|] eqn:E; [|discriminate].
    simpl in H.
    destruct (renumber start (i + 1) rest) as [rest'|] eqn:E'; [|discriminate].
    injection H as <-. constructor; [|now apply (IH _ _ E')].
    simpl. now apply dayDate_addDays.
Qed.

(** Renumbering days that already carry the numbers and dates it would
    give changes nothing. *)
Lemma renumber_fixed (start : string) (l : list DayPlan.t) : forall i l',
  renumber start i l = Ok l' ->
  map DayPlan.day l = map (fun k => i + Z.of_nat k) (seq 0 (List.length l)) ->
  Forall (fun day => addDays start (DayPlan.day day - 1)
                     = Some (DayPlan.date day)) l ->
  l' = l.
Proof.
  induction l as [|day rest IH]; intros i l' H Hd Hc; simpl in H.
  - now injection H as <-.
  - destruct (dayDate (Date_parse start) i) as [newDate|] eqn:E; [|discriminate].
    simpl in H.
    destruct (renumber start (i + 1) rest) as [rest'|] eqn:E'; [|discriminate].
    injection H as <-. simpl in Hd. injection Hd as Hday Hrest.
    inversion Hc as [|? ? Hdate Hc']; subst.
    apply dayDate_addDays in E.
    replace (i + 0) with i in Hday by lia. rewrite Hday in Hdate.
    rewrite E in Hdate. injection Hdate as ->.
    f_equal.
    + destruct day; simpl in *. now subst.
    + apply (IH _ _ E'); [|exact Hc'].
      rewrite Hrest, <- seq_shift, map_map. apply map_ext. intros k. lia.
Qed.

Lemma one_to_shift (n : nat) :
  one_to n = map (fun k => 1 + Z.of_nat k) (seq 0 n).
Proof.
  unfold one_to. rewrite <- seq_shift, map_map. apply map_ext. intros k. lia.
Qed.

(** Whether renumbering returns depends on the number of days only. *)
Lemma renumber_length (start : string) (l1 : list DayPlan.t) :
  forall i l1' (l2 : list DayPlan.t),
    renumber start i l1 = Ok l1' ->
    List.length l2 = List.length l1 ->
    exists l2', renumber start i l2 = Ok l2'.
Proof.
  induction l1 as [|d1 l1 IH]; intros i l1' [|d2 l2] H Hlen;
    try discriminate; simpl in *.
  - now exists [].
  - destruct (dayDate (Date_parse start) i) as [newDate|]; [|discriminate].
    simpl in *.
    destruct (renumber start (i + 1) l1) as [rest'|] eqn:E; [|discriminate].
    destruct (IH _ _ l2 E) as (l2' & ->); [lia|]. simpl. eauto.
Qed.

Lemma filter_ids (dayId : string) (l : list DayPlan.t) :
  ~ In dayId (map DayPlan.id l) ->
  filter (fun day => negb (String.eqb (DayPlan.id day) dayId)) l = l.
Proof.
  intros H. apply filter_same. intros d Hd.
  destruct (String.eqb (DayPlan.id d) dayId) eqn:E; [|reflexivity].
  apply String.eqb_eq in E. exfalso. apply H. rewrite <- E.
  now apply in_map.
Qed.

Lemma filter_ids_gone (dayId : string) (l : list DayPlan.t) :
  ~ In dayId
      (map DayPlan.id
         (filter (fun day => negb (String.eqb (DayPlan.id day) dayId)) l)).
Proof.
  intros H. apply in_map_iff in H. destruct H as (d & Hid & Hd).
  apply filter_In in Hd. destruct Hd as [_ Hd].
  rewrite Hid, String.eqb_refl in Hd. discriminate.
Qed.

(** ** Removing a day *)

Lemma removeDay_unknown (dayId : string) (doc doc' : TripDocument) :
  contiguous doc ->
  Forall (fun day => addDays (startDate doc) (DayPlan.day day - 1)
                     = Some (DayPlan.date day)) (itinerary doc) ->
  ~ In dayId (map DayPlan.id (itinerary doc)) ->
  removeDay dayId doc = Ok doc' -> doc' = doc.
Proof.
  intros Hc Hd Hid H. destruct (removeDay_inv _ _ _ H) as (l' & Hl' & ->).
  rewrite filter_ids in Hl' by exact Hid.
  rewrite (renumber_fixed _ _ _ _ Hl'); [apply with_itinerary_same| |exact Hd].
  unfold contiguous, day_numbers in Hc. now rewrite Hc, one_to_shift.
Qed.

(** X1: [removeDay] removes every day that has the id and no other, keeps
    the remaining days in their order with their activities, numbers them
    [1..N] and dates each one the start date plus [day - 1] days; nothing
    else in the document changes. *)
Theorem removeDay_result (dayId : string) (doc doc' : TripDocument) :
  removeDay dayId doc = Ok doc' ->
  map DayPlan.id (itinerary doc')
  = filter (fun i => negb (String.eqb i dayId)) (map DayPlan.id (itinerary doc))
  /\ ~ In dayId (map DayPlan.id (itinerary doc'))
  /\ map DayPlan.activities (itinerary doc')
     = map DayPlan.activities
         (filter (fun day => negb (String.eqb (DayPlan.id day) dayId))
                 (itinerary doc))
  /\ day_numbers doc' = one_to (List.length (itinerary doc'))
  /\ Forall (fun day => addDays (startDate doc') (DayPlan.day day - 1)
                        = Some (DayPlan.date day)) (itinerary doc')
  /\ with_itinerary doc' (itinerary doc) = doc.
Proof.
  intros H. destruct (removeDay_inv _ _ _ H) as (l' & Hl' & ->). simpl.
  destruct (renumber_spec _ _ _ _ Hl') as (Hlen & Hday & Hid & Hact).
  split; [|split; [|split; [|split; [|split]]]].
  - rewrite Hid. clear. induction (itinerary doc) as [|d l IH]; simpl;
      [reflexivity|].
    destruct (String.eqb (DayPlan.id d) dayId); simpl; now rewrite IH.
  - rewrite Hid. apply filter_ids_gone.
  - exact Hact.
  - now apply renumber_contiguous in Hl'.
  - now apply renumber_dates in Hl'.
  - destruct doc. reflexivity.
Qed.

Lemma removeDay_result_witness :
  exists doc1 doc',
    addDay "day-2" "act-2" sample = Ok doc1
    /\ removeDay "day-1" doc1 = Ok doc'
    /\ map DayPlan.id (itinerary doc') = ["day-2"]
    /\ day_numbers doc' = [1]
    /\ map DayPlan.date (itinerary doc') = ["2023-11-14"].
Proof.
  eexists. eexists. split; [reflexivity|].
  match goal with |- ?r = Ok ?d /\ _ =>
    assert (H : r = Ok d) by (vm_compute; reflexivity) end.
  split; [exact H|].
  destruct (removeDay_result _ _ _ H) as (Hid & _ & _ & Hday & _).
  split; [exact Hid|]. split; [exact Hday|]. reflexivity.
Defined.

(** X2: on a document whose days are numbered [1..N] and dated from the
    start date, [removeDay] with an id that no day has returns the document
    as it is; it returns when the start date is a date and the days are in
    the range of [Date]. *)
Theorem removeDay_unknown_id (dayId : string) (doc : TripDocument) :
  contiguous doc ->
  Forall (fun day => addDays (startDate doc) (DayPlan.day day - 1)
                     = Some (DayPlan.date day)) (itinerary doc) ->
  ~ In dayId (map DayPlan.id (itinerary doc)) ->
  (forall doc', removeDay dayId doc = Ok doc' -> doc' = doc)
  /\ (forall t,
        Date_parse (startDate doc) = Some t ->
        (forall n, 1 <= n <= Z.of_nat (List.length (itinerary doc)) ->
                   in_range (t + (n - 1) * msPerDay)) ->
        removeDay dayId doc = Ok doc).
Proof.
  intros Hc Hd Hid. split.
  - intros doc'. now apply removeDay_unknown.
  - intros t Ht Hr.
    destruct (renumber_returns (startDate doc) t (itinerary doc) Ht 1)
      as (l' & Hl').
    { intros n Hn. apply Hr. lia. }
    assert (H : removeDay dayId doc = Ok (with_itinerary doc l')).
    { unfold removeDay. rewrite filter_ids by exact Hid. now rewrite Hl'. }
    rewrite H. f_equal. now apply (removeDay_unknown dayId).
Qed.

Lemma removeDay_unknown_id_witness : removeDay "no-such-day" sample = Ok sample.
Proof.
  refine (proj2 (removeDay_unknown_id "no-such-day" sample _ _ _)
            1699920000000 eq_refl _).
  - reflexivity.
  - repeat constructor.
  - simpl. intuition discriminate.
  - intros n Hn. simpl in Hn. unfold in_range, msPerDay, maxTime. lia.
Defined.

(** X3: [removeDay] is idempotent: removing the same id from the document
    it returned returns that document again. *)
Theorem removeDay_idempotent (dayId : string) (doc doc1 : TripDocument) :
  removeDay dayId doc = Ok doc1 -> removeDay dayId doc1 = Ok doc1.
Proof.
  intros H. destruct (removeDay_inv _ _ _ H) as (l' & Hl' & ->).
  destruct (renumber_spec _ _ _ _ Hl') as (Hlen & Hday & Hid & _).
  assert (Hgone : ~ In dayId (map DayPlan.id l')).
  { rewrite Hid. apply filter_ids_gone. }
  unfold removeDay. simpl. rewrite filter_ids by exact Hgone.
  destruct (renumber_length _ _ _ _ l' Hl' Hlen) as (l2 & Hl2).
  assert (l2 = l') as ->.
  { apply (renumber_fixed _ _ _ _ Hl2).
    - now rewrite Hday, Hlen.
    - now apply renumber_dates in Hl'. }
  rewrite Hl2. reflexivity.
Qed.

Lemma removeDay_idempotent_witness :
  exists doc1,
    removeDay "day-1" sample = Ok doc1 /\ removeDay "day-1" doc1 = Ok doc1.
Proof.
  eexists. split; [reflexivity|].
  apply (removeDay_idempotent "day-1" sample). reflexivity.
Defined.

(** ** Adding a day *)

Lemma addDay_spec (uuid1 uuid2 : string) (doc doc' : TripDocument) :
  addDay uuid1 uuid2 doc = Ok doc' <->
  exists t,
    Date_parse (startDate doc) = Some t
    /\ in_range (t + Z.of_nat (List.length (itinerary doc)) * msPerDay)
    /\ doc' = with_itinerary doc
                (itinerary doc
                   ++ [DayPlan.mk uuid1
                         (Z.of_nat (List.length (itinerary doc)) + 1)
                         (isoDate
                            (t + Z.of_nat (List.length (itinerary doc))
                                 * msPerDay))
                         [Activity.mk uuid2 "09:00" "New Day Activity"]])%list.
Proof.
  unfold addDay. split.
  - destruct (dayDate _ _) as [newDate|] eqn:E; [|discriminate].
    simpl. intros H. injection H as <-.
    destruct (dayDate_inv _ _ _ E) as (t & Ht & Hr & ->).
    replace (Z.of_nat (List.length (itinerary doc)) + 1 - 1)
      with (Z.of_nat (List.length (itinerary doc))) in * by lia.
    exists t. now repeat split.
  - intros (t & Ht & Hr & ->). rewrite Ht, dayDate_valid.
    + simpl.
      now replace (Z.of_nat (List.length (itinerary doc)) + 1 - 1)
        with (Z.of_nat (List.length (itinerary doc))) by lia.
    + now replace (Z.of_nat (List.length (itinerary doc)) + 1 - 1)
        with (Z.of_nat (List.length (itinerary doc))) by lia.
Qed.

(** X4: on a start date that is a date, [addDay] returns when the date of
    the new day is in the range of [Date] and throws a RangeError when it
    is not; when it returns it has left the existing days as they are and
    appended one day, numbered one more than their count, dated the start
    date plus that count of days and holding the one seeded activity.  On
    the empty start date of a cleared input it throws a RangeError, and it
    throws nothing else. *)
Theorem addDay_outcome (uuid1 uuid2 : string) (doc : TripDocument) :
  let n := Z.of_nat (List.length (itinerary doc)) in
  let appended := fun date =>
    with_itinerary doc
      (itinerary doc
         ++ [DayPlan.mk uuid1 (n + 1) date
               [Activity.mk uuid2 "09:00" "New Day Activity"]])%list in
  (forall t,
      Date_parse (startDate doc) = Some t ->
      (in_range (t + n * msPerDay) ->
       exists date,
         addDays (startDate doc) n = Some date
         /\ addDay uuid1 uuid2 doc = Ok (appended date))
      /\ (~ in_range (t + n * msPerDay) ->
          addDay uuid1 uuid2 doc = Throw RangeError))
  /\ (forall doc',
        addDay uuid1 uuid2 doc = Ok doc' -> exists date, doc' = appended date)
  /\ (startDate doc = "" -> addDay uuid1 uuid2 doc = Throw RangeError)
  /\ (forall e, addDay uuid1 uuid2 doc = Throw e -> e = RangeError).
Proof.
  intros n appended. split; [|split; [|split]].
  - intros t Ht. split.
    + intros Hr. exists (isoDate (t + n * msPerDay)).
      split; [now apply addDays_isoDate|].
      apply addDay_spec. exists t. now repeat split.
    + intros Hr. unfold addDay. rewrite Ht.
      rewrite dayDate_out_of_range; [reflexivity|]. fold n.
      now replace (n + 1 - 1) with n by lia.
  - intros doc' H. apply addDay_spec in H. destruct H as (t & _ & _ & ->).
    now eexists.
  - intros H. unfold addDay. rewrite H. reflexivity.
  - intros e. unfold addDay, dayDate, toISODate, toISOString.
    destruct (Date_of_number _); simpl; [discriminate|].
    intros H. now injection H as <-.
Qed.

Lemma addDay_outcome_witness :
  (exists date,
      addDays (startDate sample) 1 = Some date
      /\ addDay "day-2" "act-2" sample
         = Ok (with_itinerary sample
                 (itinerary sample
                    ++ [DayPlan.mk "day-2" 2 date
                          [Activity.mk "act-2" "09:00" "New Day Activity"]])%list))
  /\ addDay "day-2" "act-2" (set_detail Name.startDate "" sample)
     = Throw RangeError.
Proof.
  split.
  - apply (proj1 (proj1 (addDay_outcome "day-2" "act-2" sample)
                    1699920000000 eq_refl)).
    unfold in_range, msPerDay, maxTime. simpl. lia.
  - apply (proj1 (proj2 (proj2 (addDay_outcome "day-2" "act-2"
                                  (set_detail Name.startDate "" sample))))).
    reflexivity.
Defined.

(** X5: on a document whose days are numbered [1..N] and dated from the
    start date, removing the day [addDay] has just added, whose id no other
    day has, gives the document back. *)
Theorem addDay_then_removeDay (uuid1 uuid2 : string) (doc doc1 : TripDocument) :
  contiguous doc ->
  Forall (fun day => addDays (startDate doc) (DayPlan.day day - 1)
                     = Some (DayPlan.date day)) (itinerary doc) ->
  ~ In uuid1 (map DayPlan.id (itinerary doc)) ->
  addDay uuid1 uuid2 doc = Ok doc1 ->
  removeDay uuid1 doc1 = Ok doc.
Proof.
  intros Hc Hd Hid H. apply addDay_spec in H.
  destruct H as (t & Ht & Hr & ->).
  pose proof (Date_parse_in_range _ _ Ht) as Hr0.
  destruct (renumber_returns (startDate doc) t (itinerary doc) Ht 1)
    as (l' & Hl').
  { intros n Hn. unfold in_range, msPerDay, maxTime in *. lia. }
  unfold removeDay. simpl. rewrite filter_app, filter_ids by exact Hid.
  simpl. rewrite String.eqb_refl. simpl. rewrite app_nil_r, Hl'. simpl.
  unfold contiguous, day_numbers in Hc.
  rewrite (renumber_fixed _ _ _ _ Hl');
    [|now rewrite Hc, one_to_shift|exact Hd].
  f_equal. destruct doc. reflexivity.
Qed.

Lemma addDay_then_removeDay_witness :
  exists doc1,
    addDay "day-2" "act-2" sample = Ok doc1
    /\ removeDay "day-2" doc1 = Ok sample.
Proof.
  eexists. split; [reflexivity|].
  apply (addDay_then_removeDay "day-2" "act-2" sample).
  - reflexivity.
  - repeat constructor.
  - simpl. intuition discriminate.
  - reflexivity.
Defined.

(** ** Changing a detail *)

Lemma redate_inv (start : TimeValue) (l l' : list DayPlan.t) :
  mapM
    (fun day =>
       bind (dayDate start (DayPlan.day day)) (fun newDate =>
       Ok (DayPlan.mk (DayPlan.id day) (DayPlan.day day) newDate
             (DayPlan.activities day)))) l = Ok l' ->
  Forall2
    (fun old new =>
       dayDate start (DayPlan.day old) = Ok (DayPlan.date new)
       /\ DayPlan.day new = DayPlan.day old
       /\ DayPlan.id new = DayPlan.id old
       /\ DayPlan.activities new = DayPlan.activities old) l l'.
Proof.
  intros H. apply mapM_inv in H.
  eapply Forall2_impl; [|exact H]. intros old new Hn. simpl in Hn.
  destruct (dayDate start (DayPlan.day old)) as [newDate|]; [|discriminate].
  simpl in Hn. injection Hn as <-. now repeat split.
Qed.

Lemma redate_returns (t : Z) (l : list DayPlan.t) :
  Forall (fun day => in_range (t + (DayPlan.day day - 1) * msPerDay)) l ->
  exists l',
    mapM
      (fun day =>
         bind (dayDate (Some t) (DayPlan.day day)) (fun newDate =>
         Ok (DayPlan.mk (DayPlan.id day) (DayPlan.day day) newDate
               (DayPlan.activities day)))) l = Ok l'.
Proof.
  intros H.
  destruct (mapM_Forall2
              (fun day =>
                 bind (dayDate (Some t) (DayPlan.day day)) (fun newDate =>
                 Ok (DayPlan.mk (DayPlan.id day) (DayPlan.day day) newDate
                       (DayPlan.activities day))))
              (fun _ _ => True) l) as (l' & Hl' & _).
  - eapply Forall_impl; [|exact H]. intros day Hr.
    rewrite dayDate_valid by exact Hr. simpl. eauto.
  - eauto.
Qed.

Lemma redate_out_of_range (t : Z) (l : list DayPlan.t) :
  Exists (fun day => ~ in_range (t + (DayPlan.day day - 1) * msPerDay)) l ->
  mapM
    (fun day =>
       bind (dayDate (Some t) (DayPlan.day day)) (fun newDate =>
       Ok (DayPlan.mk (DayPlan.id day) (DayPlan.day day) newDate
             (DayPlan.activities day)))) l = Throw RangeError.
Proof.
  induction l as [|day l IH]; intros H; [inversion H|]. simpl.
  destruct (Z.le_gt_cases (Z.abs (t + (DayPlan.day day - 1) * msPerDay))
              maxTime) as [Hr|Hr].
  - rewrite dayDate_valid by exact Hr. simpl.
    rewrite IH; [reflexivity|].
    inversion H as [? ? Hx|? ? Hx]; subst; [|exact Hx].
    contradiction.
  - rewrite dayDate_out_of_range; [reflexivity|]. unfold in_range. lia.
Qed.

(** X6: [handleDetailChange] can throw only on a change of the start date
    of a trip that has days, and what it throws is a RangeError.  It
    returns when the field is another one, or there is no day, or the
    value is a date from which every day's date is in the range of [Date];
    on such a trip it throws when the value is the empty string of a
    cleared input, or a date from which some day's date is out of
    range. *)
Theorem handleDetailChange_returns (name : Name.t) (value : string)
    (doc : TripDocument) :
  (name <> Name.startDate
   \/ itinerary doc = []
   \/ (exists t,
         Date_parse value = Some t
         /\ Forall (fun day =>
                      in_range (t + (DayPlan.day day - 1) * msPerDay))
                   (itinerary doc)) ->
   exists doc', handleDetailChange name value doc = Ok doc')
  /\ (name = Name.startDate -> itinerary doc <> [] ->
      value = ""
      \/ (exists t,
            Date_parse value = Some t
            /\ Exists (fun day =>
                         ~ in_range (t + (DayPlan.day day - 1) * msPerDay))
                      (itinerary doc)) ->
      handleDetailChange name value doc = Throw RangeError)
  /\ (forall e,
        handleDetailChange name value doc = Throw e ->
        e = RangeError /\ name = Name.startDate /\ itinerary doc <> []).
Proof.
  split; [|split].
  - intros [Hn|[Hn|(t & Ht & Hr)]]; unfold handleDetailChange.
    + destruct name; try contradiction; eauto.
    + rewrite Hn. destruct name; eauto.
    + destruct name; eauto.
      destruct (itinerary doc) as [|day0 rest] eqn:Hit; eauto.
      rewrite Ht. destruct (redate_returns t _ Hr) as (l' & ->).
      simpl. eauto.
  - intros -> Hne H. unfold handleDetailChange.
    destruct (itinerary doc) as [|day0 rest]; [contradiction|].
    destruct H as [->|(t & Ht & Hr)]; [reflexivity|].
    rewrite Ht. now rewrite (redate_out_of_range t _ Hr).
  - intros e. unfold handleDetailChange.
    destruct name; try discriminate.
    destruct (itinerary doc) as [|day0 rest]; [discriminate|].
    intros H. split; [|split; [reflexivity|discriminate]]. revert H.
    generalize (day0 :: rest). intros l.
    destruct (mapM _ l) as [it|e'] eqn:E; [discriminate|].
    simpl. intros H. injection H as <-.
    clear - E. induction l as [|day l IH]; [discriminate|].
    simpl in E.
    destruct (dayDate (Date_parse value) (DayPlan.day day)) as [d|e0] eqn:Ed.
    + simpl in E. destruct (mapM _ l) as [ys|e1]; [discriminate|].
      simpl in E. injection E as <-. now apply IH.
    + simpl in E. injection E as <-. clear - Ed.
      unfold dayDate, toISODate, toISOString in Ed.
      destruct (Date_of_number _); simpl in Ed; [discriminate|].
      now injection Ed as <-.
Qed.

Lemma handleDetailChange_returns_witness :
  (exists doc', handleDetailChange Name.startDate "2024-02-29" sample = Ok doc')
  /\ handleDetailChange Name.startDate "" sample = Throw RangeError.
Proof.
  split.
  - apply (proj1 (handleDetailChange_returns Name.startDate "2024-02-29" sample)).
    right. right. exists 1709164800000. split; [reflexivity|].
    repeat constructor. unfold in_range, msPerDay, maxTime. simpl. lia.
  - apply (proj1 (proj2 (handleDetailChange_returns Name.startDate "" sample)));
      [reflexivity|discriminate|now left].
Defined.

(** ** Activities *)

Lemma itinerary_with_itinerary (doc : TripDocument) (l : list DayPlan.t) :
  itinerary (with_itinerary doc l) = l.
Proof. reflexivity. Qed.

Lemma with_itinerary_twice (doc : TripDocument) (l1 l2 : list DayPlan.t) :
  with_itinerary (with_itinerary doc l1) l2 = with_itinerary doc l2.
Proof. reflexivity. Qed.

(** The three activity handlers rewrite the activities of the days that
    have the id and leave every other part of a day alone. *)
Lemma on_day_proj {B : Type} (proj : DayPlan.t -> B) (dayId : string)
    (F : list Activity.t -> list Activity.t) (l : list DayPlan.t) :
  (forall d a, proj (with_activities d a) = proj d) ->
  map proj
    (map (fun day =>
            if String.eqb (DayPlan.id day) dayId
            then with_activities day (F (DayPlan.activities day))
            else day) l)
  = map proj l.
Proof.
  intros H. rewrite map_map. apply map_ext. intros d.
  destruct (String.eqb (DayPlan.id d) dayId); [apply H|reflexivity].
Qed.

Lemma on_day_same (dayId : string) (F : list Activity.t -> list Activity.t)
    (doc : TripDocument) :
  (forall day, In day (itinerary doc) -> DayPlan.id day = dayId ->
               F (DayPlan.activities day) = DayPlan.activities day) ->
  with_itinerary doc
    (map (fun day =>
            if String.eqb (DayPlan.id day) dayId
            then with_activities day (F (DayPlan.activities day))
            else day) (itinerary doc))
  = doc.
Proof.
  intros H. rewrite map_same; [apply with_itinerary_same|].
  intros d Hd. destruct (String.eqb (DayPlan.id d) dayId) eqn:E;
    [|reflexivity].
  apply String.eqb_eq in E. rewrite (H d Hd E). apply with_activities_same.
Qed.

Lemma on_day_compose (dayId : string)
    (F G : list Activity.t -> list Activity.t) (l : list DayPlan.t) :
  map (fun day =>
         if String.eqb (DayPlan.id day) dayId
         then with_activities day (G (DayPlan.activities day))
         else day)
      (map (fun day =>
              if String.eqb (DayPlan.id day) dayId
              then with_activities day (F (DayPlan.activities day))
              else day) l)
  = map (fun day =>
           if String.eqb (DayPlan.id day) dayId
           then with_activities day (G (F (DayPlan.activities day)))
           else day) l.
Proof.
  rewrite map_map. apply map_ext. intros d.
  destruct (String.eqb (DayPlan.id d) dayId) eqn:E; simpl; now rewrite E.
Qed.

Lemma on_day_ext (dayId : string)
    (F G : list Activity.t -> list Activity.t) (l : list DayPlan.t) :
  (forall day, In day l -> DayPlan.id day = dayId ->
               F (DayPlan.activities day) = G (DayPlan.activities day)) ->
  map (fun day =>
         if String.eqb (DayPlan.id day) dayId
         then with_activities day (F (DayPlan.activities day))
         else day) l
  = map (fun day =>
           if String.eqb (DayPlan.id day) dayId
           then with_activities day (G (DayPlan.activities day))
           else day) l.
Proof.
  intros H. apply map_ext_in. intros d Hd.
  destruct (String.eqb (DayPlan.id d) dayId) eqn:E; [|reflexivity].
  apply String.eqb_eq in E. now rewrite (H d Hd E).
Qed.

Lemma set_activity_id (field : Field.t) (value : string) (a : Activity.t) :
  Activity.id (set_activity field value a) = Activity.id a.
Proof. destruct field; reflexivity. Qed.

Lemma set_activity_twice (field : Field.t) (v1 v2 : string) (a : Activity.t) :
  set_activity field v2 (set_activity field v1 a) = set_activity field v2 a.
Proof. destruct field; reflexivity. Qed.

(** X7: [handleActivityChange] keeps the days (ids, numbers, dates) and the
    ids of their activities; it returns the document as it is when no day
    with the id holds an activity with the id; and a second change of the
    same field of the same activity overrides the first. *)
Theorem handleActivityChange_effect (dayId activityId : string)
    (field : Field.t) (doc : TripDocument) :
  (forall value,
      let doc' := handleActivityChange dayId activityId field value doc in
      map DayPlan.id (itinerary doc') = map DayPlan.id (itinerary doc)
      /\ map DayPlan.day (itinerary doc') = map DayPlan.day (itinerary doc)
      /\ map DayPlan.date (itinerary doc') = map DayPlan.date (itinerary doc)
      /\ map (fun day => map Activity.id (DayPlan.activities day))
             (itinerary doc')
         = map (fun day => map Activity.id (DayPlan.activities day))
               (itinerary doc))
  /\ ((forall day, In day (itinerary doc) -> DayPlan.id day = dayId ->
                   ~ In activityId (map Activity.id (DayPlan.activities day))) ->
      forall value, handleActivityChange dayId activityId field value doc = doc)
  /\ (forall v1 v2,
        handleActivityChange dayId activityId field v2
          (handleActivityChange dayId activityId field v1 doc)
        = handleActivityChange dayId activityId field v2 doc).
Proof.
  split; [|split].
  - intros value doc'. subst doc'. unfold handleActivityChange.
    rewrite itinerary_with_itinerary. repeat split.
    + now apply (on_day_proj DayPlan.id).
    + now apply (on_day_proj DayPlan.day).
    + now apply (on_day_proj DayPlan.date).
    + rewrite map_map. apply map_ext. intros d.
      destruct (String.eqb (DayPlan.id d) dayId); [|reflexivity].
      simpl. rewrite map_map. apply map_ext. intros a.
      destruct (String.eqb (Activity.id a) activityId); [|reflexivity].
      apply set_activity_id.
  - intros H value. unfold handleActivityChange.
    apply (on_day_same dayId
             (map (fun activity =>
                     if String.eqb (Activity.id activity) activityId
                     then set_activity field value activity else activity))).
    intros day Hd Hid. apply map_same. intros a Ha.
    destruct (String.eqb (Activity.id a) activityId) eqn:E; [|reflexivity].
    apply String.eqb_eq in E. exfalso. apply (H day Hd Hid).
    rewrite <- E. now apply in_map.
  - intros v1 v2. unfold handleActivityChange.
    rewrite itinerary_with_itinerary, with_itinerary_twice. f_equal.
    rewrite (on_day_compose dayId
               (map (fun activity =>
                       if String.eqb (Activity.id activity) activityId
                       then set_activity field v1 activity else activity))
               (map (fun activity =>
                       if String.eqb (Activity.id activity) activityId
                       then set_activity field v2 activity else activity))).
    apply (on_day_ext dayId
             (fun acts =>
                map (fun activity =>
                       if String.eqb (Activity.id activity) activityId
                       then set_activity field v2 activity else activity)
                    (map (fun activity =>
                            if String.eqb (Activity.id activity) activityId
                            then set_activity field v1 activity else activity)
                         acts))
             (map (fun activity =>
                     if String.eqb (Activity.id activity) activityId
                     then set_activity field v2 activity else activity))).
    intros day _ _. rewrite map_map. apply map_ext.
    intros a. destruct (String.eqb (Activity.id a) activityId) eqn:E.
    + rewrite set_activity_id, E. apply set_activity_twice.
    + now rewrite E.
Qed.

Lemma handleActivityChange_effect_witness :
  handleActivityChange "day-1" "no-such-activity" Field.time "10:30" sample
  = sample.
Proof.
  apply (proj1 (proj2 (handleActivityChange_effect
                         "day-1" "no-such-activity" Field.time sample))).
  intros day [<-|[]] _. simpl. intuition discriminate.
Defined.

(** The days that have the id. *)
Lemma addActivity_map_absent (randomUUID : nat -> string) (dayId : string)
    (calls : nat) (l : list DayPlan.t) :
  ~ In dayId (map DayPlan.id l) ->
  addActivity_map randomUUID dayId calls l = l.
Proof.
  induction l as [|d l IH]; simpl; [reflexivity|]. intros H.
  destruct (String.eqb (DayPlan.id d) dayId) eqn:E.
  - apply String.eqb_eq in E. tauto.
  - rewrite IH; tauto.
Qed.

(** With distinct day ids there is one call at most, the call numbered
    [calls]. *)
Lemma addActivity_map_one (randomUUID : nat -> string) (dayId : string)
    (calls : nat) (l : list DayPlan.t) :
  NoDup (map DayPlan.id l) ->
  addActivity_map randomUUID dayId calls l
  = map (fun day =>
           if String.eqb (DayPlan.id day) dayId
           then with_activities day
                  (DayPlan.activities day
                     ++ [Activity.mk (randomUUID calls) "" ""])%list
           else day) l.
Proof.
  induction l as [|d l IH]; simpl; [reflexivity|]. intros Hn.
  inversion Hn as [|? ? Hd Hl]; subst.
  destruct (String.eqb (DayPlan.id d) dayId) eqn:E.
  - apply String.eqb_eq in E. subst dayId.
    rewrite (addActivity_map_absent _ _ _ _ Hd). f_equal.
    symmetry. apply map_same. intros x Hx.
    destruct (String.eqb (DayPlan.id x) (DayPlan.id d)) eqn:Ex;
      [|reflexivity].
    apply String.eqb_eq in Ex. exfalso. apply Hd. rewrite <- Ex.
    now apply in_map.
  - now rewrite IH.
Qed.

(** The day at position [i] receives the UUID of the call whose number is
    the count of the days before it that have the id. *)
Lemma addActivity_map_nth (randomUUID : nat -> string) (dayId : string)
    (l : list DayPlan.t) :
  forall (calls i : nat) (old : DayPlan.t),
    nth_error l i = Some old ->
    nth_error (addActivity_map randomUUID dayId calls l) i
    = Some (if String.eqb (DayPlan.id old) dayId
            then with_activities old
                   (DayPlan.activities old
                      ++ [Activity.mk
                            (randomUUID
                               (calls + List.length
                                          (filter
                                             (fun day =>
                                                String.eqb (DayPlan.id day)
                                                           dayId)
                                             (firstn i l)))%nat)
                            "" ""])%list
            else old).
Proof.
  induction l as [|d l IH]; intros calls [|i] old H; simpl in *;
    try discriminate.
  - injection H as ->. rewrite Nat.add_0_r.
    destruct (String.eqb (DayPlan.id old) dayId); reflexivity.
  - destruct (String.eqb (DayPlan.id d) dayId); simpl;
      rewrite (IH _ _ _ H); [|reflexivity].
    now rewrite Nat.add_succ_r.
Qed.

Lemma addActivity_map_length (randomUUID : nat -> string) (dayId : string)
    (l : list DayPlan.t) :
  forall calls,
    List.length (addActivity_map randomUUID dayId calls l) = List.length l.
Proof.
  induction l as [|d l IH]; intros calls; simpl; [reflexivity|].
  destruct (String.eqb (DayPlan.id d) dayId); simpl; now rewrite IH.
Qed.

Lemma addActivity_map_count (randomUUID : nat -> string) (dayId : string)
    (l : list DayPlan.t) :
  forall calls,
    List.length
      (flat_map DayPlan.activities (addActivity_map randomUUID dayId calls l))
    = (List.length (flat_map DayPlan.activities l)
       + List.length
           (filter (fun day => String.eqb (DayPlan.id day) dayId) l))%nat.
Proof.
  induction l as [|d l IH]; intros calls; simpl; [reflexivity|].
  destruct (String.eqb (DayPlan.id d) dayId); simpl;
    rewrite !length_app, IH; simpl; lia.
Qed.

Lemma filter_none {A : Type} (keep : A -> bool) (l : list A) :
  (forall x, In x l -> keep x = false) -> filter keep l = [].
Proof.
  induction l as [|x l IH]; simpl; intros H; [reflexivity|].
  rewrite (H x) by now left. apply IH. intros y Hy. apply H. now right.
Qed.

Lemma one_day_has_id (dayId : string) (l : list DayPlan.t) :
  NoDup (map DayPlan.id l) -> In dayId (map DayPlan.id l) ->
  List.length (filter (fun day => String.eqb (DayPlan.id day) dayId) l)
  = 1%nat.
Proof.
  induction l as [|d l IH]; simpl; intros Hn Hin; [contradiction|].
  inversion Hn as [|? ? Hd Hl]; subst.
  destruct (String.eqb (DayPlan.id d) dayId) eqn:E.
  - apply String.eqb_eq in E. subst dayId. simpl. f_equal.
    rewrite filter_none; [reflexivity|]. intros x Hx. apply String.eqb_neq. intros Ex.
    apply Hd. rewrite <- Ex. now apply in_map.
  - apply String.eqb_neq in E. destruct Hin as [Hin|Hin]; [contradiction|].
    now apply IH.
Qed.

(** X8: [addActivity] returns the document as it is when no day has the
    id; otherwise it keeps the days and gives each day that has the id its
    former activities followed by one new activity with blank time and
    description, whose id is the UUID drawn for that day: the calls of
    [crypto.randomUUID()] are made in the order of the days.  The trip has
    one activity more for each day that has the id, so exactly one more
    when the day ids are distinct. *)
Theorem addActivity_effect (randomUUID : nat -> string) (dayId : string)
    (doc : TripDocument) :
  let doc' := addActivity randomUUID dayId doc in
  let has_id := fun day => String.eqb (DayPlan.id day) dayId in
  (~ In dayId (map DayPlan.id (itinerary doc)) -> doc' = doc)
  /\ List.length (itinerary doc') = List.length (itinerary doc)
  /\ (forall i old,
        nth_error (itinerary doc) i = Some old ->
        nth_error (itinerary doc') i
        = Some (if has_id old
                then with_activities old
                       (DayPlan.activities old
                          ++ [Activity.mk
                                (randomUUID
                                   (List.length
                                      (filter has_id
                                         (firstn i (itinerary doc)))))
                                "" ""])%list
                else old))
  /\ List.length (flat_map DayPlan.activities (itinerary doc'))
     = (List.length (flat_map DayPlan.activities (itinerary doc))
        + List.length (filter has_id (itinerary doc)))%nat
  /\ (NoDup (map DayPlan.id (itinerary doc)) ->
      In dayId (map DayPlan.id (itinerary doc)) ->
      List.length (flat_map DayPlan.activities (itinerary doc'))
      = S (List.length (flat_map DayPlan.activities (itinerary doc))))
  /\ with_itinerary doc' (itinerary doc) = doc.
Proof.
  intros doc' has_id. subst doc'. unfold addActivity.
  rewrite itinerary_with_itinerary.
  split; [|split; [|split; [|split; [|split]]]].
  - intros H. rewrite addActivity_map_absent by exact H.
    apply with_itinerary_same.
  - apply addActivity_map_length.
  - intros i old H.
    apply (addActivity_map_nth randomUUID dayId _ 0%nat i old H).
  - apply addActivity_map_count.
  - intros Hn Hin. rewrite addActivity_map_count.
    rewrite (one_day_has_id _ _ Hn Hin). lia.
  - destruct doc. reflexivity.
Qed.

Lemma addActivity_effect_witness :
  let randomUUID := fun n => match n with O => "act-8" | _ => "act-9" end in
  let twice :=
    with_itinerary sample
      [ DayPlan.mk "day-1" 1 "2023-11-14" [];
        DayPlan.mk "day-1" 2 "2023-11-15" [] ] in
  addActivity randomUUID "no-such-day" sample = sample
  /\ List.length
       (flat_map DayPlan.activities
          (itinerary (addActivity randomUUID "day-1" sample))) = 2%nat
  /\ map DayPlan.activities (itinerary (addActivity randomUUID "day-1" twice))
     = [ [Activity.mk "act-8" "" ""]; [Activity.mk "act-9" "" ""] ].
Proof.
  intros randomUUID twice.
  destruct (addActivity_effect randomUUID "no-such-day" sample) as (H & _).
  split; [apply H; simpl; intuition discriminate|].
  split; reflexivity.
Defined.

Lemma filter_filter {A : Type} (p : A -> bool) (l : list A) :
  filter p (filter p l) = filter p l.
Proof.
  apply filter_same. intros x Hx. now apply filter_In in Hx.
Qed.

(** X9: [removeActivity] keeps every day, also one left without
    activities; in the days that have the id no activity with the removed
    id is left and the others stay in their order; when no such activity is
    there the document is returned as it is, so removing twice is removing
    once. *)
Theorem removeActivity_effect (dayId activityId : string)
    (doc : TripDocument) :
  let doc' := removeActivity dayId activityId doc in
  map DayPlan.id (itinerary doc') = map DayPlan.id (itinerary doc)
  /\ map DayPlan.day (itinerary doc') = map DayPlan.day (itinerary doc)
  /\ map DayPlan.date (itinerary doc') = map DayPlan.date (itinerary doc)
  /\ Forall2
       (fun old new =>
          DayPlan.activities new
          = if String.eqb (DayPlan.id old) dayId
            then filter (fun a => negb (String.eqb (Activity.id a) activityId))
                        (DayPlan.activities old)
            else DayPlan.activities old)
       (itinerary doc) (itinerary doc')
  /\ (forall day, In day (itinerary doc') -> DayPlan.id day = dayId ->
                  ~ In activityId (map Activity.id (DayPlan.activities day)))
  /\ ((forall day, In day (itinerary doc) -> DayPlan.id day = dayId ->
                   ~ In activityId (map Activity.id (DayPlan.activities day))) ->
      doc' = doc)
  /\ removeActivity dayId activityId doc' = doc'.
Proof.
  intros doc'. subst doc'. unfold removeActivity.
  rewrite !itinerary_with_itinerary.
  split; [now apply (on_day_proj DayPlan.id)|].
  split; [now apply (on_day_proj DayPlan.day)|].
  split; [now apply (on_day_proj DayPlan.date)|].
  split; [|split; [|split]].
  - induction (itinerary doc) as [|d l IH]; simpl; constructor; [|exact IH].
    now destruct (String.eqb (DayPlan.id d) dayId).
  - intros day Hd Hid Hin. apply in_map_iff in Hd.
    destruct Hd as (d & <- & _).
    destruct (String.eqb (DayPlan.id d) dayId) eqn:E.
    + simpl in Hin. apply in_map_iff in Hin. destruct Hin as (a & Ha & Hin).
      apply filter_In in Hin. destruct Hin as [_ Hin].
      rewrite Ha, String.eqb_refl in Hin. discriminate.
    + apply String.eqb_neq in E. contradiction.
  - intros H.
    apply (on_day_same dayId
             (filter (fun a => negb (String.eqb (Activity.id a) activityId)))).
    intros day Hd Hid. apply filter_same. intros a Ha.
    destruct (String.eqb (Activity.id a) activityId) eqn:E; [|reflexivity].
    apply String.eqb_eq in E. exfalso. apply (H day Hd Hid).
    rewrite <- E. now apply in_map.
  - rewrite with_itinerary_twice. f_equal.
    rewrite (on_day_compose dayId
               (filter (fun a => negb (String.eqb (Activity.id a) activityId)))
               (filter (fun a => negb (String.eqb (Activity.id a) activityId)))).
    apply (on_day_ext dayId
             (fun acts =>
                filter (fun a => negb (String.eqb (Activity.id a) activityId))
                  (filter (fun a => negb (String.eqb (Activity.id a) activityId))
                     acts))
             (filter (fun a => negb (String.eqb (Activity.id a) activityId)))).
    intros day _ _. apply filter_filter.
Qed.

Lemma removeActivity_effect_witness :
  itinerary (removeActivity "day-1" "act-1" sample)
  = [DayPlan.mk "day-1" 1 "2023-11-14" []]
  /\ removeActivity "day-1" "act-1" (removeActivity "day-1" "act-1" sample)
     = removeActivity "day-1" "act-1" sample.
Proof.
  split; [reflexivity|].
  apply (removeActivity_effect "day-1" "act-1" sample).
Defined.

(** X10: on a document whose day ids are distinct, removing the activity
    [addActivity] has just added, whose id no activity of the day has,
    gives the document back. *)
Theorem addActivity_then_removeActivity (randomUUID : nat -> string)
    (dayId : string) (doc : TripDocument) :
  NoDup (map DayPlan.id (itinerary doc)) ->
  (forall day, In day (itinerary doc) -> DayPlan.id day = dayId ->
               ~ In (randomUUID 0%nat)
                    (map Activity.id (DayPlan.activities day))) ->
  removeActivity dayId (randomUUID 0%nat) (addActivity randomUUID dayId doc)
  = doc.
Proof.
  intros Hn H. unfold removeActivity, addActivity.
  rewrite (addActivity_map_one _ _ _ _ Hn).
  set (uuid := randomUUID 0%nat) in *.
  rewrite itinerary_with_itinerary, with_itinerary_twice.
  rewrite (on_day_compose dayId
             (fun acts => (acts ++ [Activity.mk uuid "" ""])%list)
             (filter (fun a => negb (String.eqb (Activity.id a) uuid)))).
  apply (on_day_same dayId
           (fun acts =>
              filter (fun a => negb (String.eqb (Activity.id a) uuid))
                     (acts ++ [Activity.mk uuid "" ""])%list)).
  intros day Hd Hid. rewrite filter_app. simpl.
  rewrite String.eqb_refl. simpl. rewrite app_nil_r.
  apply filter_same. intros a Ha.
  destruct (String.eqb (Activity.id a) uuid) eqn:E; [|reflexivity].
  apply String.eqb_eq in E. exfalso. apply (H day Hd Hid).
  rewrite <- E. now apply in_map.
Qed.

Lemma addActivity_then_removeActivity_witness :
  removeActivity "day-1" "act-2" (addActivity (fun _ => "act-2") "day-1" sample)
  = sample.
Proof.
  apply (addActivity_then_removeActivity (fun _ => "act-2") "day-1" sample).
  - simpl. repeat constructor. simpl. tauto.
  - intros day [<-|[]] _. simpl. intuition discriminate.
Defined.

(** ** The invariants of the data model *)

Lemma Forall_on_day (P : DayPlan.t -> Prop) (dayId : string)
    (F : list Activity.t -> list Activity.t) (l : list DayPlan.t) :
  (forall d, In d l -> P d ->
             String.eqb (DayPlan.id d) dayId = true ->
             P (with_activities d (F (DayPlan.activities d)))) ->
  Forall P l ->
  Forall P
    (map (fun day =>
            if String.eqb (DayPlan.id day) dayId
            then with_activities day (F (DayPlan.activities day))
            else day) l).
Proof.
  intros H HP. apply Forall_forall. intros x Hx.
  apply in_map_iff in Hx. destruct Hx as (d & <- & Hd).
  rewrite Forall_forall in HP.
  destruct (String.eqb (DayPlan.id d) dayId) eqn:E; [|now apply HP].
  apply H; [exact Hd|now apply HP|exact E].
Qed.

Lemma filter_keeps_distinct {A B : Type} (key : A -> B) (keep : A -> bool) :
  forall l : list A, NoDup (map key l) -> NoDup (map key (filter keep l)).
Proof.
  intros l. induction l as [|x l IH]; simpl; intros H; [constructor|].
  inversion H as [|? ? Hx Hl]; subst.
  destruct (keep x); simpl; [|now apply IH].
  constructor; [|now apply IH].
  intros Hin. apply Hx. apply in_map_iff in Hin.
  destruct Hin as (y & Hy & Hin). apply filter_In in Hin.
  rewrite <- Hy. apply in_map. tauto.
Qed.

(** The activity handlers keep the invariants when the rewriting of a
    day's activities keeps their ids distinct. *)
Lemma on_day_well_formed (dayId : string)
    (F : list Activity.t -> list Activity.t) (doc : TripDocument) :
  (forall d, In d (itinerary doc) -> DayPlan.id d = dayId ->
             NoDup (map Activity.id (DayPlan.activities d)) ->
             NoDup (map Activity.id (F (DayPlan.activities d)))) ->
  well_formed doc ->
  well_formed
    (with_itinerary doc
       (map (fun day =>
               if String.eqb (DayPlan.id day) dayId
               then with_activities day (F (DayPlan.activities day))
               else day) (itinerary doc))).
Proof.
  intros HF (Hc & Hid & Hact & Hd & Hk & Hb).
  unfold well_formed, contiguous, day_numbers in *.
  rewrite itinerary_with_itinerary.
  rewrite (on_day_proj DayPlan.day), (on_day_proj DayPlan.id), length_map
    by reflexivity.
  repeat split; try assumption.
  - apply Forall_on_day; [|exact Hact].
    intros d Hin Hn E. apply String.eqb_eq in E. simpl. now apply HF.
  - apply Forall_on_day; [|exact Hd]. now intros d _ H _.
Qed.

Lemma set_detail_well_formed (name : Name.t) (value : string)
    (doc : TripDocument) :
  name <> Name.startDate -> well_formed doc ->
  well_formed (set_detail name value doc).
Proof.
  intros Hn Hwf. destruct name; try contradiction; exact Hwf.
Qed.

Lemma Forall2_map_eq {A B : Type} (f : A -> B) (l l' : list A) :
  Forall2 (fun old new => f new = f old) l l' -> map f l' = map f l.
Proof.
  induction 1 as [|x y l l' H _ IH]; simpl; [reflexivity|].
  now rewrite H, IH.
Qed.

Lemma handleDetailChange_well_formed (name : Name.t) (value : string)
    (doc doc' : TripDocument) :
  well_formed doc -> handleDetailChange name value doc = Ok doc' ->
  well_formed doc'.
Proof.
  intros Hwf H. unfold handleDetailChange in H.
  destruct (itinerary doc) as [|day0 rest] eqn:Hit.
  - assert (doc' = set_detail name value doc) as ->
      by (destruct name; now injection H as <-).
    destruct Hwf as (Hc & Hid & Hact & Hd & Hk & Hb).
    unfold well_formed, contiguous, day_numbers in *.
    destruct name; simpl; rewrite Hit in *; repeat split; assumption
      || constructor.
  - destruct name;
      try (injection H as <-; now apply set_detail_well_formed).
    destruct (mapM _ (day0 :: rest)) as [it|] eqn:E; [|discriminate].
    simpl in H. injection H as <-. apply redate_inv in E.
    rewrite <- Hit in E.
    destruct Hwf as (Hc & Hid & Hact & Hd & Hk & Hb).
    unfold well_formed, contiguous, day_numbers in *. simpl.
    assert (Hday : map DayPlan.day it = map DayPlan.day (itinerary doc)).
    { apply Forall2_map_eq. eapply Forall2_impl; [|exact E].
      now intros ? ? (? & ? & ? & ?). }
    assert (Hids : map DayPlan.id it = map DayPlan.id (itinerary doc)).
    { apply Forall2_map_eq. eapply Forall2_impl; [|exact E].
      now intros ? ? (? & ? & ? & ?). }
    assert (Hacts : map DayPlan.activities it
                    = map DayPlan.activities (itinerary doc)).
    { apply Forall2_map_eq. eapply Forall2_impl; [|exact E].
      now intros ? ? (? & ? & ? & ?). }
    rewrite Hday, Hids.
    rewrite <- (length_map DayPlan.day it), Hday, length_map.
    repeat split; try assumption.
    + rewrite <- (Forall_map DayPlan.activities
                    (fun a => NoDup (map Activity.id a))), Hacts.
      now apply Forall_map.
    + clear - E. induction E as [|old new l l' (H & Hn & _) _ IH];
        constructor; [|exact IH].
      rewrite Hn. now apply dayDate_addDays.
Qed.

Lemma addDay_well_formed (uuid1 uuid2 : string) (doc doc' : TripDocument) :
  well_formed doc -> ~ In uuid1 (map DayPlan.id (itinerary doc)) ->
  addDay uuid1 uuid2 doc = Ok doc' -> well_formed doc'.
Proof.
  intros Hwf Hfresh H.
  pose proof (addDay_contiguous _ _ _ _ (proj1 Hwf) H) as Hc'.
  apply addDay_spec in H. destruct H as (t & Ht & Hr & ->).
  destruct Hwf as (Hc & Hid & Hact & Hd & Hk & Hb).
  unfold well_formed. split; [exact Hc'|]. simpl.
  rewrite map_app. simpl. repeat split; try assumption.
  - apply NoDup_app; [exact Hid|repeat constructor; simpl; tauto|].
    intros x Hx [<-|[]]. contradiction.
  - apply Forall_app. split; [exact Hact|].
    repeat constructor. simpl. tauto.
  - apply Forall_app. split; [exact Hd|]. repeat constructor. simpl.
    replace (Z.of_nat (List.length (itinerary doc)) + 1 - 1)
      with (Z.of_nat (List.length (itinerary doc))) by lia.
    now apply addDays_isoDate.
Qed.

Lemma removeDay_well_formed (dayId : string) (doc doc' : TripDocument) :
  well_formed doc -> removeDay dayId doc = Ok doc' -> well_formed doc'.
Proof.
  intros Hwf H.
  pose proof (removeDay_contiguous _ _ _ H) as Hc'.
  destruct (removeDay_inv _ _ _ H) as (l' & Hl' & ->).
  destruct (renumber_spec _ _ _ _ Hl') as (_ & _ & Hids & Hacts).
  destruct Hwf as (Hc & Hid & Hact & Hd & Hk & Hb).
  unfold well_formed. split; [exact Hc'|]. simpl.
  rewrite Hids. repeat split; try assumption.
  - now apply filter_keeps_distinct.
  - rewrite <- (Forall_map DayPlan.activities
                  (fun a => NoDup (map Activity.id a))), Hacts.
    apply Forall_map. apply Forall_forall. intros d Hin.
    apply filter_In in Hin. rewrite Forall_forall in Hact. now apply Hact.
  - now apply renumber_dates in Hl'.
Qed.

(** X11: the handlers of the itinerary form keep the invariants of the
    data model (days numbered [1..N], ids distinct, dates equal to the
    start date plus [day - 1] days, the four budget categories with
    non-negative amounts) whenever they return, provided the UUID drawn for
    a new day, or for a new activity of a day, is not already an id
    there. *)
Theorem itinerary_handlers_keep_well_formed (doc : TripDocument) :
  well_formed doc ->
  (forall name value doc',
      handleDetailChange name value doc = Ok doc' -> well_formed doc')
  /\ (forall dayId activityId field value,
        well_formed (handleActivityChange dayId activityId field value doc))
  /\ (forall randomUUID dayId,
        (forall day, In day (itinerary doc) -> DayPlan.id day = dayId ->
                     ~ In (randomUUID 0%nat)
                          (map Activity.id (DayPlan.activities day))) ->
        well_formed (addActivity randomUUID dayId doc))
  /\ (forall dayId activityId,
        well_formed (removeActivity dayId activityId doc))
  /\ (forall uuid1 uuid2 doc',
        ~ In uuid1 (map DayPlan.id (itinerary doc)) ->
        addDay uuid1 uuid2 doc = Ok doc' -> well_formed doc')
  /\ (forall dayId doc', removeDay dayId doc = Ok doc' -> well_formed doc').
Proof.
  intros Hwf. split; [|split; [|split; [|split; [|split]]]].
  - intros name value doc'. now apply handleDetailChange_well_formed.
  - intros dayId activityId field value. unfold handleActivityChange.
    apply (on_day_well_formed dayId
             (map (fun activity =>
                     if String.eqb (Activity.id activity) activityId
                     then set_activity field value activity else activity)));
      [|exact Hwf].
    intros d _ _ Hn. rewrite map_map.
    erewrite map_ext; [exact Hn|]. intros a. simpl.
    destruct (String.eqb (Activity.id a) activityId); [|reflexivity].
    apply set_activity_id.
  - intros randomUUID dayId Hfresh. unfold addActivity.
    rewrite (addActivity_map_one _ _ _ _ (proj1 (proj2 Hwf))).
    apply (on_day_well_formed dayId
             (fun acts =>
                (acts ++ [Activity.mk (randomUUID 0%nat) "" ""])%list));
      [|exact Hwf].
    intros d Hin Hid Hn. rewrite map_app. simpl.
    apply NoDup_app; [exact Hn|repeat constructor; simpl; tauto|].
    intros x Hx [<-|[]]. now apply (Hfresh d Hin Hid).
  - intros dayId activityId. unfold removeActivity.
    apply (on_day_well_formed dayId
             (filter (fun a => negb (String.eqb (Activity.id a) activityId))));
      [|exact Hwf].
    intros d _ _ Hn. now apply filter_keeps_distinct.
  - intros uuid1 uuid2 doc' Hfresh. now apply addDay_well_formed.
  - intros dayId doc'. now apply removeDay_well_formed.
Qed.

Lemma itinerary_handlers_keep_well_formed_witness :
  exists doc',
    addDay "day-2" "act-2" sample = Ok doc' /\ well_formed doc'.
Proof.
  eexists. split; [reflexivity|].
  destruct (itinerary_handlers_keep_well_formed sample sample_well_formed)
    as (_ & _ & _ & _ & H & _).
  apply (H "day-2" "act-2"); [|reflexivity].
  simpl. intuition discriminate.
Defined.

(** ** The budget *)

Lemma obj_replace_twice {V : Type} (k : string) (v1 v2 : V) o :
  obj_replace k v2 (obj_replace k v1 o) = obj_replace k v2 o.
Proof.
  induction o as [|[k' v'] o IH]; simpl; [reflexivity|].
  destruct (String.eqb k' k) eqn:E; simpl.
  - now rewrite String.eqb_refl.
  - now rewrite E, IH.
Qed.

Lemma obj_replace_insert {V : Type} (n : Z) (k : string) (v1 v2 : V) o :
  obj_get k o = None ->
  obj_replace k v2 (obj_insert n k v1 o) = obj_insert n k v2 o.
Proof.
  induction o as [|[k' v'] o IH]; simpl.
  - now rewrite String.eqb_refl.
  - destruct (String.eqb k' k) eqn:E; [discriminate|]. intros H.
    destruct (array_index k') as [n'|]; [destruct (n' <? n)|]; simpl;
      rewrite ?E, ?String.eqb_refl, ?IH; auto.
Qed.

Lemma obj_replace_last {V : Type} (k : string) (v1 v2 : V) o :
  obj_get k o = None ->
  obj_replace k v2 (o ++ [(k, v1)]) = (o ++ [(k, v2)])%list.
Proof.
  induction o as [|[k' v'] o IH]; simpl.
  - now rewrite String.eqb_refl.
  - destruct (String.eqb k' k); [discriminate|]. intros H. now rewrite IH.
Qed.

Lemma obj_set_twice {V : Type} (k : string) (v1 v2 : V) o :
  obj_set k v2 (obj_set k v1 o) = obj_set k v2 o.
Proof.
  unfold obj_set at 1. rewrite obj_get_set_same. unfold obj_set.
  destruct (obj_get k o) eqn:E; [apply obj_replace_twice|].
  destruct (array_index k).
  - now apply obj_replace_insert.
  - now apply obj_replace_last.
Qed.

Lemma obj_get_In {V : Type} (k : string) (v : V) o :
  obj_get k o = Some v -> In (k, v) o.
Proof.
  induction o as [|[k' v'] o IH]; simpl; [discriminate|].
  destruct (String.eqb k' k) eqn:E; [|auto].
  apply String.eqb_eq in E. intros H. injection H as <-. subst. now left.
Qed.

Lemma obj_get_key {V : Type} (k : string) (o : list (string * V)) :
  In k (map fst o) -> exists v, obj_get k o = Some v.
Proof.
  induction o as [|[k' v'] o IH]; simpl; [tauto|].
  destruct (String.eqb k' k) eqn:E; [eauto|].
  apply String.eqb_neq in E. intros [H|H]; [contradiction|auto].
Qed.

Lemma obj_set_Forall {V : Type} (P : string * V -> Prop) (k : string)
    (v : V) o :
  Forall P o -> P (k, v) -> Forall P (obj_set k v o).
Proof.
  intros Ho Hv. unfold obj_set. destruct (obj_get k o).
  - induction Ho as [|[k' v'] o Hx Hrest IH]; simpl; [constructor|].
    destruct (String.eqb k' k); now constructor.
  - destruct (array_index k) as [n|].
    + induction Ho as [|[k' v'] o Hx Hrest IH]; simpl;
        [now constructor|].
      destruct (array_index k') as [n'|]; [destruct (n' <? n)|];
        repeat constructor; assumption.
    + apply Forall_app. split; [exact Ho|now constructor].
Qed.

(** The property written is in the object. *)
Lemma obj_set_In {V : Type} (k : string) (v : V) o : In (k, v) (obj_set k v o).
Proof. apply obj_get_In, obj_get_set_same. Qed.

Lemma set_amount_twice (f : Dataset.field) (x1 x2 : Number)
    (c : BudgetCategory) :
  set_amount f x2 (set_amount f x1 c) = set_amount f x2 c.
Proof. destruct f; reflexivity. Qed.

Lemma or_else_twice (x : Number) :
  or_else (or_else x 0%float) 0%float = or_else x 0%float.
Proof.
  unfold or_else at 2 3. destruct (ToBoolean x) eqn:E.
  - unfold or_else. now rewrite E.
  - reflexivity.
Qed.

(** X12: [handleBudgetChange] keeps the invariants of the data model when
    the event comes from the currency selector, or names one of the four
    fixed categories and stores a finite non-negative amount. *)
Theorem handleBudgetChange_keeps_well_formed (name value : string)
    (field : option Dataset.field) (doc : TripDocument) :
  well_formed doc ->
  name = "currency"
  \/ field = None
  \/ (In name fixed_keys
      /\ nonneg_finite (or_else (parseFloat value) 0%float) = true) ->
  well_formed (handleBudgetChange name value field doc).
Proof.
  intros Hwf Hcase. unfold handleBudgetChange.
  destruct (String.eqb name "currency") eqn:Ec; [exact Hwf|].
  destruct field as [f|]; [|exact Hwf].
  destruct Hcase as [->|[Hn|(Hin & Hx)]]; try discriminate.
  destruct Hwf as (Hc & Hid & Hact & Hd & Hk & Hb).
  assert (Hkey : In name (map fst (categories (budget doc))))
    by now rewrite Hk.
  destruct (obj_get_key _ _ Hkey) as (c & Hget). rewrite Hget.
  unfold well_formed. repeat split; try assumption; simpl.
  - rewrite obj_set_keys; [exact Hk|]. now rewrite Hget.
  - apply obj_set_Forall; [exact Hb|]. simpl.
    apply obj_get_In in Hget. rewrite Forall_forall in Hb.
    destruct (Hb _ Hget) as (e & a & He & Ha & Hne & Hna). simpl in *.
    destruct f; simpl; do 2 eexists; repeat split; eassumption.
Qed.

Lemma handleBudgetChange_keeps_well_formed_witness :
  well_formed
    (handleBudgetChange "flights" "725.50" (Some Dataset.actual) sample).
Proof.
  apply (handleBudgetChange_keeps_well_formed
           "flights" "725.50" (Some Dataset.actual) sample sample_well_formed).
  right. right. split; [simpl; tauto|reflexivity].
Defined.

(** X13: for a category key, a second write to the same field overrides
    the first, whatever it was, and the writes to the two fields of a
    category can be made in either order. *)
Theorem handleBudgetChange_overrides (key v1 v2 : string)
    (doc : TripDocument) :
  key <> "currency" ->
  (forall f,
      handleBudgetChange key v2 (Some f)
        (handleBudgetChange key v1 (Some f) doc)
      = handleBudgetChange key v2 (Some f) doc)
  /\ handleBudgetChange key v2 (Some Dataset.actual)
       (handleBudgetChange key v1 (Some Dataset.estimated) doc)
     = handleBudgetChange key v1 (Some Dataset.estimated)
         (handleBudgetChange key v2 (Some Dataset.actual) doc).
Proof.
  intros Hk. apply String.eqb_neq in Hk. unfold handleBudgetChange.
  rewrite Hk. cbn [budget with_budget categories currency].
  rewrite !obj_get_set_same, !obj_set_twice.
  split; [intros f; now rewrite obj_get_set_same, obj_set_twice,
                      set_amount_twice|].
  destruct (obj_get key (categories (budget doc))); reflexivity.
Qed.

Lemma handleBudgetChange_overrides_witness :
  handleBudgetChange "flights" "700" (Some Dataset.estimated)
    (handleBudgetChange "flights" "x" (Some Dataset.estimated) sample)
  = handleBudgetChange "flights" "700" (Some Dataset.estimated) sample.
Proof.
  refine (proj1 (handleBudgetChange_overrides "flights" "x" "700" sample _)
            Dataset.estimated).
  discriminate.
Defined.

(** X14: a write to a category the budget holds keeps the order of the
    categories, the other categories, the other amount of the category and
    the currency. *)
Theorem handleBudgetChange_known_key (key value : string)
    (f : Dataset.field) (c : BudgetCategory) (doc : TripDocument) :
  key <> "currency" ->
  obj_get key (categories (budget doc)) = Some c ->
  let b' := budget (handleBudgetChange key value (Some f) doc) in
  map fst (categories b') = map fst (categories (budget doc))
  /\ (forall k, k <> key ->
        obj_get k (categories b') = obj_get k (categories (budget doc)))
  /\ obj_get key (categories b')
     = Some (set_amount f (or_else (parseFloat value) 0%float) c)
  /\ (forall g, g <> f ->
        amount g (set_amount f (or_else (parseFloat value) 0%float) c)
        = amount g c)
  /\ currency b' = currency (budget doc).
Proof.
  intros Hk Hget. apply String.eqb_neq in Hk. intros b'. subst b'.
  unfold handleBudgetChange. rewrite Hk, Hget. simpl.
  split; [|split; [|split; [|split]]].
  - apply obj_set_keys. now rewrite Hget.
  - intros k Hne. now apply obj_get_set_other.
  - apply obj_get_set_same.
  - intros g Hg. destruct f, g; try reflexivity; contradiction.
  - reflexivity.
Qed.

Lemma handleBudgetChange_known_key_witness :
  map fst
    (categories
       (budget (handleBudgetChange "activities" "450"
                  (Some Dataset.estimated) sample)))
  = fixed_keys.
Proof.
  refine (proj1 (handleBudgetChange_known_key "activities" "450"
                   Dataset.estimated _ sample _ eq_refl)).
  discriminate.
Defined.

(** X15: the budget input shows what the handler stored: after a change,
    [budget[key]?.[field] || 0] is the stored amount. *)
Theorem inputValue_after_change (key value : string) (f : Dataset.field)
    (doc : TripDocument) :
  key <> "currency" ->
  Some (inputValue (budget (handleBudgetChange key value (Some f) doc)) key f)
  = budget_amount (handleBudgetChange key value (Some f) doc) key f.
Proof.
  intros Hk. apply String.eqb_neq in Hk.
  pose proof (handleBudgetChange_amount doc key value f Hk) as H.
  rewrite H. unfold budget_amount in H. unfold inputValue.
  destruct (obj_get key _) as [c|]; [|discriminate].
  rewrite H. now rewrite or_else_twice.
Qed.

Lemma inputValue_after_change_witness :
  Some (inputValue
          (budget (handleBudgetChange "flights" "12.5" (Some Dataset.actual)
                     sample))
          "flights" Dataset.actual)
  = Some 12.5%float.
Proof.
  refine (eq_trans
            (inputValue_after_change "flights" "12.5" Dataset.actual sample _)
            _).
  - discriminate.
  - vm_compute. reflexivity.
Defined.

Lemma fold_left_skip (sel : BudgetCategory -> option Number)
    (l : list BudgetCategory) (c : BudgetCategory) (acc : Number) :
  fold_left
    (fun sum item =>
       match sel item with
       | Some x => (sum + x)%float
       | None => sum
       end) (l ++ [c]) acc
  = match sel c with
    | Some x =>
        (fold_left
           (fun sum item =>
              match sel item with
              | Some x => (sum + x)%float
              | None => sum
              end) l acc + x)%float
    | None =>
        fold_left
          (fun sum item =>
             match sel item with
             | Some x => (sum + x)%float
             | None => sum
             end) l acc
    end.
Proof. rewrite fold_left_app. simpl. reflexivity. Qed.

(** A category without the amount is skipped wherever it stands. *)
Lemma fold_left_absent (sel : BudgetCategory -> option Number)
    (before after : list BudgetCategory) (c : BudgetCategory) (acc : Number) :
  sel c = None ->
  fold_left
    (fun sum item =>
       match sel item with
       | Some x => (sum + x)%float
       | None => sum
       end) (before ++ c :: after) acc
  = fold_left
      (fun sum item =>
         match sel item with
         | Some x => (sum + x)%float
         | None => sum
         end) (before ++ after) acc.
Proof. intros H. rewrite !fold_left_app. simpl. now rewrite H. Qed.

(** With no array index among the keys a new array index goes first. *)
Lemma obj_insert_first {V : Type} (n : Z) (k : string) (v : V) o :
  Forall (fun kv => array_index (fst kv) = None) o ->
  obj_insert n k v o = (k, v) :: o.
Proof.
  intros H. destruct H as [|[k' v'] o Hx _]; simpl; [reflexivity|].
  simpl in Hx. now rewrite Hx.
Qed.

(** X16: the totals of [BudgetPlanner] run over every category of the
    budget, not over the four fixed ones, in the order in which the object
    enumerates them.  An estimate written under a new key that is not an
    array index is added last to the total estimated; under a new array
    index, which comes before the names, it is what the other estimates
    are added to.  The new category has no actual amount and is skipped
    in the total actual. *)
Theorem totals_count_new_category (key value : string) (doc : TripDocument) :
  key <> "currency" ->
  obj_get key (categories (budget doc)) = None ->
  let x := or_else (parseFloat value) 0%float in
  let b' :=
    budget (handleBudgetChange key value (Some Dataset.estimated) doc) in
  (array_index key = None ->
   totalEstimated b' = (totalEstimated (budget doc) + x)%float)
  /\ (array_index key <> None ->
      Forall (fun kc => array_index (fst kc) = None)
             (categories (budget doc)) ->
      totalEstimated b'
      = fold_left
          (fun sum item =>
             match estimated item with
             | Some y => (sum + y)%float
             | None => sum
             end)
          (map snd (categories (budget doc))) (0 + x)%float)
  /\ totalActual b' = totalActual (budget doc).
Proof.
  intros Hk Hnone. apply String.eqb_neq in Hk. intros x b'. subst b'.
  unfold handleBudgetChange. rewrite Hk, Hnone.
  cbn [budget with_budget categories]. fold x.
  unfold totalEstimated, totalActual. cbn [categories].
  split; [|split].
  - intros Hi. rewrite obj_set_new by assumption.
    rewrite map_app. cbn [map snd].
    now rewrite (fold_left_skip estimated).
  - intros Hi Hnames. unfold obj_set. rewrite Hnone.
    destruct (array_index key) as [n|]; [|congruence].
    now rewrite obj_insert_first.
  - unfold obj_set. rewrite Hnone.
    destruct (array_index key) as [n|].
    + destruct (obj_insert_place n key
                  (set_amount Dataset.estimated x no_category)
                  (categories (budget doc)))
        as (before & after & Ho & Hi & _).
      rewrite Hi, Ho, !map_app. cbn [map snd].
      now apply (fold_left_absent actual).
    + rewrite map_app. cbn [map snd].
      now rewrite (fold_left_skip actual).
Qed.

Lemma totals_count_new_category_witness :
  totalEstimated
    (budget (handleBudgetChange "food" "150" (Some Dataset.estimated) sample))
  = 1750%float
  /\ totalEstimated
       (budget (handleBudgetChange "food" "1e19" (Some Dataset.estimated)
                  sample))
     = 10000000000000002048%float
  /\ totalEstimated
       (budget (handleBudgetChange "7" "1e19" (Some Dataset.estimated)
                  sample))
     = 10000000000000000000%float.
Proof.
  split; [|split].
  - refine (eq_trans
              (proj1 (totals_count_new_category "food" "150" sample
                        _ eq_refl) eq_refl) _).
    + discriminate.
    + vm_compute. reflexivity.
  - refine (eq_trans
              (proj1 (totals_count_new_category "food" "1e19" sample
                        _ eq_refl) eq_refl) _).
    + discriminate.
    + vm_compute. reflexivity.
  - refine (eq_trans
              (proj1 (proj2 (totals_count_new_category "7" "1e19" sample
                               _ eq_refl)) _ _) _).
    + discriminate.
    + discriminate.
    + repeat constructor.
    + vm_compute. reflexivity.
Defined.

Lemma budgetSummary_None (cats : list (string * BudgetCategory)) :
  budgetSummary cats = None <->
  exists k c, In (k, c) cats /\ (estimated c = None \/ actual c = None).
Proof.
  induction cats as [|[k c] cats IH]; simpl.
  - split; [discriminate|]. now intros (k & c & [] & _).
  - destruct (estimated c) as [e|] eqn:He;
      [destruct (actual c) as [a|] eqn:Ha|].
    + destruct (budgetSummary cats) as [rows|].
      * split; [discriminate|].
        intros (k' & c' & [H|H] & Hn).
        -- injection H as <- <-. rewrite He, Ha in Hn.
           destruct Hn; discriminate.
        -- assert (Hx : Some rows = None) by (apply IH; eauto).
           discriminate.
      * split; [|reflexivity]. intros _.
        destruct (proj1 IH eq_refl) as (k' & c' & Hin & Hn).
        exists k', c'. split; [now right|exact Hn].
    + split; [|reflexivity]. intros _. exists k, c. split; [now left|auto].
    + split; [|reflexivity]. intros _. exists k, c. split; [now left|auto].
Qed.

(** X17: the budget summary of the preview renders exactly when every
    category has both amounts.  It does for a well-formed document, with
    one row per fixed category; it throws after an amount was written
    under a key the budget did not hold, the new category having one
    amount only. *)
Theorem budgetSummary_renders (doc : TripDocument) :
  (budgetSummary (categories (budget doc)) = None <->
   exists k c,
     In (k, c) (categories (budget doc))
     /\ (estimated c = None \/ actual c = None))
  /\ (well_formed doc ->
      exists rows,
        budgetSummary (categories (budget doc)) = Some rows
        /\ map (fun row => fst (fst row)) rows = fixed_keys)
  /\ (forall key value f,
        key <> "currency" ->
        obj_get key (categories (budget doc)) = None ->
        budgetSummary
          (categories (budget (handleBudgetChange key value (Some f) doc)))
        = None).
Proof.
  split; [apply budgetSummary_None|]. split.
  - intros (_ & _ & _ & _ & Hk & Hb). rewrite <- Hk. clear Hk.
    induction Hb as [|[k c] cats (e & a & He & Ha & _) _ (rows & Hr & Hkeys)];
      simpl in *.
    + now exists [].
    + rewrite He, Ha, Hr. eexists. split; [reflexivity|].
      simpl. now rewrite Hkeys.
  - intros key value f Hk Hnone. apply String.eqb_neq in Hk.
    unfold handleBudgetChange. rewrite Hk, Hnone.
    cbn [budget with_budget categories]. apply budgetSummary_None.
    exists key, (set_amount f (or_else (parseFloat value) 0%float) no_category).
    split; [apply obj_set_In|].
    destruct f; simpl; auto.
Qed.

Lemma budgetSummary_renders_witness :
  (exists rows,
      budgetSummary (categories (budget sample)) = Some rows
      /\ map (fun row => fst (fst row)) rows = fixed_keys)
  /\ budgetSummary
       (categories
          (budget (handleBudgetChange "food" "10" (Some Dataset.estimated)
                     sample)))
     = None.
Proof.
  destruct (budgetSummary_renders sample) as (_ & Hwf & Hnew).
  split; [exact (Hwf sample_well_formed)|].
  apply Hnew; [discriminate|reflexivity].
Defined.

(** ** Amounts and JSON *)

Lemma classify_nan (x : Number) : classify x = NaN -> is_nan x = true.
Proof.
  rewrite classify_spec. unfold is_nan. rewrite eqb_spec.
  unfold SF64classify, SFclassify.
  destruct (Prim2SF x) as [s|s| |s m e].
  - destruct s; discriminate.
  - destruct s; discriminate.
  - reflexivity.
  - destruct s;
      match goal with |- context [if ?c then _ else _] => destruct c end;
      discriminate.
Qed.

Lemma classify_zero (x : Number) :
  classify x = PZero \/ classify x = NZero -> is_zero x = true.
Proof.
  rewrite classify_spec. unfold is_zero. rewrite eqb_spec.
  change (Prim2SF 0%float) with (S754_zero false).
  unfold SF64classify, SFclassify.
  destruct (Prim2SF x) as [s|s| |s m e].
  - reflexivity.
  - destruct s; intros [H|H]; discriminate.
  - intros [H|H]; discriminate.
  - destruct s;
      match goal with |- context [if ?c then _ else _] => destruct c end;
      intros [H|H]; discriminate.
Qed.

(** X18: the amount the handler stores is never NaN and never the negative
    zero, so [JSON.stringify] writes it as a literal that reads back as the
    same Number, unless the raw value parses to an infinity, which is
    stored and written as [null]. *)
Theorem stored_amount_in_json (key value : string) (f : Dataset.field)
    (doc : TripDocument) :
  key <> "currency" ->
  exists x,
    budget_amount (handleBudgetChange key value (Some f) doc) key f = Some x
    /\ (JSON_number x = JNum x
        \/ (JSON_number x = JNull
            /\ x = parseFloat value
            /\ (classify x = PInf \/ classify x = NInf))).
Proof.
  intros Hk. apply String.eqb_neq in Hk.
  exists (or_else (parseFloat value) 0%float).
  split; [now apply handleBudgetChange_amount|].
  unfold or_else. destruct (ToBoolean (parseFloat value)) eqn:E;
    [|left; reflexivity].
  unfold ToBoolean in E. apply negb_true_iff, orb_false_iff in E.
  destruct E as [Hnan Hzero]. unfold JSON_number.
  destruct (classify (parseFloat value)) eqn:Ec;
    try (left; reflexivity);
    try (right; split; [reflexivity|split; [reflexivity|tauto]]).
  - rewrite (classify_zero _ (or_intror Ec)) in Hzero. discriminate.
  - rewrite (classify_nan _ Ec) in Hnan. discriminate.
Qed.

Lemma stored_amount_in_json_witness :
  exists x,
    budget_amount
      (handleBudgetChange "flights" "1e999" (Some Dataset.estimated) sample)
      "flights" Dataset.estimated = Some x
    /\ (JSON_number x = JNum x
        \/ (JSON_number x = JNull
            /\ x = parseFloat "1e999"
            /\ (classify x = PInf \/ classify x = NInf))).
Proof.
  apply (stored_amount_in_json "flights" "1e999" Dataset.estimated sample).
  discriminate.
Defined.

(** ** Saving and listening *)

Lemma JSON_number_idempotent (x : Number) :
  JSON_tree (JSON_number x) = JSON_number x.
Proof.
  unfold JSON_number. destruct (classify x) eqn:E; simpl;
    unfold JSON_number; try rewrite E; reflexivity.
Qed.

(** Writing what was read back writes the same text. *)
Lemma JSON_tree_idempotent : forall v, JSON_tree (JSON_tree v) = JSON_tree v.
Proof.
  fix IH 1. intros [| b | z | x | s | l | o]; try reflexivity.
  - apply JSON_number_idempotent.
  - simpl. f_equal. induction l as [|a l IHl]; simpl; [reflexivity|].
    now rewrite IH, IHl.
  - simpl. f_equal. induction o as [|[k a] o IHo]; simpl; [reflexivity|].
    now rewrite IH, IHo.
Qed.

(** X19: [saveItinerary] writes nothing exactly when there is no database
    or no user id; otherwise it writes, under the path of that user, a
    payload that is not empty and parses, and the listener that is handed
    the record sets the local state to the parsed value and does not save
    again.  Writing the value read back writes the same text. *)
Theorem saveItinerary_echo (db : bool) (userId : option string)
    (appId : string) (now : Z) (v : JSValue) :
  (saveItinerary db userId appId now v = None
   <-> db = false \/ userId = None \/ userId = Some "")
  /\ (forall path record,
        saveItinerary db userId appId now v = Some (path, record) ->
        (exists u,
            userId = Some u
            /\ path = "artifacts/" ++ appId ++ "/users/" ++ u
                        ++ "/itinerary_data/trip_master")
        /\ truthy (itineraryData record) = true
        /\ (forall dflt,
              onSnapshot_listener dflt (Some record)
              = [setTripDetails (JSON_tree v)])
        /\ JSON_stringify (JSON_tree v) = JSON_stringify v).
Proof.
  split.
  - unfold saveItinerary. destruct db; [|intuition].
    destruct userId as [[|c u]|]; split; intros H; try discriminate;
      try reflexivity; auto.
    destruct H as [H|[H|H]]; discriminate.
  - intros path record H. unfold saveItinerary in H.
    destruct db; [|discriminate].
    destruct userId as [[|c u]|]; try discriminate.
    injection H as <- <-. repeat split.
    + now exists (String c u).
    + unfold JSON_stringify. now rewrite JSON_tree_idempotent.
Qed.

Lemma saveItinerary_echo_witness :
  exists path record,
    saveItinerary true (Some "user-1") "app" sample_clock (to_value sample)
    = Some (path, record)
    /\ path = "artifacts/app/users/user-1/itinerary_data/trip_master"
    /\ onSnapshot_listener JNull (Some record)
       = [setTripDetails (JSON_tree (to_value sample))].
Proof.
  eexists. eexists. split; [reflexivity|]. split; [reflexivity|].
  refine (proj1 (proj2 (proj2
            (proj2 (saveItinerary_echo true (Some "user-1") "app"
                      sample_clock (to_value sample)) _ _ eq_refl))) JNull).
Defined.

(** X20: the listener saves, and then saves the default document and does
    nothing else, exactly when the record does not exist or its
    [itineraryData] is missing or empty.  In every other case it sets the
    local state once, to the parsed payload or, after logging, to the
    default document, and writes nothing. *)
Theorem onSnapshot_listener_cases (dflt : JSValue)
    (docSnap : option FirestoreRecord) :
  let calls := onSnapshot_listener dflt docSnap in
  ((exists d, In (call_saveItinerary d) calls)
   <-> docSnap = None
       \/ exists data, docSnap = Some data
                       /\ truthy (itineraryData data) = false)
  /\ (calls = [call_saveItinerary dflt]
      \/ (exists v, calls = [setTripDetails v])
      \/ calls = [ console_error "Error parsing stored itinerary data:";
                   setTripDetails dflt ])
  /\ (forall data payload parsedData,
        docSnap = Some data ->
        itineraryData data = Some payload ->
        truthy (Some payload) = true ->
        JSON_parse payload = Ok parsedData ->
        calls = [setTripDetails parsedData]).
Proof.
  intros calls. subst calls. unfold onSnapshot_listener.
  destruct docSnap as [data|].
  - destruct (itineraryData data) as [payload|] eqn:Hp.
    + destruct (truthy (Some payload)) eqn:Ht.
      * destruct (JSON_parse payload) as [parsed|e] eqn:Hj.
        -- split; [|split].
           ++ split.
              ** intros (d & [H|[]]). discriminate.
              ** intros [H|(data' & H & Hf)]; [discriminate|].
                 injection H as <-. rewrite Hp, Ht in Hf. discriminate.
           ++ right. left. eauto.
           ++ intros data' payload' parsed' H Hp' _ Hj'.
              injection H as <-. rewrite Hp in Hp'. injection Hp' as <-.
              rewrite Hj in Hj'. now injection Hj' as <-.
        -- split; [|split].
           ++ split.
              ** intros (d & [H|[H|[]]]); discriminate.
              ** intros [H|(data' & H & Hf)]; [discriminate|].
                 injection H as <-. rewrite Hp, Ht in Hf. discriminate.
           ++ right. right. reflexivity.
           ++ intros data' payload' parsed' H Hp' _ Hj'.
              injection H as <-. rewrite Hp in Hp'. injection Hp' as <-.
              rewrite Hj in Hj'. discriminate.
      * split; [|split].
        -- split; [|intros _; exists dflt; now left].
           intros _. right. exists data. now rewrite Hp.
        -- now left.
        -- intros data' payload' parsed' H Hp' Ht' _.
           injection H as <-. rewrite Hp in Hp'. injection Hp' as <-.
           rewrite Ht in Ht'. discriminate.
    + split; [|split].
      * split; [|intros _; exists dflt; now left].
        intros _. right. exists data. now rewrite Hp.
      * now left.
      * intros data' payload' parsed' H Hp' _ _.
        injection H as <-. rewrite Hp in Hp'. discriminate.
  - split; [|split].
    + split; [auto|intros _; exists dflt; now left].
    + now left.
    + intros data payload parsed H. discriminate.
Qed.

Lemma onSnapshot_listener_cases_witness :
  onSnapshot_listener JNull
    (Some {| itineraryData := Some (JSONText (to_value sample));
             lastUpdated := "2023-11-14T22:13:20.000Z" |})
  = [setTripDetails (to_value sample)].
Proof.
  exact (proj2 (proj2 (onSnapshot_listener_cases JNull
                         (Some {| itineraryData :=
                                    Some (JSONText (to_value sample));
                                  lastUpdated := "2023-11-14T22:13:20.000Z" |})))
           {| itineraryData := Some (JSONText (to_value sample));
              lastUpdated := "2023-11-14T22:13:20.000Z" |}
           (JSONText (to_value sample)) (to_value sample)
           eq_refl eq_refl eq_refl eq_refl).
Defined.

(** ** Loading the scripts *)

Lemma existsb_eqb_In (url : string) (scripts : list string) :
  existsb (String.eqb url) scripts = true <-> In url scripts.
Proof.
  rewrite existsb_exists. split.
  - intros (x & Hx & E). apply String.eqb_eq in E. now subst.
  - intros H. exists url. split; [exact H|apply String.eqb_refl].
Qed.

Lemma loadScript_In (url : string) (scripts : list string) :
  In url (loadScript url scripts).
Proof.
  unfold loadScript. destruct (existsb _ _) eqn:E.
  - now apply existsb_eqb_In.
  - apply in_or_app. right. now left.
Qed.

Lemma loadScript_present (url : string) (scripts : list string) :
  In url scripts -> loadScript url scripts = scripts.
Proof.
  intros H. unfold loadScript.
  now rewrite (proj2 (existsb_eqb_In url scripts) H).
Qed.

Lemma loadScript_keeps (url x : string) (scripts : list string) :
  In x scripts -> In x (loadScript url scripts).
Proof.
  intros H. unfold loadScript. destruct (existsb _ _); [exact H|].
  apply in_or_app. now left.
Qed.

Lemma loadScript_NoDup (url : string) (scripts : list string) :
  NoDup scripts -> NoDup (loadScript url scripts).
Proof.
  intros H. unfold loadScript. destruct (existsb _ _) eqn:E; [exact H|].
  apply NoDup_app; [exact H|repeat constructor; simpl; tauto|].
  intros x Hx [<-|[]]. apply existsb_eqb_In in Hx. congruence.
Qed.

(** X21: the effect that loads the PDF libraries leaves both scripts in
    the document, adds no script that is already there, so a document
    without duplicate scripts stays without, and running the effect again
    changes nothing. *)
Theorem loadScripts_once (scripts : list string) :
  In "https://cdnjs.cloudflare.com/ajax/libs/jspdf/2.5.1/jspdf.umd.min.js"
     (loadScripts scripts)
  /\ In "https://cdnjs.cloudflare.com/ajax/libs/html2canvas/1.4.1/html2canvas.min.js"
        (loadScripts scripts)
  /\ (forall x, In x scripts -> In x (loadScripts scripts))
  /\ (NoDup scripts -> NoDup (loadScripts scripts))
  /\ loadScripts (loadScripts scripts) = loadScripts scripts.
Proof.
  unfold loadScripts. split; [|split; [|split; [|split]]].
  - apply loadScript_keeps, loadScript_In.
  - apply loadScript_In.
  - intros x Hx. now apply loadScript_keeps, loadScript_keeps.
  - intros H. now apply loadScript_NoDup, loadScript_NoDup.
  - rewrite (loadScript_present
               "https://cdnjs.cloudflare.com/ajax/libs/jspdf/2.5.1/jspdf.umd.min.js")
      by apply loadScript_keeps, loadScript_In.
    apply loadScript_present, loadScript_In.
Qed.

Lemma loadScripts_once_witness :
  NoDup (loadScripts (loadScripts [])) /\ List.length (loadScripts []) = 2%nat.
Proof.
  split; [|reflexivity].
  destruct (loadScripts_once (loadScripts [])) as (_ & _ & _ & H & _).
  apply H. destruct (loadScripts_once []) as (_ & _ & _ & H0 & _).
  apply H0. constructor.
Defined.

(** ** The default document, again *)

Lemma isoDate_Day (t1 t2 : Z) : Day t1 = Day t2 -> isoDate t1 = isoDate t2.
Proof. unfold isoDate. now intros ->. Qed.

Lemma isoDate_injective (t1 t2 : Z) :
  0 <= t1 < year10000 -> 0 <= t2 < year10000 ->
  isoDate t1 = isoDate t2 -> Day t1 = Day t2.
Proof.
  intros H1 H2 H. pose proof (Date_parse_isoDate t1 H1) as P1.
  rewrite H, (Date_parse_isoDate t2 H2) in P1. injection P1 as P1.
  unfold msPerDay in P1. lia.
Qed.

Lemma defaultItinerary_value (now1 now2 now3 : Z) (uuid1 uuid2 : string) :
  0 <= now1 < year10000 -> 0 <= now2 < year10000 -> 0 <= now3 < year10000 ->
  defaultItinerary now1 now2 uuid1 now3 uuid2
  = Ok {| title := "Vigovia Trip Itinerary";
          destination := "Lisbon, Portugal";
          startDate := isoDate now1;
          endDate := isoDate (now2 + 86400000 * 2);
          notes := "Remember to pack comfortable walking shoes and charge your camera battery!";
          itinerary :=
            [ DayPlan.mk uuid1 1 (isoDate now3)
                [ Activity.mk uuid2 "09:00" "Arrive at Airport" ] ];
          budget := budget sample |}.
Proof.
  intros H1 H2 H3. unfold defaultItinerary, Date_of_number.
  rewrite !TimeClip_in_range, !toISODate_valid
    by (unfold in_range, maxTime, year10000 in *; lia).
  reflexivity.
Qed.

(** X22: the default document satisfies the invariants of the data model
    exactly when the two clock readings behind its start date and behind
    the date of its day fall on the same UTC day; readings on either side
    of midnight give a day 1 that is not dated the start date. *)
Theorem defaultItinerary_well_formed (now1 now2 now3 : Z)
    (uuid1 uuid2 : string) :
  0 <= now1 < year10000 -> 0 <= now2 < year10000 -> 0 <= now3 < year10000 ->
  exists doc,
    defaultItinerary now1 now2 uuid1 now3 uuid2 = Ok doc
    /\ (well_formed doc <-> Day now1 = Day now3).
Proof.
  intros H1 H2 H3. eexists. split; [now apply defaultItinerary_value|].
  assert (Hd : addDays (isoDate now1) (1 - 1) = Some (isoDate now1)).
  { rewrite (addDays_isoDate _ _ _ (Date_parse_isoDate now1 H1)).
    rewrite isoDate_next_day. do 2 f_equal. lia. }
  unfold well_formed.
  cbn [itinerary startDate budget categories map fst DayPlan.id DayPlan.day
       DayPlan.date DayPlan.activities Activity.id].
  split.
  - intros (_ & _ & _ & Hdates & _).
    inversion Hdates as [|? ? Hdate _]; subst.
    cbn [DayPlan.day DayPlan.date] in Hdate.
    rewrite Hd in Hdate. injection Hdate as Hdate.
    now apply isoDate_injective.
  - intros Hday.
    split; [reflexivity|].
    split; [repeat constructor; simpl; tauto|].
    split; [repeat constructor; simpl; tauto|].
    split; [|split; [reflexivity|]].
    + repeat constructor. cbn [DayPlan.day DayPlan.date].
      rewrite Hd. f_equal. now apply isoDate_Day.
    + repeat constructor; simpl; do 2 eexists; repeat split.
Qed.

Lemma defaultItinerary_well_formed_witness :
  exists doc,
    defaultItinerary 1700006399999 sample_clock "day-1" 1700006400000 "act-1"
    = Ok doc
    /\ startDate doc = "2023-11-14"
    /\ map DayPlan.date (itinerary doc) = ["2023-11-15"]
    /\ ~ well_formed doc.
Proof.
  destruct (defaultItinerary_well_formed
              1700006399999 sample_clock 1700006400000 "day-1" "act-1")
    as (doc & Hd & Hwf); try (unfold sample_clock, year10000; lia).
  exists doc. split; [exact Hd|].
  assert (E : doc = with_itinerary
                      (set_detail Name.startDate "2023-11-14" sample)
                      [ DayPlan.mk "day-1" 1 "2023-11-15"
                          [ Activity.mk "act-1" "09:00" "Arrive at Airport" ] ]).
  { vm_compute in Hd. now injection Hd as <-. }
  split; [now rewrite E|]. split; [now rewrite E|].
  intros H. apply Hwf in H. vm_compute in H. discriminate.
Defined.

(** ** Which documents survive the JSON round trip *)

Lemma JSON_number_lost (x : Number) :
  survives (Some x) = false -> JSON_number x <> JNum x.
Proof.
  unfold survives, JSON_number. destruct (classify x) eqn:E;
    try discriminate; intros _ H; try discriminate.
  injection H as H. rewrite <- H in E. vm_compute in E. discriminate.
Qed.

Lemma JSON_number_kept (x : Number) :
  JSON_number x = JNum x -> survives (Some x) = true.
Proof.
  intros H. destruct (survives (Some x)) eqn:E; [reflexivity|].
  now apply JSON_number_lost in E.
Qed.

Lemma JSON_tree_BudgetCategory_inv (c : BudgetCategory) :
  JSON_tree (BudgetCategory_value c) = BudgetCategory_value c ->
  survives (estimated c) = true /\ survives (actual c) = true.
Proof.
  destruct c as [[e|] [a|]]; unfold BudgetCategory_value;
    cbn [estimated actual property app JSON_tree map fst snd]; intros H.
  - injection H as He Ha. split; now apply JSON_number_kept.
  - injection H as He. split; [now apply JSON_number_kept|reflexivity].
  - injection H as Ha. split; [reflexivity|now apply JSON_number_kept].
  - split; reflexivity.
Qed.

(** X23: the value of a document comes back from [JSON.stringify] and
    [JSON.parse] as it was exactly when no budget amount is NaN, infinite
    or the negative zero. *)
Theorem json_round_trip_iff (doc : TripDocument) :
  JSON_parse (JSON_stringify (to_value doc)) = Ok (to_value doc)
  <-> Forall (fun kc => survives (estimated (snd kc)) = true
                        /\ survives (actual (snd kc)) = true)
             (categories (budget doc)).
Proof.
  split.
  - unfold JSON_stringify, JSON_parse. intros H. injection H as _ Hb.
    rewrite map_map in Hb.
    apply Forall_forall. intros [k c] Hin.
    rewrite map_ext_in_iff in Hb. specialize (Hb _ Hin).
    cbn [fst snd] in *. apply JSON_tree_BudgetCategory_inv.
    unfold BudgetCategory_value. cbn [JSON_tree]. injection Hb as Hb.
    now rewrite Hb.
  - intros H. unfold JSON_stringify, JSON_parse.
    now rewrite JSON_tree_document.
Qed.

Lemma json_round_trip_iff_witness :
  JSON_parse (JSON_stringify (to_value sample)) = Ok (to_value sample).
Proof.
  apply (proj2 (json_round_trip_iff sample)).
  repeat constructor.
Defined.
